(** * Feature assembly of the AlphaFold runner ([run/features.py])

    Shallow embedding of the feature-assembly pipeline: the raw-input
    cache ([getRawInputs]), the MMseqs2 client ([runMMseqs2]), the custom
    alignment reader ([getCustomMSADict]), the per-chain feature builder
    ([getChainFeatures]) and the alignment pairer ([pair_msa],
    [pad_sequences], [chain_break]).

    Conventions.
    - A Python [str] is a [string]; characters are the 8-bit code points
      of [ascii] (code points above 255 are outside the model).
    - A Python [dict] with string keys is a [gmap string _]; a dict with
      integer keys a [gmap Z _].
    - A raised exception is the [Raise] branch of [result].
    - A numpy [int32] array is a [list Z] whose arithmetic wraps around
      ([wrap32]); arrays that are mutated in place live in a [heap] and
      are passed around by location.
    - The network, the file system and the shell are a [world] that the
      commands of [IO] read and change; every call that leaves the
      process is recorded in its [trace].
    - The functions of the AlphaFold library are parameters of the
      builder (section [Builder]); module [Alphafold] instantiates them
      where a result has to be computed.

    [getInputFeatures], [run_af2.py] and [model_utils.py] only hand data
    to the library and the model runner and are not part of the
    embedding. *)

From Stdlib Require Import ZArith String Ascii List Lia Bool.
From stdpp Require Import base option list gmap strings pretty sorting.

Local Open Scope string_scope.
Local Open Scope Z_scope.
Local Open Scope nat_scope.
Local Open Scope list_scope.

(** ** Exceptions and the error monad *)

Inductive exn : Type :=
  | NameError (name : string)
  | UnboundLocalError (name : string)
  | KeyError (key : string)
  | IndexError (what : string)
  | ValueError (msg : string)
  | FileNotFoundError (path : string)
  | FileExistsError (path : string)
  | Exception (msg : string).

Inductive result (A : Type) : Type :=
  | Ok (a : A)
  | Raise (e : exn).
Arguments Ok {A} a.
Arguments Raise {A} e.

#[global] Instance result_ret : MRet result := fun A a => Ok a.
#[global] Instance result_bind : MBind result := fun A B f m =>
  match m with
  | Ok a => f a
  | Raise e => Raise e
  end.

Definition is_Ok {A} (r : result A) : Prop := ∃ a, r = Ok a.

(** [d[k]] on a dict: [KeyError] when the key is absent. *)
Definition getitem {V} (d : gmap string V) (k : string) : result V :=
  match d !! k with
  | Some v => Ok v
  | None => Raise (KeyError k)
  end.

(** ** numpy int32 arrays and the store they live in *)

Definition wrap32 (z : Z) : Z := ((z + 2 ^ 31) mod 2 ^ 32 - 2 ^ 31)%Z.

(** [np.array(range(n), dtype=np.int32)] *)
Definition arange (n : nat) : list Z := Z.of_nat <$> seq 0 n.

(** [a[k:] += v] on an int32 array: the suffix from [k] on is shifted,
    a [k] past the end selects an empty slice. *)
Definition iadd_from (k : nat) (v : Z) (a : list Z) : list Z :=
  take k a ++ ((λ x, wrap32 (x + v)) <$> drop k a).

Definition loc := nat.
Abbreviation heap := (gmap loc (list Z)).

(** ** [chain_break] *)

(** The loop of [chain_break] over [Ls[:-1]]; every iteration updates the
    array stored at [idx_res] in place. *)
Fixpoint chain_break_loop (h : heap) (idx_res : loc) (Ls_init : list nat)
    (L_prev : nat) (length : Z) : heap :=
  match Ls_init with
  | [] => h
  | L_i :: rest =>
      chain_break_loop (alter (iadd_from (L_prev + L_i) length) idx_res h)
        idx_res rest (L_prev + L_i) length
  end.

(** [chain_break(idx_res, Ls, length)]: returns the store after the loop
    and the reference it was given. *)
Definition chain_break (h : heap) (idx_res : loc) (Ls : list nat)
    (length : Z) : heap * loc :=
  (chain_break_loop h idx_res (removelast Ls) 0 length, idx_res).

(** The default of the [length] argument. *)
Definition chain_break_default_length : Z := 200.

(** ** Python string primitives *)

Module Py.

Definition nl : ascii := "010"%char.
Definition cr : ascii := "013"%char.
Definition gt : ascii := ">"%char.
Definition gap : ascii := "-"%char.
Definition nul : ascii := "000"%char.

(** [str.isspace] on one character (code points below 256). *)
Definition is_space (c : ascii) : bool :=
  let n := nat_of_ascii c in
  ((9 <=? n) && (n <=? 13)) || ((28 <=? n) && (n <=? 32))
  || (n =? 133) || (n =? 160).

(** The characters [str.splitlines] breaks a line at. *)
Definition is_linebreak (c : ascii) : bool :=
  let n := nat_of_ascii c in
  ((10 <=? n) && (n <=? 13)) || ((28 <=? n) && (n <=? 30)) || (n =? 133).

(** [s.startswith(c)] for a one-character prefix. *)
Definition startswith (c : ascii) (s : string) : bool :=
  match s with
  | String c' _ => bool_decide (c' = c)
  | EmptyString => false
  end.

(** [s[1:]] *)
Definition tail (s : string) : string :=
  match s with
  | String _ s' => s'
  | EmptyString => EmptyString
  end.

(** [c in s] *)
Fixpoint contains (c : ascii) (s : string) : bool :=
  match s with
  | EmptyString => false
  | String c' s' => bool_decide (c' = c) || contains c s'
  end.

(** [s.replace(c, '')] *)
Fixpoint remove_char (c : ascii) (s : string) : string :=
  match s with
  | EmptyString => EmptyString
  | String c' s' =>
      if bool_decide (c' = c) then remove_char c s'
      else String c' (remove_char c s')
  end.

(** [c * n] *)
Fixpoint repeat_char (c : ascii) (n : nat) : string :=
  match n with
  | O => EmptyString
  | S n' => String c (repeat_char c n')
  end.

(** [s.split(c)] with an explicit one-character separator: the fields
    between the separators, always at least one. *)
Fixpoint split (c : ascii) (s : string) : list string :=
  match s with
  | EmptyString => [EmptyString]
  | String c' s' =>
      if bool_decide (c' = c) then EmptyString :: split c s'
      else match split c s' with
           | f :: fs => String c' f :: fs
           | [] => [String c' EmptyString]
           end
  end.

(** [sep.join(parts)] *)
Fixpoint join (sep : string) (parts : list string) : string :=
  match parts with
  | [] => EmptyString
  | [p] => p
  | p :: ps => p +:+ sep +:+ join sep ps
  end.

(** [s.lstrip()], [s.rstrip()], [s.strip()] *)
Fixpoint lstrip (s : string) : string :=
  match s with
  | String c s' => if is_space c then lstrip s' else s
  | EmptyString => EmptyString
  end.

Fixpoint rstrip (s : string) : string :=
  match s with
  | EmptyString => EmptyString
  | String c s' =>
      match rstrip s' with
      | EmptyString => if is_space c then EmptyString else String c EmptyString
      | r => String c r
      end
  end.

Definition strip (s : string) : string := rstrip (lstrip s).

(** [s.splitlines()]: the lines without their terminators; [\r\n] is
    one break, and a terminator at the very end opens no further line. *)
Fixpoint splitlines (s : string) : list string :=
  match s with
  | EmptyString => []
  | String c s' =>
      if is_linebreak c then
        if bool_decide (c = cr) && startswith nl s' then splitlines s'
        else EmptyString :: splitlines s'
      else match splitlines s' with
           | l :: ls => String c l :: ls
           | [] => [String c EmptyString]
           end
  end.

(** [l[i]] for [0 <= i]: [IndexError] past the end. *)
Definition index_list {A} (l : list A) (i : nat) : result A :=
  match l !! i with
  | Some x => Ok x
  | None => Raise (IndexError "list index out of range")
  end.

(** [l.index(x)]: position of the first occurrence. *)
Fixpoint list_index (x : string) (l : list string) : option nat :=
  match l with
  | [] => None
  | y :: l' => if bool_decide (y = x) then Some 0 else S <$> list_index x l'
  end.

(** [x in l] for a list. *)
Definition list_contains (x : string) (l : list string) : bool :=
  bool_decide (x ∈ l).

End Py.

#[global] Instance result_fmap : FMap result := fun A B f m =>
  match m with
  | Ok a => Ok (f a)
  | Raise e => Raise e
  end.

(** ** Raw inputs *)

(** [RawInput]: sequence -> (raw MSA, template path or [None]). *)
Abbreviation RawInput := (gmap string (string * option string)).

(** The loop [for seq in seqs: if seq not in unique: unique.append(seq)],
    continuing from the list [unique] built so far. *)
Fixpoint append_unique (unique : list string) (seqs : list string)
    : list string :=
  match seqs with
  | [] => unique
  | seq :: rest =>
      if Py.list_contains seq unique then append_unique unique rest
      else append_unique (unique ++ [seq]) rest
  end.

(** ** The pairer: [pair_msa] and [pad_sequences] *)

(** The comprehension that builds [_blank_seq]; [n] is the index that
    [enumerate] has reached. *)
Fixpoint blank_seq_from (n : nat) (query_sequences : list string)
    (query_cardinality : list nat) : result (list string) :=
  match query_sequences with
  | [] => Ok []
  | seq :: rest =>
      c ← Py.index_list query_cardinality n;
      more ← blank_seq_from (S n) rest query_cardinality;
      Ok (replicate c (Py.repeat_char Py.gap (String.length seq)) ++ more)
  end.

(** What one line of a chain's alignment appends to
    [a3m_lines_combined]: nothing for an empty line, the line itself for
    a header, the line inside its column block otherwise. *)
Definition pad_line (_blank_seq : list string) (pos : nat)
    (a3m_line : string) : option string :=
  if String.length a3m_line =? 0 then None
  else if Py.startswith Py.gt a3m_line then Some a3m_line
  else Some (Py.join "" (take pos _blank_seq ++ [a3m_line]
                           ++ drop (pos + 1) _blank_seq)).

(** The loop over the lines of one alignment, for the instance at [pos]. *)
Definition pad_lines (_blank_seq : list string) (pos : nat)
    (a3m : string) : list string :=
  omap (pad_line _blank_seq pos) (Py.split Py.nl a3m).

(** The loop [for j in range(0, query_cardinality[n])], [copies]
    iterations of it being left. *)
Fixpoint pad_copies (_blank_seq : list string) (a3m_lines : list string)
    (n : nat) (copies : nat) (pos : nat) (a3m_lines_combined : list string)
    : result (list string * nat) :=
  match copies with
  | O => Ok (a3m_lines_combined, pos)
  | S copies' =>
      a3m ← Py.index_list a3m_lines n;
      pad_copies _blank_seq a3m_lines n copies' (pos + 1)
        (a3m_lines_combined ++ pad_lines _blank_seq pos a3m)
  end.

(** The loop [for n, seq in enumerate(query_sequences)]. *)
Fixpoint pad_chains (_blank_seq : list string) (a3m_lines : list string)
    (n : nat) (query_sequences : list string) (query_cardinality : list nat)
    (pos : nat) (a3m_lines_combined : list string) : result (list string) :=
  match query_sequences with
  | [] => Ok a3m_lines_combined
  | seq :: rest =>
      c ← Py.index_list query_cardinality n;
      '(combined, pos') ←
        pad_copies _blank_seq a3m_lines n c pos a3m_lines_combined;
      pad_chains _blank_seq a3m_lines (S n) rest query_cardinality
        pos' combined
  end.

(** The list [a3m_lines_combined] at the end of [pad_sequences]. *)
Definition pad_sequences_combined (a3m_lines : list string)
    (query_sequences : list string) (query_cardinality : list nat)
    : result (list string) :=
  _blank_seq ← blank_seq_from 0 query_sequences query_cardinality;
  pad_chains _blank_seq a3m_lines 0 query_sequences query_cardinality 0 [].

Definition pad_sequences (a3m_lines : list string)
    (query_sequences : list string) (query_cardinality : list nat)
    : result string :=
  Py.join (String Py.nl "")
    <$> pad_sequences_combined a3m_lines query_sequences query_cardinality.

(** The second loop of [pair_msa]: [seqs_cardinality[seq_idx] += 1].
    [seqs_cardinality] is as long as [unique_seqs], so the index is in
    range. *)
Fixpoint count_cardinality (unique_seqs : list string)
    (seqs_cardinality : list nat) (sequences : list string)
    : result (list nat) :=
  match sequences with
  | [] => Ok seqs_cardinality
  | seq :: rest =>
      match Py.list_index seq unique_seqs with
      | None => Raise (ValueError (seq +:+ " is not in list"))
      | Some seq_idx =>
          count_cardinality unique_seqs (alter S seq_idx seqs_cardinality) rest
      end
  end.

(** The third loop of [pair_msa]: [raw_inputs[seq][0]] for each unique
    sequence. *)
Fixpoint unpaired_msas_of (raw_inputs : RawInput) (unique_seqs : list string)
    : result (list string) :=
  match unique_seqs with
  | [] => Ok []
  | seq :: rest =>
      entry ← getitem raw_inputs seq;
      more ← unpaired_msas_of raw_inputs rest;
      Ok (entry.1 :: more)
  end.

Definition pair_msa (sequences : list string) (raw_inputs : RawInput)
    : result string :=
  let unique_seqs := append_unique [] sequences in
  seqs_cardinality ←
    count_cardinality unique_seqs (replicate (length unique_seqs) 0) sequences;
  unpaired_msas ← unpaired_msas_of raw_inputs unique_seqs;
  pad_sequences unpaired_msas unique_seqs seqs_cardinality.

(** ** More Python primitives: [int], [str.split()], [os.path.join] *)

Module PyNum.

Definition digit_of (c : ascii) : option Z :=
  let n := nat_of_ascii c in
  if (48 <=? n) && (n <=? 57) then Some (Z.of_nat (n - 48)) else None.

(** Digits of a decimal literal; single underscores may separate
    digits.  [prev] tells whether the previous character was a digit. *)
Fixpoint int_digits (acc : Z) (prev : bool) (s : string) : option Z :=
  match s with
  | EmptyString => if prev then Some acc else None
  | String c s' =>
      if bool_decide (c = "_"%char) then
        if prev then int_digits acc false s' else None
      else match digit_of c with
           | Some d => int_digits (10 * acc + d)%Z true s'
           | None => None
           end
  end.

(** [int(s)] for a decimal literal of ASCII digits.  The message of the
    error quotes [s] the way [repr] does for a text of printable
    characters without quotes. *)
Definition int (s : string) : result Z :=
  let t := Py.strip s in
  let '(neg, body) :=
    match t with
    | String "-"%char b => (true, b)
    | String "+"%char b => (false, b)
    | _ => (false, t)
    end in
  match int_digits 0 false body with
  | Some v => Ok (if neg : bool then (- v)%Z else v)
  | None =>
      Raise (ValueError ("invalid literal for int() with base 10: '" +:+ s
                         +:+ "'"))
  end.

(** [s.split()]: the maximal runs of non-blank characters. *)
Fixpoint words (s : string) : list string :=
  match s with
  | EmptyString => []
  | String c s' =>
      if Py.is_space c then words s'
      else match s' with
           | String c2 _ =>
               if Py.is_space c2 then String c EmptyString :: words s'
               else match words s' with
                    | w :: ws => String c w :: ws
                    | [] => [String c EmptyString]
                    end
           | EmptyString => [String c EmptyString]
           end
  end.

(** [os.path.join(a, b)] on POSIX paths. *)
Definition path_join (a b : string) : string :=
  if Py.startswith "/"%char b then b
  else if bool_decide (a = "") then b
  else if Py.startswith "/"%char (String.rev a) then a +:+ b
  else a +:+ "/" +:+ b.

End PyNum.

(** ** The world [runMMseqs2] runs in *)

(** What the service answers to a ticket request: a body that is not
    JSON, or a JSON object with its [status] and [id] fields (if any). *)
Inductive reply : Type :=
  | NotJson
  | Json (status : option string) (id : option string).

(** Calls that leave the process. *)
Inductive event : Type :=
  | EvSubmit (q mode : string)
  | EvStatus (ID : string)
  | EvDownload (ID : string)
  | EvSleep
  | EvSystem (command : string).

(** A text file is the list of lines that iterating over it yields (each
    with its terminator); an archive is its members. *)
Inductive file : Type :=
  | TextFile (lines : list string)
  | TarFile (members : list (string * list string)).

Record world : Type := World {
  files : gmap string file;
  dirs : gset string;
  (** the answers to the coming ticket requests, in order; when they run
      out the connection fails *)
  replies : list reply;
  (** what the result download serves *)
  archive : file;
  trace : list event
}.

(** Commands that act on the world and may raise. *)
Definition IO (A : Type) : Type := world → result A * world.

#[global] Instance IO_ret : MRet IO := fun A a w => (Ok a, w).
#[global] Instance IO_bind : MBind IO := fun A B f m w =>
  match m w with
  | (Ok a, w') => f a w'
  | (Raise e, w') => (Raise e, w')
  end.

Definition lift {A} (r : result A) : IO A := fun w => (r, w).
Definition emit (e : event) : IO unit := fun w =>
  (Ok (), World (files w) (dirs w) (replies w) (archive w) (trace w ++ [e])).
Definition isfile (p : string) : IO bool := fun w =>
  (Ok (bool_decide (is_Some (files w !! p))), w).
Definition isdir (p : string) : IO bool := fun w =>
  (Ok (bool_decide (p ∈ dirs w)), w).
(** [os.mkdir(p)] where [p] is not a directory yet, and
    [os.makedirs(p, exist_ok=True)]: both fail on a regular file. *)
Definition makedir (p : string) : IO unit := fun w =>
  match files w !! p with
  | Some _ => (Raise (FileExistsError p), w)
  | None =>
      (Ok (),
       World (files w) ({[p]} ∪ dirs w) (replies w) (archive w) (trace w))
  end.
(** [open(p, 'r')] and iteration over the lines. *)
Definition read_lines (p : string) : IO (list string) := fun w =>
  match files w !! p with
  | Some (TextFile lines) => (Ok lines, w)
  | Some (TarFile _) => (Raise (Exception "UnicodeDecodeError"), w)
  | None => (Raise (FileNotFoundError p), w)
  end.
(** [tarfile.open(p)] and [extractall(out_path)]. *)
Definition extract_all (p out_path : string) : IO unit := fun w =>
  match files w !! p with
  | Some (TarFile members) =>
      (Ok (),
       World (foldl (fun fs m => <[PyNum.path_join out_path m.1 := TextFile m.2]> fs)
                (files w) members)
         (dirs w) (replies w) (archive w) (trace w))
  | Some (TextFile _) => (Raise (Exception "tarfile.ReadError"), w)
  | None => (Raise (FileNotFoundError p), w)
  end.

(** ** [runMMseqs2] *)

Definition NL : string := String Py.nl EmptyString.

(** The query text that [submit] builds: [>n\nseq\n] for each sequence,
    [n] counting up from [N]. *)
Fixpoint submit_query (n : Z) (seqs : list string) : string :=
  match seqs with
  | [] => EmptyString
  | seq :: rest =>
      ">" +:+ pretty n +:+ NL +:+ seq +:+ NL +:+ submit_query (n + 1)%Z rest
  end.

(** [out['status']] and [out['id']]; a body that is not JSON has been
    replaced by [{'status': 'UNKNOWN'}]. *)
Definition status_of (out : reply) : result string :=
  match out with
  | NotJson => Ok "UNKNOWN"
  | Json (Some s) _ => Ok s
  | Json None _ => Raise (KeyError "status")
  end.

Definition id_of (out : reply) : result string :=
  match out with
  | Json _ (Some i) => Ok i
  | _ => Raise (KeyError "id")
  end.

Definition api_error_message : string :=
  "MMseqs2 API is giving errors. Please confirm "
  +:+ "your input is a valid protein sequence. If "
  +:+ "error persists, please try again in an hour.".

(** Where the loop of lines 147-168 stands when it sends a request:
    submitting the job, or polling the ticket [ID]. *)
Inductive phase : Type :=
  | Submitting
  | Polling (ID : string).

(** What the loop does with an answer. *)
Inductive verdict : Type :=
  | SleepResubmit          (* inner loop of lines 150-153 *)
  | SleepPoll (ID : string)  (* inner loop of lines 157-159 *)
  | Resubmit               (* [REDO] still true: back to line 149 *)
  | Complete (ID : string) (* [REDO = False], leave the loop *)
  | Failed (e : exn).

(** Lines 157-168 for an answer with status [st] under ticket [ID]. *)
Definition after_ticket (ID : string) (st : string) : verdict :=
  if bool_decide (st ∈ ["UNKNOWN"; "RUNNING"; "PENDING"]) then SleepPoll ID
  else if bool_decide (st = "COMPLETE") then Complete ID
  else if bool_decide (st = "ERROR") then Failed (Exception api_error_message)
  else Resubmit.

Definition on_reply (ph : phase) (out : reply) : verdict :=
  match status_of out with
  | Raise e => Failed e
  | Ok st =>
      match ph with
      | Submitting =>
          if bool_decide (st ∈ ["UNKNOWN"; "RATELIMIT"]) then SleepResubmit
          else match id_of out with
               | Raise e => Failed e
               | Ok ID => after_ticket ID st
               end
      | Polling ID => after_ticket ID st
      end
  end.

Definition request_of (submit : event) (ph : phase) : event :=
  match ph with
  | Submitting => submit
  | Polling ID => EvStatus ID
  end.

(** The loop [while REDO], one request per answer of the service.
    Returns the ticket of the completed job or the exception raised, the
    calls made, and the answers not consumed. *)
Fixpoint api_loop (submit : event) (ph : phase) (answers : list reply)
    : result string * list event * list reply :=
  match answers with
  | [] => (Raise (Exception "requests.ConnectionError"),
           [request_of submit ph], [])
  | out :: rest =>
      match on_reply ph out with
      | SleepResubmit =>
          let '(r, evs, unread) := api_loop submit Submitting rest in
          (r, request_of submit ph :: EvSleep :: evs, unread)
      | SleepPoll ID =>
          let '(r, evs, unread) := api_loop submit (Polling ID) rest in
          (r, request_of submit ph :: EvSleep :: evs, unread)
      | Resubmit =>
          let '(r, evs, unread) := api_loop submit Submitting rest in
          (r, request_of submit ph :: evs, unread)
      | Complete ID => (Ok ID, [request_of submit ph], rest)
      | Failed e => (Raise e, [request_of submit ph], rest)
      end
  end.

(** Lines 146-170: nothing when the archive is there already. *)
Definition call_api (unique_seqs : list string) (mode : string)
    (N : Z) (tar_gz_file : string) : IO unit :=
  cached ← isfile tar_gz_file;
  if cached : bool then mret ()
  else fun w =>
    let submit := EvSubmit (submit_query N unique_seqs) mode in
    let '(r, evs, unread) := api_loop submit Submitting (replies w) in
    let w' := World (files w) (dirs w) unread (archive w) (trace w ++ evs) in
    match r with
    | Raise e => (Raise e, w')
    | Ok ID =>
        (* download(ID, tar_gz_file) *)
        (Ok (),
         World (<[tar_gz_file := archive w]> (files w)) (dirs w) unread
           (archive w) (trace w ++ evs ++ [EvDownload ID]))
    end.

(** [sorted(list(set(sequences)))] *)
Definition str_le (a b : string) : Prop := String.leb a b = true.
#[global] Instance str_le_dec a b : Decision (str_le a b) :=
  decide (String.leb a b = true).

Definition sorted_set (sequences : list string) : list string :=
  merge_sort str_le (remove_dups sequences).

(** [Ms = [N + unique_seqs.index(seq) for seq in sequences]] *)
Fixpoint tags_of (N : Z) (unique_seqs : list string) (sequences : list string)
    : result (list Z) :=
  match sequences with
  | [] => Ok []
  | seq :: rest =>
      match Py.list_index seq unique_seqs with
      | None => Raise (ValueError (seq +:+ " is not in list"))
      | Some i =>
          more ← tags_of N unique_seqs rest;
          Ok ((N + Z.of_nat i)%Z :: more)
      end
  end.

(** *** Reading the template table (lines 182-212) *)

(** [templates[M].append(pdb)], creating the entry at the end when [M] is
    new: the dict keeps its keys in insertion order. *)
Fixpoint templates_append (templates : list (Z * list string)) (M : Z)
    (pdb : string) : list (Z * list string) :=
  match templates with
  | [] => [(M, [pdb])]
  | (k, l) :: rest =>
      if bool_decide (k = M) then (k, l ++ [pdb]) :: rest
      else (k, l) :: templates_append rest M pdb
  end.

Fixpoint read_m8 (templates : list (Z * list string)) (lines : list string)
    : result (list (Z * list string)) :=
  match lines with
  | [] => Ok templates
  | line :: rest =>
      let p := PyNum.words (Py.rstrip line) in
      M ← Py.index_list p 0;
      pdb ← Py.index_list p 1;
      M ← PyNum.int M;
      read_m8 (templates_append templates M pdb) rest
  end.

(** The loop [for k, TMPL in templates.items()]. *)
Fixpoint fetch_templates (prefix mode : string) (num_templates : nat)
    (templates : list (Z * list string)) (template_paths : gmap Z string)
    : IO (gmap Z string) :=
  match templates with
  | [] => mret template_paths
  | (k, TMPL) :: rest =>
      let TMPL_PATH :=
        PyNum.path_join (prefix +:+ "_" +:+ mode) ("templates_" +:+ pretty k) in
      there ← isdir TMPL_PATH;
      (if there : bool then mret ()
       else
         makedir TMPL_PATH;;
         let TMPL_LINE := Py.join "," (take num_templates TMPL) in
         emit (EvSystem ("curl -s https://a3m-templates.mmseqs.com/template/"
                         +:+ TMPL_LINE +:+ " | tar xzf - -C " +:+ TMPL_PATH
                         +:+ "/"));;
         emit (EvSystem ("cp " +:+ TMPL_PATH +:+ "/pdb70_a3m.ffindex "
                         +:+ TMPL_PATH +:+ "/pdb70_cs219.ffindex"));;
         emit (EvSystem ("touch " +:+ TMPL_PATH +:+ "/pdb70_cs219.ffdata")));;
      fetch_templates prefix mode num_templates rest
        (<[k := TMPL_PATH]> template_paths)
  end.

(** *** Splitting the result files by tag (lines 214-233) *)

(** The variables of the loop over the lines of the result files. *)
Record gather_state : Type := GatherState {
  update_M : bool;
  cur_M : option Z;
  a3m_lines_of : gmap Z (list string)
}.

(** One iteration of [for line in f]. *)
Definition gather_line (st : gather_state) (line : string)
    : result gather_state :=
  if 0 <? String.length line then
    let '(line, upd) :=
      if Py.contains Py.nul line then (Py.remove_char Py.nul line, true)
      else (line, update_M st) in
    '(upd, M, d) ←
      (if Py.startswith Py.gt line && upd then
         M ← PyNum.int (Py.rstrip (Py.tail line));
         Ok (false, Some M,
             match a3m_lines_of st !! M with
             | None => <[M := []]> (a3m_lines_of st)
             | Some _ => a3m_lines_of st
             end)
       else Ok (upd, cur_M st, a3m_lines_of st));
    match M with
    | None => Raise (KeyError "None")
    | Some m =>
        match d !! m with
        | None => Raise (KeyError (pretty m))
        | Some l => Ok (GatherState upd (Some m) (<[m := l ++ [line]]> d))
        end
    end
  else Ok st.

Fixpoint gather_lines (st : gather_state) (lines : list string)
    : result gather_state :=
  match lines with
  | [] => Ok st
  | line :: rest => st' ← gather_line st line; gather_lines st' rest
  end.

(** The loop [for a3m_file in a3m_files]; [update_M, M] start afresh for
    every file, the dict is shared. *)
Fixpoint gather_files (a3m_files : list string) (d : gmap Z (list string))
    : IO (gmap Z (list string)) :=
  match a3m_files with
  | [] => mret d
  | a3m_file :: rest =>
      lines ← read_lines a3m_file;
      st ← lift (gather_lines (GatherState true None d) lines);
      gather_files rest (a3m_lines_of st)
  end.

(** [[''.join(a3m_lines[n]) for n in Ms]] *)
Fixpoint join_tags (d : gmap Z (list string)) (Ms : list Z)
    : result (list string) :=
  match Ms with
  | [] => Ok []
  | n :: rest =>
      match d !! n with
      | None => Raise (KeyError (pretty n))
      | Some l => more ← join_tags d rest; Ok (Py.join "" l :: more)
      end
  end.

(** The [sequences] argument: one string or a list of them. *)
Inductive seqs_arg : Type :=
  | OneSequence (s : string)
  | Sequences (l : list string).

Definition mode_of (use_env use_filter : bool) : string :=
  if use_filter then (if use_env then "env" else "all")
  else (if use_env then "env-nofilter" else "nofilter").

(** [runMMseqs2].  By line 248 [sequences] has been rebound to a list, so
    the lists are what is returned in either case.  The service address
    [host_url] only names the service the requests go to. *)
Definition runMMseqs2 (prefix : string) (sequences : seqs_arg)
    (use_env use_filter use_templates : bool) (num_templates : nat)
    : IO (list string * list (option string)) :=
  let sequences :=
    match sequences with OneSequence s => [s] | Sequences l => l end in
  let mode := mode_of use_env use_filter in
  let out_path := prefix +:+ "_" +:+ mode in
  makedir out_path;;
  let tar_gz_file := PyNum.path_join out_path "out.tar.gz" in
  let N := 101%Z in
  let unique_seqs := sorted_set sequences in
  Ms ← lift (tags_of N unique_seqs sequences);
  call_api unique_seqs mode N tar_gz_file;;
  let a3m_files :=
    PyNum.path_join out_path "uniref.a3m"
    :: (if use_env
        then [PyNum.path_join out_path "bfd.mgnify30.metaeuk30.smag30.a3m"]
        else []) in
  extracted ← isfile (PyNum.path_join out_path "uniref.a3m");
  (if extracted : bool then mret () else extract_all tar_gz_file out_path);;
  template_paths ←
    (if use_templates then
       lines ← read_lines (PyNum.path_join out_path "pdb70.m8");
       templates ← lift (read_m8 [] lines);
       fetch_templates prefix mode num_templates templates ∅
     else mret ∅);
  a3m_lines ← gather_files a3m_files ∅;
  a3m_lines ← lift (join_tags a3m_lines Ms);
  mret (a3m_lines,
        if use_templates then (fun n => template_paths !! n) <$> Ms
        else (fun _ => None) <$> Ms).

(** ** [getRawInputs] *)

(** [(filename, [sequence])] *)
Definition CleanQuery : Type := string * list string.

(** The loop over the queries that gathers the unique sequences. *)
Fixpoint unique_of_queries (unique_sequences : list string)
    (queries : list CleanQuery) : list string :=
  match queries with
  | [] => unique_sequences
  | query :: rest =>
      unique_of_queries (append_unique unique_sequences query.2) rest
  end.

(** The loop [for a3m, templates in zip(a3m_lines, template_paths)]. *)
Fixpoint store_raw_inputs (raw_inputs : RawInput)
    (pairs : list (string * option string)) : result RawInput :=
  match pairs with
  | [] => Ok raw_inputs
  | (a3m, templates) :: rest =>
      sequence ← Py.index_list (Py.splitlines a3m) 1;
      store_raw_inputs (<[sequence := (a3m, templates)]> raw_inputs) rest
  end.

Definition getRawInputs (queries : list CleanQuery) (msa_mode : string)
    (use_filter use_templates : bool) (output_dir : string) : IO RawInput :=
  let unique_sequences := unique_of_queries [] queries in
  '(a3m_lines, template_paths) ←
    (if negb (bool_decide (msa_mode = "single_sequence"))
        && negb (bool_decide (unique_sequences = []))
     then
       let use_env := bool_decide (msa_mode = "MMseqs2-U+E") in
       runMMseqs2 (PyNum.path_join output_dir "mmseqs2")
         (Sequences unique_sequences) use_env use_filter use_templates 20
     else
       mret ((fun sequence => ">1" +:+ NL +:+ sequence +:+ NL)
               <$> unique_sequences,
             (fun _ => None) <$> unique_sequences));
  lift (store_raw_inputs ∅ (zip a3m_lines template_paths)).

(** ** [getCustomMSADict] *)

(** An entry of a directory: its name and, for a regular file, its text. *)
Definition dir_entry : Type := string * option string.

(** [os.listdir]: the entries of each directory, [None] where there is
    no such directory. *)
Definition listing : Type := string → option (list dir_entry).

(** Reading a variable: [scope] holds the names bound where the variable
    is read; a name bound nowhere (neither in the function nor in the
    module) is a [NameError]. *)
Fixpoint lookup_name {V} (name : string) (scope : list (string * V))
    : result V :=
  match scope with
  | [] => Raise (NameError name)
  | (x, v) :: rest =>
      if bool_decide (x = name) then Ok v else lookup_name name rest
  end.

(** Lines 266-276: the first line that is neither a header nor blank,
    once a header has been seen. *)
Fixpoint capture_line (capture_sequence : bool) (lines : list string)
    : option string :=
  match lines with
  | [] => None
  | line :: rest =>
      let line := Py.strip line in
      if Py.startswith Py.gt line then capture_line true rest
      else if bool_decide (line = "") then capture_line capture_sequence rest
      else if capture_sequence then Some line
      else capture_line capture_sequence rest
  end.

Definition duplicate_msa_message (sequence : string) : string :=
  "Multiple custom MSAs found for the sequence the same "
  +:+ "sequence: " +:+ sequence +:+ ". There can only be one custom MSA "
  +:+ "per sequence.".

Definition no_custom_msa_message (custom_msa_path : string) : string :=
  "No custom MSAs detected in " +:+ custom_msa_path
  +:+ ". Double-check the "
  +:+ "path or no not provide the --custom_msa_path argument.".

(** The body of the loop over the file names (lines 261-283).
    [sequence] is the variable of that name, which keeps its value from
    one file to the next. *)
Fixpoint custom_msa_loop (files : list (string * string))
    (custom_msa_dict : gmap string string) (sequence : option string)
    : result (gmap string string) :=
  match files with
  | [] => Ok custom_msa_dict
  | (filename, text) :: rest =>
      let extension := List.last (Py.split "."%char filename) "" in
      if bool_decide (extension = ".a3m") then
        let a3m_lines := text in
        let sequence :=
          match capture_line false (Py.splitlines a3m_lines) with
          | Some s => Some s
          | None => sequence
          end in
        match sequence with
        | None => Raise (UnboundLocalError "sequence")
        | Some s =>
            match custom_msa_dict !! s with
            | Some _ => Raise (ValueError (duplicate_msa_message s))
            | None =>
                custom_msa_loop rest (<[s := a3m_lines]> custom_msa_dict)
                  sequence
            end
        end
      else custom_msa_loop rest custom_msa_dict sequence
  end.

(** The regular files of a listing, with their text. *)
Definition regular_files (entries : list dir_entry)
    : list (string * string) :=
  omap (fun e : dir_entry => match e.2 with
                             | Some text => Some (e.1, text)
                             | None => None
                             end) entries.

Definition getCustomMSADict (ls : listing) (custom_msa_path : string)
    : result (gmap string string) :=
  match ls custom_msa_path with
  | None => Raise (FileNotFoundError custom_msa_path)
  | Some entries =>
      let onlyfiles := regular_files entries in
      (* line 260 iterates over [onlyfile] *)
      files ← lookup_name "onlyfile" [("onlyfiles", onlyfiles)];
      custom_msa_dict ← custom_msa_loop files ∅ None;
      if bool_decide (custom_msa_dict = ∅) then
        Raise (ValueError (no_custom_msa_message custom_msa_path))
      else Ok custom_msa_dict
  end.

(** ** Feature bundles *)

(** A feature array: a vector of integers with its values, or an array
    of some other kind with its shape and the texts it encodes. *)
Inductive feature : Type :=
  | Ints (values : list Z)
  | Data (shape : list nat) (texts : list string).

Definition shape_of (f : feature) : list nat :=
  match f with
  | Ints values => [length values]
  | Data shape _ => shape
  end.

Abbreviation FeatureDict := (gmap string feature).

(** [d.update(e)] *)
Definition update {V} (d e : gmap string V) : gmap string V := e ∪ d.

(** [np.array([int(n) for n, l in enumerate(Ls) for _ in range(0, l)])] *)
Fixpoint asym_ids (n : nat) (Ls : list nat) : list Z :=
  match Ls with
  | [] => []
  | l :: rest => replicate l (Z.of_nat n) ++ asym_ids (S n) rest
  end.

(** [total_sequence] and [Ls] after the loop of lines 401-403. *)
Definition total_sequence_of (sequences : list string) : string :=
  foldl (fun total sequence => total +:+ sequence) "" sequences.

Definition Ls_of (sequences : list string) : list nat :=
  String.length <$> sequences.

(** [chain_break] applied to the array of a bundle: the array is the
    only object of a store of its own. *)
Definition chain_break_feature (idx_res : feature) (Ls : list nat)
    : result feature :=
  match idx_res with
  | Ints values =>
      let '(h, r) :=
        chain_break {[ 0 := values ]} 0 Ls chain_break_default_length in
      match h !! r with
      | Some values' => Ok (Ints values')
      | None => Raise (KeyError "residue_index")
      end
  | Data _ _ => Raise (Exception "residue_index is not an integer vector")
  end.

(** ** The per-chain feature builder *)

Section Builder.

(** The AlphaFold library the builder calls into. *)
Variable Msa : Type.
Variable parse_a3m : string → result Msa.
Variable make_sequence_features : string → string → nat → FeatureDict.
Variable make_msa_features : list Msa → result FeatureDict.
Variable empty_placeholder_template_features : nat → nat → FeatureDict.
(** [hhsearch] against the template directory followed by the template
    featurizer, as [make_template] chains them. *)
Variable search_templates : string → string → string → result FeatureDict.
Variable get_hash : string → string.
Variable MSA_FEATURES : list string.
Variable PDB_CHAIN_IDS : string.

(** [make_template(query_sequence, a3m_lines, template_paths)] *)
Definition make_template (query_sequence a3m_lines template_paths : string)
    : result FeatureDict :=
  search_templates query_sequence a3m_lines template_paths.

(** [getMSA]: an empty string and an empty (or absent) dict are false. *)
Definition getMSA (sequence : string)
    (raw_inputs_from_sequence : option RawInput)
    (custom_a3m_lines : option string) : result (list Msa) :=
  a3m_lines ←
    match custom_a3m_lines with
    | Some (String c s) => Ok (String c s)
    | _ =>
        match raw_inputs_from_sequence with
        | Some raw =>
            if bool_decide (raw = ∅) then Raise (UnboundLocalError "a3m_lines")
            else raw_inputs ← getitem raw sequence; Ok (raw_inputs.1)
        | None => Raise (UnboundLocalError "a3m_lines")
        end
    end;
  msa ← parse_a3m a3m_lines;
  Ok [msa].

Definition getUniprotMSA (sequence : string) : result (list Msa) :=
  let a3m := ">" +:+ get_hash sequence +:+ NL +:+ sequence +:+ NL in
  msa ← parse_a3m a3m;
  Ok [msa].

(** [PDB_CHAIN_IDS[i]] *)
Definition chain_id (i : nat) : result string :=
  match String.get i PDB_CHAIN_IDS with
  | Some c => Ok (String c EmptyString)
  | None => Raise (IndexError "string index out of range")
  end.

(** The dict comprehension of lines 366-369. *)
Definition all_seq_features_of (valid_feats : list string)
    (features : FeatureDict) : FeatureDict :=
  kmap (fun k => k +:+ "_all_seq")
    (filter (fun kv : string * feature => kv.1 ∈ valid_feats) features).

(** Lines 345-390: the bundle of one chain. *)
Definition chain_feature_dict (sequences : list string)
    (raw_inputs : RawInput) (use_templates : bool)
    (custom_msa_dict : gmap string string)
    (custom_template_path : option string) (sequence : string)
    : result FeatureDict :=
  let feature_dict : FeatureDict := ∅ in
  let feature_dict :=
    update feature_dict
      (make_sequence_features sequence "query" (String.length sequence)) in
  (* MSA features: the [update] belongs to the [else] branch *)
  feature_dict ←
    match custom_msa_dict !! sequence with
    | Some custom =>
        msa ← getMSA sequence None (Some custom);
        Ok feature_dict
    | None =>
        msa ← getMSA sequence (Some raw_inputs) None;
        msa_features ← make_msa_features msa;
        Ok (update feature_dict msa_features)
    end;
  feature_dict ←
    (if 1 <? length (remove_dups sequences) then
       uniprot_msa ← getUniprotMSA sequence;
       let valid_feats :=
         MSA_FEATURES ++ ["msa_uniprot_accession_identifiers";
                          "msa_species_identifiers"] in
       uniprot_features ← make_msa_features uniprot_msa;
       Ok (update feature_dict
             (all_seq_features_of valid_feats uniprot_features))
     else Ok feature_dict);
  (* Template features *)
  match custom_template_path with
  | Some (String _ _) => Raise (NameError "get_custom_template_features")
  | _ =>
      if use_templates then
        new_raw_inputs ← getitem raw_inputs sequence;
        let a3m := new_raw_inputs.1 in
        match new_raw_inputs.2 with
        | None =>
            Ok (update feature_dict
                  (empty_placeholder_template_features 0
                     (String.length sequence)))
        | Some template =>
            template_features ← make_template sequence a3m template;
            Ok (update feature_dict template_features)
        end
      else
        Ok (update feature_dict
              (empty_placeholder_template_features 0
                 (String.length sequence)))
  end.

(** The loop [for sequence_idx, sequence in enumerate(sequences)]; [todo]
    is what is left of [sequences]. *)
Fixpoint chain_loop (sequences : list string) (raw_inputs : RawInput)
    (use_templates : bool) (custom_msa_dict : gmap string string)
    (custom_template_path : option string) (sequence_idx : nat)
    (todo : list string) (features_for_chain : gmap string FeatureDict)
    : result (gmap string FeatureDict) :=
  match todo with
  | [] => Ok features_for_chain
  | sequence :: rest =>
      feature_dict ←
        chain_feature_dict sequences raw_inputs use_templates
          custom_msa_dict custom_template_path sequence;
      id ← chain_id sequence_idx;
      chain_loop sequences raw_inputs use_templates custom_msa_dict
        custom_template_path (S sequence_idx) rest
        (<[id := feature_dict]> features_for_chain)
  end.

(** Lines 395-426: several chains under a model that is not a multimer
    model.  After the loop of lines 401-403 the name [sequence] refers to
    the last chain, and it is unbound when there was none. *)
Definition concatenated_feature_dict (sequences : list string)
    (raw_inputs : RawInput) : result (gmap string FeatureDict) :=
  let feature_dict : FeatureDict := ∅ in
  a3m_lines ← pair_msa sequences raw_inputs;
  let total_sequence := total_sequence_of sequences in
  let Ls := Ls_of sequences in
  let sequence := List.last (Some <$> sequences) None in
  msa ← parse_a3m a3m_lines;
  let feature_dict :=
    update feature_dict
      (make_sequence_features total_sequence "none"
         (String.length total_sequence)) in
  msa_features ← make_msa_features [msa];
  let feature_dict := update feature_dict msa_features in
  sequence ←
    match sequence with
    | Some s => Ok s
    | None => Raise (UnboundLocalError "sequence")
    end;
  let feature_dict :=
    update feature_dict
      (empty_placeholder_template_features 0 (String.length sequence)) in
  residue_index ← getitem feature_dict "residue_index";
  residue_index ← chain_break_feature residue_index Ls;
  let feature_dict := <["residue_index" := residue_index]> feature_dict in
  let feature_dict := <["asym_id" := Ints (asym_ids 0 Ls)]> feature_dict in
  id ← chain_id 0;
  Ok {[ id := feature_dict ]}.

(** [getChainFeatures].  An empty path counts as no path. *)
Definition getChainFeatures (ls : listing) (sequences : list string)
    (raw_inputs : RawInput) (use_templates : bool)
    (custom_msa_path custom_template_path : option string)
    (use_multimer : bool) : result (gmap string FeatureDict) :=
  custom_msa_dict ←
    match custom_msa_path with
    | Some (String c p) => getCustomMSADict ls (String c p)
    | _ => Ok ∅
    end;
  if bool_decide (length sequences = 1) || use_multimer then
    chain_loop sequences raw_inputs use_templates custom_msa_dict
      custom_template_path 0 sequences ∅
  else concatenated_feature_dict sequences raw_inputs.

End Builder.

(** ** [getInputFeatures] *)

Section InputFeatures.

(** The multimer pipeline of the AlphaFold library. *)
Variable convert_monomer_features : FeatureDict → string → result FeatureDict.
Variable add_assembly_features :
  gmap string FeatureDict → result (gmap string FeatureDict).
Variable pair_and_merge : gmap string FeatureDict → bool → result FeatureDict.
Variable pad_msa : FeatureDict → nat → result FeatureDict.
Variable PDB_CHAIN_IDS : string.

(** The loop [for chain_id, features in chain_features.items()]; the
    chains are converted one by one, each under its own key. *)
Definition convert_chains (chain_features : gmap string FeatureDict)
    : result (gmap string FeatureDict) :=
  list_to_map <$>
    mapM (fun kv : string * FeatureDict =>
            features ← convert_monomer_features kv.2 kv.1;
            Ok (kv.1, features))
         (map_to_list chain_features).

Definition getInputFeatures (sequences : list string)
    (chain_features : gmap string FeatureDict) (is_prokaryote : bool)
    (min_num_seq : nat) (use_multimer : bool) : result FeatureDict :=
  if bool_decide (length sequences = 1) || negb use_multimer then
    id ← chain_id PDB_CHAIN_IDS 0;
    getitem chain_features id
  else
    all_chain_features ← convert_chains chain_features;
    all_chain_features ← add_assembly_features all_chain_features;
    input_features ← pair_and_merge all_chain_features is_prokaryote;
    pad_msa input_features min_num_seq.

End InputFeatures.

(** ** The AlphaFold library, as far as the builder relies on it *)

Module Alphafold.

(** Modelled from the spec: the structured alignment of
    [alphafold.data.parsers], whose source is not at hand: "an ordered
    sequence of rows, each row (aligned_sequence, description)". *)
Definition Msa : Type := list (string * string).

(** Modelled from the spec: [parsers.parse_a3m], whose source is not at
    hand: "parses raw alignment text (header/sequence line pairs) into
    the structured Alignment type"; it "must tolerate blank lines" and "a
    header line with no following sequence line, or vice versa, is a
    format error". *)
Fixpoint parse_pairs (lines : list string) : result Msa :=
  match lines with
  | [] => Ok []
  | header :: rest =>
      if Py.startswith Py.gt header then
        match rest with
        | aligned :: rest' =>
            if Py.startswith Py.gt aligned then
              Raise (ValueError "header without a sequence line")
            else more ← parse_pairs rest'; Ok ((aligned, Py.tail header) :: more)
        | [] => Raise (ValueError "header without a sequence line")
        end
      else Raise (ValueError "sequence line without a header")
  end.

Definition parse_a3m (a3m_string : string) : result Msa :=
  parse_pairs
    (filter (fun line => line ≠ "") (Py.strip <$> Py.splitlines a3m_string)).

(** Modelled from the spec: [pipeline.make_sequence_features], whose
    source is not at hand: "one-hot residue encoding, residue count, raw
    sequence string, a synthetic description", and [residue_index] "as
    0..N-1"; the per-residue arrays have the residue count as leading
    dimension. *)
Definition make_sequence_features (sequence description : string)
    (num_res : nat) : FeatureDict :=
  {[ "aatype" := Data [num_res; 21] [sequence];
     "domain_name" := Data [1] [description];
     "residue_index" := Ints (arange num_res);
     "seq_length" := Ints (replicate num_res (Z.of_nat num_res));
     "sequence" := Data [1] [sequence] ]}.

(** Modelled from the spec: [pipeline.make_msa_features], whose source is
    not at hand: the per-row arrays have the alignment depth as leading
    dimension, the residue count being the length of the first row. *)
Definition make_msa_features (msas : list Msa) : result FeatureDict :=
  let rows := remove_dups (fst <$> concat msas) in
  match rows with
  | [] => Raise (ValueError "At least one sequence must be provided.")
  | first :: _ =>
      let num_res := String.length first in
      let depth := length rows in
      Ok {[ "msa" := Data [depth; num_res] rows;
            "deletion_matrix_int" := Data [depth; num_res] rows;
            "num_alignments" := Ints (replicate num_res (Z.of_nat depth));
            "msa_species_identifiers" := Data [depth] (snd <$> concat msas) ]}
  end.

(** Modelled from the spec: [notebook_utils.empty_placeholder_template_features],
    whose source is not at hand: the "zero templates" placeholder, "same
    feature names/dtypes as a real template result, with leading
    dimension zero"; the per-residue axis follows the template axis. *)
Definition empty_placeholder_template_features (num_templates num_res : nat)
    : FeatureDict :=
  {[ "template_aatype" := Data [num_templates; num_res; 22] [];
     "template_all_atom_masks" := Data [num_templates; num_res; 37] [];
     "template_all_atom_positions" := Data [num_templates; num_res; 37; 3] [];
     "template_domain_names" := Data [num_templates] [];
     "template_sequence" := Data [num_templates] [];
     "template_sum_probs" := Data [num_templates] [] ]}.

(** Modelled from the spec: the allow-list [msa_pairing.MSA_FEATURES] and
    the chain identifiers [protein.PDB_CHAIN_IDS] "assigned in input
    order (A, B, C, ...)", whose sources are not at hand. *)
Definition MSA_FEATURES : list string :=
  ["msa"; "msa_mask"; "deletion_matrix"; "deletion_matrix_int"].

Definition PDB_CHAIN_IDS : string :=
  "ABCDEFGHIJKLMNOPQRSTUVWXYZabcdefghijklmnopqrstuvwxyz0123456789".

End Alphafold.

(** [getChainFeatures] over the library above; the template search and
    the hash of [utils] stay parameters. *)
Definition getChainFeatures_af
    (search_templates : string → string → string → result FeatureDict)
    (get_hash : string → string) :=
  getChainFeatures Alphafold.Msa Alphafold.parse_a3m
    Alphafold.make_sequence_features Alphafold.make_msa_features
    Alphafold.empty_placeholder_template_features search_templates get_hash
    Alphafold.MSA_FEATURES Alphafold.PDB_CHAIN_IDS.

(** ** Views used by the statements *)

(** The contents of the array after the loop of [chain_break]. *)
Fixpoint shifted (Ls_init : list nat) (L_prev : nat) (length : Z)
    (arr : list Z) : list Z :=
  match Ls_init with
  | [] => arr
  | L_i :: rest =>
      shifted rest (L_prev + L_i) length (iadd_from (L_prev + L_i) length arr)
  end.

(** How many of the slices [L_prev + L_i :] of the loop contain [i]. *)
Fixpoint crossed (Ls_init : list nat) (L_prev : nat) (i : nat) : nat :=
  match Ls_init with
  | [] => 0
  | L_i :: rest =>
      (if decide (L_prev + L_i ≤ i) then 1 else 0)
      + crossed rest (L_prev + L_i) i
  end.

(** The chain that residue [i] of the concatenation belongs to. *)
Fixpoint chain_of (Ls : list nat) (i : nat) : nat :=
  match Ls with
  | [] => 0
  | L :: rest => if decide (i < L) then 0 else S (chain_of rest (i - L))
  end.

Definition int32 (x : Z) : Prop := (- 2 ^ 31 ≤ x < 2 ^ 31)%Z.

(** No character of [s] ends a line. *)
Fixpoint no_linebreak (s : string) : bool :=
  match s with
  | EmptyString => true
  | String c s' => negb (Py.is_linebreak c) && no_linebreak s'
  end.

(** The one-row alignment of line 70. *)
Definition single_row (sequence : string) : string :=
  ">1" +:+ NL +:+ sequence +:+ NL.

(** The feature [name] of chain [chain] in the outcome of the builder. *)
Definition feature_at (r : result (gmap string FeatureDict))
    (chain name : string) : option feature :=
  match r with
  | Ok bundles => bundles !! chain ≫= (fun fd : FeatureDict => fd !! name)
  | Raise _ => None
  end.

Definition template_feature_names : list string :=
  ["template_aatype"; "template_all_atom_masks";
   "template_all_atom_positions"; "template_domain_names";
   "template_sequence"; "template_sum_probs"].

(** The phase the loop is in after the answers [pre], when none of them
    ends it. *)
Fixpoint phase_after (ph : phase) (pre : list reply) : option phase :=
  match pre with
  | [] => Some ph
  | out :: rest =>
      match on_reply ph out with
      | SleepResubmit | Resubmit => phase_after Submitting rest
      | SleepPoll ID => phase_after (Polling ID) rest
      | Complete _ | Failed _ => None
      end
  end.

(** The tag of a sequence: [N] plus its rank among the distinct
    sequences. *)
Definition tag_of (N : Z) (unique_seqs : list string) (seq : string) : Z :=
  (N + Z.of_nat (default 0%nat (Py.list_index seq unique_seqs)))%Z.

(** Every entry of the dict of tagged lines starts with a non-empty
    line (the header that opened it). *)
Definition headed (d : gmap Z (list string)) : Prop :=
  ∀ m l, d !! m = Some l → ∃ h t, l = h :: t ∧ h ≠ "".

(** A run of [n] gap characters. *)
Definition gaps (n : nat) : string := Py.repeat_char Py.gap n.

(** The chain instances of an alignment, in column order: each entry of
    [qs] as many times as its cardinality says. *)
Definition instances_of {A} (qs : list A) (cards : list nat) : list A :=
  concat (zip_with (fun q c => replicate c q) qs cards).

(** The rows of the block-diagonal layout of the alignments [a3ms], the
    first of them being instance [pos] of the columns [_blank_seq]. *)
Fixpoint blocks (_blank_seq : list string) (pos : nat) (a3ms : list string)
    : list string :=
  match a3ms with
  | [] => []
  | a3m :: rest =>
      pad_lines _blank_seq pos a3m ++ blocks _blank_seq (pos + 1) rest
  end.

(** The layout the specification describes for the pairer: the chain
    instances [instances] are laid out in that order, and every row of
    the alignment of an instance has residues in the column block of that
    instance only and gaps elsewhere. *)
Definition block_diagonal (raw_inputs : RawInput) (instances : list string)
    : result string :=
  a3ms ← unpaired_msas_of raw_inputs instances;
  Ok (Py.join NL
        (blocks ((fun seq => gaps (String.length seq)) <$> instances) 0 a3ms)).

(** How often [seq] occurs in [sequences]. *)
Definition occurrences (sequences : list string) (seq : string) : nat :=
  length (filter (fun s => s = seq) sequences).

(** The chain instances as [pair_msa] lays them out: the distinct
    sequences in order of first occurrence, each repeated as often as it
    occurs in the query. *)
Definition grouped (sequences : list string) : list string :=
  let unique_seqs := append_unique [] sequences in
  instances_of unique_seqs (occurrences sequences <$> unique_seqs).

(** The feature [name] of a bundle that may have failed to build. *)
Definition feature_in (r : result FeatureDict) (name : string)
    : option feature :=
  match r with
  | Ok fd => fd !! name
  | Raise _ => None
  end.

(** The exception of an outcome, if it is one. *)
Definition raised {A} (r : result A) : option exn :=
  match r with
  | Ok _ => None
  | Raise e => Some e
  end.

(** ** Further views used by the statements *)

(** An alignment text whose rows are as long as its sequence. *)
Definition rows_fit (raw_inputs : RawInput) (s : string) : Prop :=
  ∀ entry line,
    raw_inputs !! s = Some entry → line ∈ Py.split Py.nl entry.1 →
    Py.startswith Py.gt line = false → line ≠ "" →
    String.length line = String.length s.

(** An answer after which the job is submitted again: a body that is
    not JSON, or the status [UNKNOWN] or [RATELIMIT]. *)
Definition resubmitted (out : reply) : Prop :=
  status_of out = Ok "UNKNOWN" ∨ status_of out = Ok "RATELIMIT".

(** An answer to a status request after which the ticket is polled
    again. *)
Definition still_running (out : reply) : Prop :=
  status_of out = Ok "UNKNOWN" ∨ status_of out = Ok "RUNNING"
  ∨ status_of out = Ok "PENDING".

(** An entry of a result file: the tag of its header line, the header
    line and the lines that follow it, each with its line terminator. *)
Record entry : Type := Entry {
  entry_tag : Z;
  entry_header : string;
  entry_lines : list string
}.

(** The header starts with [>] and carries the tag; no line is empty or
    holds a NUL character. *)
Definition entry_ok (e : entry) : Prop :=
  Py.startswith Py.gt (entry_header e) = true
  ∧ Py.contains Py.nul (entry_header e) = false
  ∧ PyNum.int (Py.rstrip (Py.tail (entry_header e))) = Ok (entry_tag e)
  ∧ Forall (λ line, 0 < String.length line ∧ Py.contains Py.nul line = false)
      (entry_lines e).

(** The lines of entries that each follow a NUL character. *)
Definition db_lines (entries : list entry) : list string :=
  flat_map (λ e, String Py.nul (entry_header e) :: entry_lines e) entries.

(** The template hits a list of table lines stands for: the first two
    fields of each line. *)
Definition m8_hit (line : string) (hit : Z * string) : Prop :=
  ∃ f0 more,
    PyNum.words (Py.rstrip line) = f0 :: hit.2 :: more
    ∧ PyNum.int f0 = Ok hit.1.

(** [templates[M]], where the table has the key. *)
Fixpoint hits_of (templates : list (Z * list string)) (M : Z)
    : option (list string) :=
  match templates with
  | [] => None
  | (k, l) :: rest => if bool_decide (k = M) then Some l else hits_of rest M
  end.

(** [a3m_lines[M]] after the lines of one entry. *)
Definition store_entry (d : gmap Z (list string)) (e : entry)
    : gmap Z (list string) :=
  <[entry_tag e := default [] (d !! entry_tag e)
                   ++ entry_header e :: entry_lines e]> d.

(** ** Inputs of the examples *)

(** A directory [custom] with one alignment file, for the sequence
    [ACDE]. *)
Definition custom_ACDE : string :=
  ">query" +:+ NL +:+ "ACDE" +:+ NL +:+ ">mine" +:+ NL +:+ "ACDD" +:+ NL.

Definition custom_dir : listing := fun p =>
  if bool_decide (p = "custom") then Some [("query.a3m", Some custom_ACDE)]
  else None.

(** Raw inputs with a computed alignment for [ACDE]. *)
Definition raw_ACDE : RawInput :=
  {[ "ACDE" := (">101" +:+ NL +:+ "ACDE" +:+ NL +:+ ">remote" +:+ NL
                +:+ "AC-E" +:+ NL, None) ]}.

(** Raw inputs for the chains [AC] and [DEF]. *)
Definition raw_AC_DEF : RawInput :=
  <["AC" := (">101" +:+ NL +:+ "AC" +:+ NL, None)]>
    {[ "DEF" := (">102" +:+ NL +:+ "DEF" +:+ NL, None) ]}.

(** Raw inputs for the chains [AC] and [GHI]. *)
Definition raw_AC_GHI : RawInput :=
  <["AC" := (">101" +:+ NL +:+ "AC" +:+ NL, None)]>
    {[ "GHI" := (">102" +:+ NL +:+ "GHI" +:+ NL, None) ]}.

(** A world in which nothing has happened yet and no service answers. *)
Definition idle_world : world := World ∅ ∅ [] (TextFile []) [].

(** A service that fails the job after one unreadable answer and one
    [PENDING]. *)
Definition failing_service : world :=
  World ∅ ∅
    [NotJson; Json (Some "PENDING") (Some "T1");
     Json (Some "ERROR") (Some "T1"); Json (Some "COMPLETE") (Some "T1")]
    (TarFile []) [].

(** A service that completes the job and serves alignments for the tags
    101 and 102, the second behind a NUL byte. *)
Definition answering_service : world :=
  World ∅ ∅
    [NotJson; Json (Some "RUNNING") (Some "T1");
     Json (Some "COMPLETE") (Some "T1")]
    (TarFile
       [("uniref.a3m",
         [">101" +:+ NL; "ACDE" +:+ NL; ">hit" +:+ NL; "AC-E" +:+ NL;
          String Py.nul (">102" +:+ NL); "GHIK" +:+ NL])])
    [].

(** Two entries of a result file. *)
Definition entry_101 : entry :=
  Entry 101 (">101" +:+ NL) ["ACDE" +:+ NL; ">hit" +:+ NL; "AC-E" +:+ NL].
Definition entry_102 : entry := Entry 102 (">102" +:+ NL) ["GHIK" +:+ NL].

(** * Properties *)

#[local] Set Warnings "-clear-no-such-hyp".

(** ** The error monads *)

Lemma result_bind_inv {A B} (r : result A) (f : A → result B) b :
  r ≫= f = Ok b → ∃ a, r = Ok a ∧ f a = Ok b.
Proof. destruct r; [eauto|done]. Qed.

Lemma IO_bind_inv {A B} (m : IO A) (f : A → IO B) w b w' :
  (m ≫= f) w = (Ok b, w') → ∃ a w1, m w = (Ok a, w1) ∧ f a w1 = (Ok b, w').
Proof.
  unfold mbind, IO_bind. destruct (m w) as [[a|e] w1]; [eauto|done].
Qed.

Lemma lift_inv {A} (r : result A) w a w' :
  lift r w = (Ok a, w') → r = Ok a ∧ w' = w.
Proof. unfold lift. by intros [= -> ->]. Qed.

(** Peels the first command off a run that is known to have returned. *)
Ltac inv_bind H :=
  let a := fresh "a" in
  let w := fresh "w" in
  let Ha := fresh "Hstep" in
  apply IO_bind_inv in H as (a & w & Ha & H).

(** ** Strings *)

Section Strings.
Implicit Types (s t : string) (c : ascii).

Lemma app_cons c s t : String c s +:+ t = String c (s +:+ t).
Proof. done. Qed.

Lemma str_length_app s t :
  String.length (s +:+ t) = String.length s + String.length t.
Proof.
  induction s as [|c s IH]; [done|]. rewrite app_cons. simpl. by rewrite IH.
Qed.

Lemma length_gaps n : String.length (gaps n) = n.
Proof.
  induction n as [|n IH]; [done|].
  change (gaps (S n)) with (String Py.gap (gaps n)). simpl. by rewrite IH.
Qed.

Lemma get_gaps n i : i < n → String.get i (gaps n) = Some Py.gap.
Proof.
  revert i. induction n as [|n IH]; intros i Hi; [lia|].
  change (gaps (S n)) with (String Py.gap (gaps n)).
  destruct i; [done|]. simpl. apply IH. lia.
Qed.

Lemma gaps_add n m : gaps n +:+ gaps m = gaps (n + m).
Proof.
  induction n as [|n IH]; [done|].
  change (gaps (S n)) with (String Py.gap (gaps n)).
  rewrite app_cons, IH. done.
Qed.

Lemma startswith_nonempty c s : Py.startswith c s = true → s ≠ "".
Proof. by destruct s. Qed.

Lemma join_nonempty h (t : list string) : h ≠ "" → Py.join "" (h :: t) ≠ "".
Proof.
  intros Hh. destruct h as [|c h]; [done|].
  destruct t; simpl; done.
Qed.

(** No field of a split contains the separator. *)
Lemma split_fields_free c s f : f ∈ Py.split c s → Py.contains c f = false.
Proof.
  revert f. induction s as [|c' s IH]; intros f; simpl.
  - by intros ->%list_elem_of_singleton.
  - case_bool_decide as Hc.
    + intros [->|?]%elem_of_cons; [done|by apply IH].
    + destruct (Py.split c s) as [|f0 fs] eqn:Hs.
      * intros ->%list_elem_of_singleton. simpl.
        by rewrite bool_decide_false.
      * intros [->|?]%elem_of_cons.
        -- simpl. rewrite bool_decide_false by done. apply IH. left.
        -- apply IH. by right.
Qed.

Lemma split_nonempty c s : Py.split c s ≠ [].
Proof.
  destruct s as [|c' s]; simpl; [done|].
  case_bool_decide; [done|]. by destruct (Py.split c s).
Qed.

Lemma contains_app c s t :
  Py.contains c (s +:+ t) = Py.contains c s || Py.contains c t.
Proof.
  induction s as [|c' s IH]; [done|].
  rewrite app_cons. simpl. rewrite IH. by rewrite orb_assoc.
Qed.

Lemma contains_gaps n : Py.contains Py.nl (gaps n) = false.
Proof.
  induction n as [|n IH]; [done|].
  change (gaps (S n)) with (String Py.gap (gaps n)). simpl. by rewrite IH.
Qed.

Lemma contains_join_empty c (parts : list string) :
  Forall (λ p, Py.contains c p = false) parts →
  Py.contains c (Py.join "" parts) = false.
Proof.
  induction 1 as [|p parts Hp Hparts IH]; [done|].
  destruct parts as [|q parts]; [done|].
  change (Py.join "" (p :: q :: parts))
    with (p +:+ "" +:+ Py.join "" (q :: parts)).
  by rewrite !contains_app, Hp, IH.
Qed.

Lemma split_no_sep c s : Py.contains c s = false → Py.split c s = [s].
Proof.
  induction s as [|c' s IH]; [done|]. simpl.
  intros [Hc Hs]%orb_false_iff.
  rewrite Hc. by rewrite IH.
Qed.

Lemma split_app_sep c s t :
  Py.contains c s = false →
  Py.split c (s +:+ String c t) = s :: Py.split c t.
Proof.
  induction s as [|c' s IH].
  - intros _. change ("" +:+ String c t) with (String c t). simpl.
    by rewrite bool_decide_true.
  - rewrite app_cons. simpl. intros [Hc Hs]%orb_false_iff.
    rewrite Hc. by rewrite IH.
Qed.

(** Splitting the joined rows at the newlines gives the rows back. *)
Lemma split_join_rows (rows : list string) :
  rows ≠ [] → Forall (λ r, Py.contains Py.nl r = false) rows →
  Py.split Py.nl (Py.join NL rows) = rows.
Proof.
  intros Hne Hrows. induction Hrows as [|r rows Hr Hrows IH]; [done|].
  destruct rows as [|r2 rows].
  - simpl. by apply split_no_sep.
  - change (Py.join NL (r :: r2 :: rows))
      with (r +:+ String Py.nl (Py.join NL (r2 :: rows))).
    rewrite split_app_sep by done. f_equal. by apply IH.
Qed.

Lemma splitlines_terminated s :
  no_linebreak s = true → Py.splitlines (s +:+ NL) = [s].
Proof.
  induction s as [|c s IH]; intros H; [done|].
  simpl in H. apply andb_true_iff in H as [Hc Hs].
  apply negb_true_iff in Hc.
  change (String c s +:+ NL) with (String c (s +:+ NL)).
  simpl. rewrite Hc. rewrite IH by done. done.
Qed.

Lemma splitlines_single_row s :
  no_linebreak s = true → Py.splitlines (single_row s) = [">1"; s].
Proof.
  intros H. unfold single_row.
  change (">1" +:+ NL +:+ s +:+ NL)
    with (String ">" (String "1" (String Py.nl (s +:+ NL)))).
  change (Py.splitlines (String ">" (String "1" (String Py.nl (s +:+ NL)))))
    with (match (match EmptyString :: Py.splitlines (s +:+ NL) with
                 | l :: ls => String "1" l :: ls
                 | [] => [String "1" EmptyString]
                 end) with
          | l :: ls => String ">" l :: ls
          | [] => [String ">" EmptyString]
          end).
  rewrite splitlines_terminated by done. done.
Qed.

End Strings.

Lemma last_elem {A} (l : list A) d : l ≠ [] → List.last l d ∈ l.
Proof.
  induction l as [|x l IH]; [done|]. intros _.
  destruct l as [|y l]; [left|]. right. by apply IH.
Qed.

(** ** Lists of sequences *)

Lemma list_index_Some s (u : list string) i :
  Py.list_index s u = Some i → u !! i = Some s.
Proof.
  revert i. induction u as [|y u IH]; intros i; simpl; [done|].
  case_bool_decide; [by intros [= <-]; subst|].
  destruct (Py.list_index s u) as [k|]; [|done]. simpl.
  intros [= <-]. by apply IH.
Qed.

Lemma list_index_elem s (u : list string) :
  s ∈ u → is_Some (Py.list_index s u).
Proof.
  induction u as [|y u IH]; intros H; [set_solver|]. simpl.
  case_bool_decide; [by eexists|].
  destruct IH as [i Hi]; [set_solver|]. rewrite Hi. by eexists.
Qed.

Lemma append_unique_elem u l x :
  x ∈ append_unique u l ↔ x ∈ u ∨ x ∈ l.
Proof.
  revert u. induction l as [|y l IH]; intros u; simpl.
  - set_solver.
  - unfold Py.list_contains. case_bool_decide; rewrite IH; set_solver.
Qed.

Lemma append_unique_NoDup u l : NoDup u → NoDup (append_unique u l).
Proof.
  revert u. induction l as [|y l IH]; intros u Hu; simpl; [done|].
  unfold Py.list_contains. case_bool_decide; apply IH; [done|].
  apply NoDup_app. split_and!; [done| |apply NoDup_singleton].
  set_solver.
Qed.

Lemma append_unique_fresh u l :
  NoDup (u ++ l) → append_unique u l = u ++ l.
Proof.
  revert u. induction l as [|s l IH]; intros u Hnd; simpl.
  - by rewrite app_nil_r.
  - unfold Py.list_contains. rewrite bool_decide_false.
    + rewrite IH; [by rewrite <- app_assoc|]. by rewrite <- app_assoc.
    + apply NoDup_app in Hnd as (_ & Hd & _). intros Hs.
      apply (Hd s Hs). set_solver.
Qed.

Lemma unique_of_queries_elem u (queries : list CleanQuery) x :
  x ∈ unique_of_queries u queries
  ↔ x ∈ u ∨ ∃ q, q ∈ queries ∧ x ∈ q.2.
Proof.
  revert u. induction queries as [|q queries IH]; intros u; simpl.
  - split; [by left|]. intros [?|(q & Hq & _)]; [done|]. set_solver.
  - rewrite IH, append_unique_elem. split.
    + intros [[?|?]|(q' & Hq' & ?)]; [by left| |].
      * right. exists q. split; [left|done].
      * right. exists q'. split; [by right|done].
    + intros [?|(q' & Hq' & ?)]; [by left; left|].
      apply elem_of_cons in Hq' as [->|?]; [by left; right|].
      right. by exists q'.
Qed.

Lemma unique_of_queries_NoDup u (queries : list CleanQuery) :
  NoDup u → NoDup (unique_of_queries u queries).
Proof.
  revert u. induction queries as [|q queries IH]; intros u Hu; simpl; [done|].
  by apply IH, append_unique_NoDup.
Qed.

Lemma occurrences_cons s l seq :
  occurrences (s :: l) seq
  = (if decide (s = seq) then 1 else 0) + occurrences l seq.
Proof.
  unfold occurrences. rewrite filter_cons. by case_decide.
Qed.

Lemma occurrences_pos l seq : seq ∈ l → 0 < occurrences l seq.
Proof.
  induction l as [|s l IH]; [set_solver|].
  rewrite occurrences_cons. intros [->|?]%elem_of_cons.
  - rewrite decide_True by done. lia.
  - specialize (IH H). lia.
Qed.

Lemma occurrences_NoDup l s : NoDup l → s ∈ l → occurrences l s = 1.
Proof.
  induction 1 as [|x l Hx Hnd IH]; [set_solver|].
  rewrite occurrences_cons. intros [->|Hs]%elem_of_cons.
  - rewrite decide_True by done.
    assert (occurrences l x = 0); [|lia].
    unfold occurrences.
    destruct (filter (λ s, s = x) l) as [|y ?] eqn:Hf; [done|].
    assert (y ∈ filter (λ s, s = x) l) as Hy by (rewrite Hf; left).
    apply list_elem_of_filter in Hy as [-> ?]. done.
  - rewrite decide_False by (intros ->; done). by apply IH.
Qed.

(** ** [chain_break] *)

Section ChainBreak.
Implicit Types (h : heap) (a arr : list Z) (Ls : list nat).

Lemma wrap32_id x : int32 x → wrap32 x = x.
Proof.
  unfold int32, wrap32. intros H.
  rewrite Z.mod_small; lia.
Qed.

Lemma wrap32_add x u v : wrap32 (wrap32 (x + u) + v) = wrap32 (x + (u + v)).
Proof.
  unfold wrap32.
  replace ((x + u + 2 ^ 31) `mod` 2 ^ 32 - 2 ^ 31 + v + 2 ^ 31)%Z
    with ((x + u + 2 ^ 31) `mod` 2 ^ 32 + v)%Z by lia.
  rewrite Zplus_mod_idemp_l. f_equal. f_equal. lia.
Qed.

Lemma wrap32_int32 x : int32 (wrap32 x).
Proof.
  unfold int32, wrap32.
  pose proof (Z.mod_pos_bound (x + 2 ^ 31) (2 ^ 32)). lia.
Qed.

Lemma iadd_from_lookup k v a i :
  iadd_from k v a !! i
  = (λ x, if decide (k ≤ i) then wrap32 (x + v) else x) <$> a !! i.
Proof.
  unfold iadd_from.
  destruct (decide (k ≤ i)) as [Hk|Hk].
  - destruct (decide (k ≤ length a)) as [Hl|Hl].
    + rewrite lookup_app_r by (rewrite length_take; lia).
      rewrite length_take, Nat.min_l by lia.
      rewrite list_lookup_fmap, lookup_drop.
      replace (k + (i - k)) with i by lia. done.
    + rewrite take_ge, drop_ge by lia. simpl. rewrite app_nil_r.
      rewrite (lookup_ge_None_2 a i) by lia. done.
  - destruct (decide (i < length a)) as [Hl|Hl].
    + rewrite lookup_app_l by (rewrite length_take; lia).
      rewrite lookup_take_lt by lia. by destruct (a !! i).
    + rewrite (lookup_ge_None_2 a i) by lia. simpl.
      apply lookup_ge_None_2.
      rewrite length_app, length_take, length_fmap, length_drop. lia.
Qed.

Lemma length_iadd_from k v a : length (iadd_from k v a) = length a.
Proof.
  unfold iadd_from.
  rewrite length_app, length_take, length_fmap, length_drop. lia.
Qed.

Lemma length_shifted Ls Lp v a : length (shifted Ls Lp v a) = length a.
Proof.
  revert Lp a. induction Ls as [|L Ls IH]; intros Lp a; simpl; [done|].
  by rewrite IH, length_iadd_from.
Qed.

(** Every slice of the loop that contains [i] adds the offset once. *)
Lemma shifted_lookup Ls Lp v a i :
  Forall int32 a →
  shifted Ls Lp v a !! i
  = (λ x, wrap32 (x + v * Z.of_nat (crossed Ls Lp i))) <$> a !! i.
Proof.
  revert Lp a. induction Ls as [|L Ls IH]; intros Lp a Ha; simpl.
  - destruct (a !! i) as [x|] eqn:E; simpl; [|done].
    f_equal. rewrite Z.mul_0_r, Z.add_0_r, wrap32_id; [done|].
    eapply Forall_lookup_1; eauto.
  - rewrite IH.
    + rewrite iadd_from_lookup.
      destruct (a !! i) as [x|] eqn:E; simpl; [|done]. f_equal.
      destruct (decide (Lp + L ≤ i)).
      * rewrite wrap32_add. f_equal. lia.
      * f_equal.
    + apply Forall_lookup_2. intros j y Hy.
      rewrite iadd_from_lookup in Hy.
      destruct (a !! j) as [x|] eqn:E; simplify_eq/=.
      case_decide; [apply wrap32_int32|].
      eapply Forall_lookup_1; eauto.
Qed.

(** The loop touches the store at [idx_res] only. *)
Lemma chain_break_loop_alter h r Ls Lp v :
  chain_break_loop h r Ls Lp v = alter (shifted Ls Lp v) r h.
Proof.
  revert h Lp. induction Ls as [|L Ls IH]; intros h Lp; simpl.
  - apply map_eq. intros j. rewrite lookup_alter.
    case_decide; subst; by destruct (h !! j).
  - rewrite IH. apply map_eq. intros j. rewrite !lookup_alter.
    repeat case_decide; subst; try done. by destruct (h !! j).
Qed.

Lemma arange_lookup n i : i < n → arange n !! i = Some (Z.of_nat i).
Proof.
  intros H. unfold arange. rewrite list_lookup_fmap, lookup_seq_lt by done.
  done.
Qed.

Lemma length_arange n : length (arange n) = n.
Proof. unfold arange. by rewrite length_fmap, length_seq. Qed.

Lemma arange_int32 n : (Z.of_nat n < 2 ^ 31)%Z → Forall int32 (arange n).
Proof.
  intros Hn. apply Forall_lookup_2. intros i x Hx.
  pose proof (lookup_lt_Some _ _ _ Hx) as Hlt. rewrite length_arange in Hlt.
  rewrite arange_lookup in Hx by done. simplify_eq. unfold int32. lia.
Qed.

(** The store after [chain_break]: the array at [idx_res] holds the
    shifted values, every other array is as it was. *)
Lemma chain_break_store h (idx_res : loc) arr Ls (length : Z) :
  h !! idx_res = Some arr →
  Forall int32 arr →
  ∃ h' out,
    chain_break h idx_res Ls length = (h', idx_res)
    ∧ h' !! idx_res = Some out
    ∧ (∀ r, r ≠ idx_res → h' !! r = h !! r)
    ∧ List.length out = List.length arr
    ∧ (∀ i x, arr !! i = Some x →
         out !! i
         = Some (wrap32 (x + length * Z.of_nat (crossed (removelast Ls) 0 i)))).
Proof.
  intros Hh Harr. unfold chain_break. rewrite chain_break_loop_alter.
  eexists _, (shifted (removelast Ls) 0 length arr).
  split; [done|].
  split; [rewrite lookup_alter; case_decide; [by rewrite Hh|done]|].
  split_and!.
  - intros r Hr. rewrite lookup_alter. by case_decide.
  - apply length_shifted.
  - intros i x Hx. rewrite shifted_lookup by done. by rewrite Hx.
Qed.

Lemma crossed_three L1 L2 L3 i :
  i < L1 + L2 + L3 →
  crossed (removelast [L1; L2; L3]) 0 i = chain_of [L1; L2; L3] i.
Proof.
  intros Hi. simpl. repeat case_decide; lia.
Qed.

(** C10: [chain_break] is not a pure transform.  It updates in place the
    array it is given and returns the very reference it received, so
    whoever holds an alias of that array reads the shifted indices after
    the call: entry [i] has been shifted once for every slice
    [L_prev + L_i :] of the loop that contains [i].  No other array of
    the store changes. *)
Theorem chain_break_mutates_in_place h (idx_res : loc) arr Ls (length : Z) :
  h !! idx_res = Some arr →
  Forall int32 arr →
  ∃ h' out,
    chain_break h idx_res Ls length = (h', idx_res)
    ∧ (∀ alias, alias = idx_res → h' !! alias = Some out)
    ∧ (∀ r, r ≠ idx_res → h' !! r = h !! r)
    ∧ List.length out = List.length arr
    ∧ (∀ i x, arr !! i = Some x →
         out !! i
         = Some (wrap32 (x + length * Z.of_nat (crossed (removelast Ls) 0 i)))).
Proof.
  intros Hh Harr.
  destruct (chain_break_store h idx_res arr Ls length Hh Harr)
    as (h' & out & Hcb & Hout & Hframe & Hlen & Hval).
  exists h', out. split_and!; try done. by intros alias ->.
Qed.

Lemma chain_break_mutates_in_place_witness :
  ∃ h' out,
    chain_break {[ 7 := [0; 1; 2; 3; 4]%Z ]} 7 [2; 3] 200 = (h', 7)
    ∧ (∀ alias, alias = 7 → h' !! alias = Some out)
    ∧ out !! 2 = Some 202%Z.
Proof.
  destruct (chain_break_mutates_in_place {[ 7 := [0; 1; 2; 3; 4]%Z ]} 7
              [0; 1; 2; 3; 4]%Z [2; 3] 200)
    as (h' & out & Hcb & Halias & _ & _ & Hval).
  - reflexivity.
  - repeat constructor; unfold int32; lia.
  - exists h', out. split; [exact Hcb|]. split; [exact Halias|].
    exact (Hval 2 2%Z eq_refl).
Defined.

(** C6: for chains of lengths [L1, L2, L3] and the break offset 200,
    [chain_break] turns the residue index [0 .. N-1] of the concatenation
    into an array that strictly increases inside every chain and grows by
    at least 200 from the last residue of a chain to the first residue of
    the next; the offset accumulates, residue [i] being shifted by 200
    times the number of chains before its own.  This is the array that
    [getChainFeatures] stores as [residue_index]. *)
Theorem chain_break_monotone h (idx_res : loc) (L1 L2 L3 : nat) :
  (Z.of_nat (L1 + L2 + L3) + 2 * 200 < 2 ^ 31)%Z →
  h !! idx_res = Some (arange (L1 + L2 + L3)) →
  ∃ h' out,
    chain_break h idx_res [L1; L2; L3] chain_break_default_length
      = (h', idx_res)
    ∧ h' !! idx_res = Some out
    ∧ chain_break_feature (Ints (arange (L1 + L2 + L3))) [L1; L2; L3]
      = Ok (Ints out)
    ∧ length out = L1 + L2 + L3
    ∧ (∀ i, i < L1 + L2 + L3 →
         out !! i
         = Some (Z.of_nat i + 200 * Z.of_nat (chain_of [L1; L2; L3] i))%Z)
    ∧ (∀ i j x y, i < j → out !! i = Some x → out !! j = Some y →
         chain_of [L1; L2; L3] i = chain_of [L1; L2; L3] j → (x < y)%Z)
    ∧ (∀ i x y, out !! i = Some x → out !! (S i) = Some y →
         chain_of [L1; L2; L3] i ≠ chain_of [L1; L2; L3] (S i) →
         (x + 200 ≤ y)%Z).
Proof.
  intros Hbound Hh.
  assert (Forall int32 (arange (L1 + L2 + L3))) as Hint
    by (apply arange_int32; lia).
  destruct (chain_break_store h idx_res _ [L1; L2; L3]
              chain_break_default_length Hh Hint)
    as (h' & out & Hcb & Hout & _ & Hlen & Hval).
  rewrite length_arange in Hlen.
  assert (∀ i, i < L1 + L2 + L3 →
            out !! i
            = Some (Z.of_nat i + 200 * Z.of_nat (chain_of [L1; L2; L3] i))%Z)
    as Hclosed.
  { intros i Hi. rewrite (Hval i (Z.of_nat i)) by by apply arange_lookup.
    rewrite crossed_three by done. f_equal. apply wrap32_id.
    unfold chain_break_default_length, int32.
    assert (chain_of [L1; L2; L3] i ≤ 2) by (simpl; repeat case_decide; lia).
    lia. }
  exists h', out. split_and!; try done.
  - unfold chain_break_feature, chain_break in *.
    rewrite chain_break_loop_alter in *. injection Hcb as <-.
    rewrite lookup_alter in Hout. rewrite decide_True in Hout by done.
    rewrite Hh in Hout. simpl in Hout.
    rewrite lookup_alter, decide_True by done.
    rewrite lookup_singleton_eq. simpl. by simplify_eq.
  - intros i j x y Hij Hx Hy Hc.
    pose proof (lookup_lt_Some _ _ _ Hx). pose proof (lookup_lt_Some _ _ _ Hy).
    rewrite Hclosed in Hx, Hy by lia. simplify_eq. rewrite Hc. lia.
  - intros i x y Hx Hy Hc.
    pose proof (lookup_lt_Some _ _ _ Hx). pose proof (lookup_lt_Some _ _ _ Hy).
    rewrite Hclosed in Hx, Hy by lia. simplify_eq.
    assert (chain_of [L1; L2; L3] i < chain_of [L1; L2; L3] (S i)).
    { revert Hc. simpl. repeat case_decide; lia. }
    lia.
Qed.

Lemma chain_break_monotone_witness :
  ∃ out,
    chain_break_feature (Ints (arange (2 + 3 + 1))) [2; 3; 1] = Ok (Ints out)
    ∧ length out = 2 + 3 + 1
    ∧ out !! 5 = Some 405%Z.
Proof.
  destruct (chain_break_monotone {[ 0 := arange (2 + 3 + 1) ]} 0 2 3 1)
    as (h' & out & _ & _ & Hfeat & Hlen & Hclosed & _).
  - vm_compute. reflexivity.
  - reflexivity.
  - exists out. split; [exact Hfeat|]. split; [exact Hlen|].
    apply (Hclosed 5). repeat constructor.
Defined.

End ChainBreak.

(** ** The pairer *)

Section Pairer.
Implicit Types (blank a3ms qs : list string) (cards : list nat).

Lemma blocks_app blank pos l1 l2 :
  blocks blank pos (l1 ++ l2)
  = blocks blank pos l1 ++ blocks blank (pos + length l1) l2.
Proof.
  revert pos. induction l1 as [|a l1 IH]; intros pos; simpl.
  - by rewrite Nat.add_0_r.
  - rewrite IH, <- app_assoc. do 3 f_equal. lia.
Qed.

Lemma pad_copies_spec blank a3m_lines n a c pos acc :
  a3m_lines !! n = Some a →
  pad_copies blank a3m_lines n c pos acc
  = Ok (acc ++ blocks blank pos (replicate c a), pos + c).
Proof.
  intros Ha. revert pos acc. induction c as [|c IH]; intros pos acc; simpl.
  - by rewrite app_nil_r, Nat.add_0_r.
  - unfold Py.index_list. rewrite Ha. cbn [mbind result_bind].
    rewrite IH, <- app_assoc. do 2 f_equal. lia.
Qed.

Lemma pad_chains_spec blank pre_a pre_c qs a3ms cards pos acc :
  length pre_a = length pre_c → length qs = length a3ms →
  length qs = length cards →
  pad_chains blank (pre_a ++ a3ms) (length pre_a) qs (pre_c ++ cards) pos acc
  = Ok (acc ++ blocks blank pos (instances_of a3ms cards)).
Proof.
  revert pre_a pre_c a3ms cards pos acc.
  induction qs as [|q qs IH]; intros pre_a pre_c a3ms cards pos acc Hp Ha Hc.
  - destruct a3ms; [|done]. destruct cards; [|done]. simpl.
    by rewrite app_nil_r.
  - destruct a3ms as [|a a3ms]; [done|]. destruct cards as [|c cards]; [done|].
    simpl in Ha, Hc. cbn [pad_chains]. unfold Py.index_list.
    rewrite Hp at 1. rewrite list_lookup_middle by done.
    cbn [mbind result_bind].
    rewrite pad_copies_spec with (a := a) by by apply list_lookup_middle.
    cbn [mbind result_bind].
    replace (S (length pre_a)) with (length (pre_a ++ [a]))
      by (rewrite length_app; simpl; lia).
    rewrite (cons_middle a pre_a a3ms), (cons_middle c pre_c cards).
    rewrite !app_assoc.
    rewrite IH; [|rewrite !length_app; simpl; lia|lia|lia].
    unfold instances_of. cbn [zip_with concat].
    rewrite blocks_app, length_replicate, <- app_assoc. done.
Qed.

Lemma blank_seq_from_spec pre_c qs cards :
  length qs = length cards →
  blank_seq_from (length pre_c) qs (pre_c ++ cards)
  = Ok ((λ seq, gaps (String.length seq)) <$> instances_of qs cards).
Proof.
  revert pre_c cards. induction qs as [|q qs IH]; intros pre_c cards Hc.
  - by destruct cards.
  - destruct cards as [|c cards]; [done|]. simpl in Hc.
    cbn [blank_seq_from]. unfold Py.index_list.
    rewrite list_lookup_middle by done. cbn [mbind result_bind].
    replace (S (length pre_c)) with (length (pre_c ++ [c]))
      by (rewrite length_app; simpl; lia).
    rewrite (cons_middle c pre_c cards), app_assoc.
    rewrite IH by lia. cbn [mbind result_bind].
    unfold instances_of. cbn [zip_with concat].
    rewrite fmap_app, fmap_replicate. done.
Qed.

Lemma pad_sequences_combined_spec a3ms qs cards :
  length qs = length a3ms → length qs = length cards →
  pad_sequences_combined a3ms qs cards
  = Ok (blocks ((λ seq, gaps (String.length seq)) <$> instances_of qs cards)
          0 (instances_of a3ms cards)).
Proof.
  intros Ha Hc. unfold pad_sequences_combined.
  pose proof (blank_seq_from_spec [] qs cards Hc) as Hb.
  cbn [length app] in Hb. rewrite Hb. cbn [mbind result_bind].
  pose proof (pad_chains_spec
                ((λ seq, gaps (String.length seq)) <$> instances_of qs cards)
                [] [] qs a3ms cards 0 [] eq_refl Ha Hc) as Hp.
  cbn [length app] in Hp. by rewrite Hp.
Qed.

Lemma pad_line_inv blank pos line row :
  pad_line blank pos line = Some row →
  (Py.startswith Py.gt line = true ∧ row = line)
  ∨ (Py.startswith Py.gt line = false ∧ line ≠ ""
     ∧ row = Py.join "" (take pos blank ++ [line] ++ drop (pos + 1) blank)).
Proof.
  unfold pad_line. destruct line as [|c line]; [done|]. cbn [String.length Nat.eqb].
  destruct (Py.startswith Py.gt (String c line)); intros [= <-]; [by left|].
  right. done.
Qed.

Lemma pad_lines_elem blank pos a3m row :
  row ∈ pad_lines blank pos a3m → Py.startswith Py.gt row = false →
  ∃ line, line ∈ Py.split Py.nl a3m ∧ Py.startswith Py.gt line = false
          ∧ line ≠ ""
          ∧ row = Py.join "" (take pos blank ++ [line] ++ drop (pos + 1) blank).
Proof.
  unfold pad_lines. intros (line & Hline & Hrow)%list_elem_of_omap Hgt.
  apply pad_line_inv in Hrow as [[Hh ->]|(? & ? & ->)]; [congruence|].
  by exists line.
Qed.

Lemma pad_lines_no_newline blank pos a3m :
  Forall (λ b, Py.contains Py.nl b = false) blank →
  Forall (λ r, Py.contains Py.nl r = false) (pad_lines blank pos a3m).
Proof.
  intros Hblank. apply Forall_forall. intros row Hrow.
  unfold pad_lines in Hrow.
  apply list_elem_of_omap in Hrow as (line & Hline & Hrow).
  apply split_fields_free in Hline.
  apply pad_line_inv in Hrow as [[_ ->]|(_ & _ & ->)]; [done|].
  apply contains_join_empty.
  rewrite !Forall_app. split_and!.
  - by apply Forall_take.
  - by apply Forall_singleton.
  - by apply Forall_drop.
Qed.

(** C4: for two chain alignments whose rows have the query lengths [L1]
    and [L2], with cardinalities 1 and 2, every row of the combined
    alignment that is not a header has length [L1 + 2 * L2]; a row that
    comes from chain 1 is its own line followed by gap characters in all
    columns of the two copies of chain 2, and a row that comes from
    chain 2 has residues in the block of its own copy only.  The rows
    are the lines of the text that [pad_sequences] returns. *)
Theorem pad_sequences_block_layout (a1 a2 q1 q2 : string) :
  let L1 := String.length q1 in
  let L2 := String.length q2 in
  let _blank_seq := [gaps L1; gaps L2; gaps L2] in
  let rows1 := pad_lines _blank_seq 0 a1 in
  let rows2 := pad_lines _blank_seq 1 a2 ++ pad_lines _blank_seq 2 a2 in
  (∀ line, line ∈ Py.split Py.nl a1 → Py.startswith Py.gt line = false →
     line ≠ "" → String.length line = L1) →
  (∀ line, line ∈ Py.split Py.nl a2 → Py.startswith Py.gt line = false →
     line ≠ "" → String.length line = L2) →
  pad_sequences [a1; a2] [q1; q2] [1; 2] = Ok (Py.join NL (rows1 ++ rows2))
  ∧ (∀ row, row ∈ rows1 ++ rows2 → Py.startswith Py.gt row = false →
       String.length row = L1 + 2 * L2)
  ∧ (∀ row, row ∈ rows1 → Py.startswith Py.gt row = false →
       (∃ line, line ∈ Py.split Py.nl a1 ∧ String.length line = L1
                ∧ row = line +:+ gaps L2 +:+ gaps L2)
       ∧ ∀ i, L1 ≤ i < L1 + 2 * L2 → String.get i row = Some Py.gap)
  ∧ (∀ row, row ∈ rows2 → Py.startswith Py.gt row = false →
       ∃ line, line ∈ Py.split Py.nl a2 ∧ String.length line = L2
               ∧ (row = gaps L1 +:+ line +:+ gaps L2
                  ∨ row = gaps L1 +:+ gaps L2 +:+ line))
  ∧ (rows1 ++ rows2 ≠ [] →
       Py.split Py.nl (Py.join NL (rows1 ++ rows2)) = rows1 ++ rows2).
Proof.
  intros L1 L2 blank rows1 rows2 H1 H2.
  assert (∀ row, row ∈ rows1 → Py.startswith Py.gt row = false →
            ∃ line, line ∈ Py.split Py.nl a1 ∧ String.length line = L1
                    ∧ row = line +:+ gaps L2 +:+ gaps L2) as Hrows1.
  { intros row Hrow Hgt.
    apply pad_lines_elem in Hrow as (line & Hin & Hl & Hne & ->); [|done].
    exists line. split_and!; [done|by apply H1|done]. }
  assert (∀ row, row ∈ rows2 → Py.startswith Py.gt row = false →
            ∃ line, line ∈ Py.split Py.nl a2 ∧ String.length line = L2
                    ∧ (row = gaps L1 +:+ line +:+ gaps L2
                       ∨ row = gaps L1 +:+ gaps L2 +:+ line)) as Hrows2.
  { intros row [Hrow|Hrow]%elem_of_app Hgt.
    - apply pad_lines_elem in Hrow as (line & Hin & Hl & Hne & ->); [|done].
      exists line. split_and!; [done|by apply H2|by left].
    - apply pad_lines_elem in Hrow as (line & Hin & Hl & Hne & ->); [|done].
      exists line. split_and!; [done|by apply H2|by right]. }
  split_and!.
  - unfold pad_sequences.
    rewrite pad_sequences_combined_spec by done.
    cbn [fmap result_fmap]. do 2 f_equal.
    unfold instances_of. cbn [zip_with concat replicate app fmap list_fmap blocks].
    fold L1 L2 blank. unfold rows1, rows2. cbn [Nat.add].
    by rewrite app_nil_r.
  - intros row [Hrow|Hrow]%elem_of_app Hgt.
    + destruct (Hrows1 row Hrow Hgt) as (line & _ & Hlen & ->).
      rewrite !str_length_app, !length_gaps. lia.
    + destruct (Hrows2 row Hrow Hgt) as (line & _ & Hlen & [-> | ->]);
        rewrite !str_length_app, !length_gaps; lia.
  - intros row Hrow Hgt. split; [by apply Hrows1|].
    destruct (Hrows1 row Hrow Hgt) as (line & _ & Hlen & ->).
    intros i Hi. rewrite gaps_add.
    replace i with ((i - L1) + String.length line) by lia.
    rewrite <- String.append_correct2. apply get_gaps. lia.
  - done.
  - intros Hne. apply split_join_rows; [done|].
    assert (Forall (λ b, Py.contains Py.nl b = false) blank) as Hblank
      by (repeat constructor; apply contains_gaps).
    unfold rows1, rows2. rewrite !Forall_app.
    split_and!; by apply pad_lines_no_newline.
Qed.

Lemma pad_sequences_block_layout_witness :
  pad_sequences
    [">101" +:+ NL +:+ "AC" +:+ NL +:+ ">hit" +:+ NL +:+ "A-" +:+ NL;
     ">102" +:+ NL +:+ "GHI" +:+ NL]
    ["AC"; "GHI"] [1; 2]
  = Ok (">101" +:+ NL +:+ "AC------" +:+ NL +:+ ">hit" +:+ NL +:+ "A-------"
        +:+ NL +:+ ">102" +:+ NL +:+ "--GHI---" +:+ NL +:+ ">102" +:+ NL
        +:+ "-----GHI").
Proof.
  refine (proj1 (pad_sequences_block_layout
                   (">101" +:+ NL +:+ "AC" +:+ NL +:+ ">hit" +:+ NL +:+ "A-"
                    +:+ NL)
                   (">102" +:+ NL +:+ "GHI" +:+ NL) "AC" "GHI" _ _)).
  - intros line Hl Hgt Hne. vm_compute in Hl.
    repeat (apply elem_of_cons in Hl as [->|Hl]; [done|]).
    by apply elem_of_nil in Hl.
  - intros line Hl Hgt Hne. vm_compute in Hl.
    repeat (apply elem_of_cons in Hl as [->|Hl]; [done|]).
    by apply elem_of_nil in Hl.
Defined.

(** *** The loops of [pair_msa] *)

Lemma count_cardinality_spec u cards l :
  NoDup u → (∀ s, s ∈ l → s ∈ u) → length cards = length u →
  count_cardinality u cards l
  = Ok (zip_with (λ s c, c + occurrences l s) u cards).
Proof.
  intros Hnd. revert cards. induction l as [|s l IH]; intros cards Hl Hlen.
  - simpl. f_equal. apply list_eq. intros j.
    rewrite lookup_zip_with.
    destruct (u !! j) as [x|] eqn:Hx; simpl.
    + destruct (cards !! j) as [c|] eqn:Hc; simpl.
      * unfold occurrences. simpl. f_equal. lia.
      * apply lookup_ge_None in Hc. apply lookup_lt_Some in Hx. lia.
    + apply lookup_ge_None in Hx. apply lookup_ge_None. lia.
  - cbn [count_cardinality].
    destruct (list_index_elem s u) as [i Hi]; [set_solver|]. rewrite Hi.
    apply list_index_Some in Hi.
    rewrite IH; [|set_solver|by rewrite length_alter].
    f_equal. apply list_eq. intros j. rewrite !lookup_zip_with.
    destruct (u !! j) as [x|] eqn:Hx; simpl; [|done].
    rewrite occurrences_cons.
    destruct (decide (i = j)) as [->|Hij].
    + rewrite list_lookup_alter_eq. simplify_eq.
      destruct (cards !! j) as [c|]; simpl; [|done].
      rewrite decide_True by done. f_equal. lia.
    + rewrite list_lookup_alter_ne by done.
      destruct (cards !! j) as [c|]; simpl; [|done].
      rewrite decide_False; [done|]. intros ->.
      apply Hij. by eapply NoDup_lookup.
Qed.

Lemma zip_with_replicate_0 (f : string → nat) (u : list string) :
  zip_with (λ s c, c + f s) u (replicate (length u) 0) = f <$> u.
Proof. induction u as [|s u IH]; [done|]. simpl. by rewrite IH. Qed.

Lemma unpaired_msas_of_app raw l1 l2 :
  unpaired_msas_of raw (l1 ++ l2)
  = a ← unpaired_msas_of raw l1; b ← unpaired_msas_of raw l2; Ok (a ++ b).
Proof.
  induction l1 as [|s l1 IH]; simpl.
  - by destruct (unpaired_msas_of raw l2).
  - unfold getitem. destruct (raw !! s) as [e|]; [|done].
    cbn [mbind result_bind]. rewrite IH.
    destruct (unpaired_msas_of raw l1) as [a|]; [|done].
    cbn [mbind result_bind].
    by destruct (unpaired_msas_of raw l2).
Qed.

Lemma unpaired_msas_of_length raw l a3ms :
  unpaired_msas_of raw l = Ok a3ms → length a3ms = length l.
Proof.
  revert a3ms. induction l as [|s l IH]; intros a3ms; simpl.
  - by intros [= <-].
  - intros (e & _ & H)%result_bind_inv.
    apply result_bind_inv in H as (more & Hmore & [= <-]).
    simpl. f_equal. by apply IH.
Qed.

Lemma unpaired_msas_of_instances raw u cs :
  length u = length cs → Forall (λ c, 0 < c) cs →
  unpaired_msas_of raw (instances_of u cs)
  = (λ a3ms, instances_of a3ms cs) <$> unpaired_msas_of raw u.
Proof.
  revert cs. induction u as [|s u IH]; intros cs Hlen Hpos.
  - by destruct cs.
  - destruct cs as [|c cs]; [done|].
    apply Forall_cons in Hpos as [Hc Hpos]. simpl in Hlen.
    unfold instances_of. cbn [zip_with concat].
    rewrite unpaired_msas_of_app. fold (instances_of u cs).
    rewrite IH by (done || lia).
    cbn [unpaired_msas_of]. unfold getitem.
    destruct (raw !! s) as [e|] eqn:He.
    + assert (unpaired_msas_of raw (replicate c s) = Ok (replicate c e.1))
        as ->.
      { clear Hc. induction c as [|c IHc]; [done|]. simpl.
        unfold getitem. rewrite He. cbn [mbind result_bind].
        by rewrite IHc. }
      cbn [mbind result_bind].
      destruct (unpaired_msas_of raw u) as [a|]; [|done].
      done.
    + destruct c as [|c]; [lia|]. simpl. unfold getitem. by rewrite He.
Qed.

Lemma pair_msa_spec sequences raw :
  pair_msa sequences raw = block_diagonal raw (grouped sequences).
Proof.
  unfold pair_msa, block_diagonal, grouped.
  set (u := append_unique [] sequences).
  assert (NoDup u) as Hnd by apply append_unique_NoDup, NoDup_nil_2.
  assert (∀ s, s ∈ sequences → s ∈ u) as Hu.
  { intros s Hs. apply append_unique_elem. by right. }
  rewrite count_cardinality_spec by (done || by rewrite length_replicate).
  rewrite zip_with_replicate_0. cbn [mbind result_bind].
  rewrite unpaired_msas_of_instances.
  - destruct (unpaired_msas_of raw u) as [a3ms|e] eqn:Ha; [|done].
    cbn [mbind result_bind fmap result_fmap].
    apply unpaired_msas_of_length in Ha.
    unfold pad_sequences.
    rewrite pad_sequences_combined_spec; [done|done|by rewrite length_fmap].
  - by rewrite length_fmap.
  - apply Forall_fmap, Forall_forall. intros s Hs. simpl.
    apply occurrences_pos.
    apply append_unique_elem in Hs as [?|?]; [set_solver|done].
Qed.

Lemma grouped_NoDup l : NoDup l → grouped l = l.
Proof.
  intros Hnd. unfold grouped.
  rewrite append_unique_fresh by done. simpl.
  assert (∀ k, (∀ s, s ∈ k → occurrences l s = 1) →
            instances_of k (occurrences l <$> k) = k) as Hk.
  { induction k as [|s k IH]; intros Hocc; [done|].
    unfold instances_of. cbn [fmap list_fmap zip_with concat].
    rewrite Hocc by left. simpl. f_equal. apply IH.
    intros s' Hs'. apply Hocc. by right. }
  apply Hk. intros s Hs. by apply occurrences_NoDup.
Qed.

(** What [pair_msa] returns for the query [A, B, A]: the rows of [B]
    sit in the last column block. *)
Example pair_msa_ABA :
  pair_msa ["AC"; "GHI"; "AC"]
    (<["AC" := (">101" +:+ NL +:+ "AC" +:+ NL, None)]>
       {["GHI" := (">102" +:+ NL +:+ "GHI" +:+ NL, None)]})
  = Ok (">101" +:+ NL +:+ "AC-----" +:+ NL +:+ ">101" +:+ NL +:+ "--AC---"
        +:+ NL +:+ ">102" +:+ NL +:+ "----GHI").
Proof. by vm_compute. Qed.

(** C3: the column blocks of the combined alignment are not in the
    order of the query.  [pair_msa] lays the chain instances out grouped
    by sequence (the distinct sequences in order of first occurrence, each
    repeated as often as it occurs), which is the order of the query only
    when no sequence comes back after another one.  For the query
    [AC, GHI, AC] it returns the blocks [AC, AC, GHI], where the order of
    the query gives [AC, GHI, AC]; the caller builds the sequence
    [ACGHIAC] and the chain indices [0, 0, 1, 1, 1, 2, 2] in query order,
    so that columns 2 to 3 of the alignment hold the second copy of [AC]
    under residues of [GHI]. *)
Theorem pair_msa_columns_against_chain_order
    (search_templates : string → string → string → result FeatureDict)
    (get_hash : string → string) (ls : listing) :
  (∀ sequences raw_inputs,
     pair_msa sequences raw_inputs
     = block_diagonal raw_inputs (grouped sequences))
  ∧ (∀ sequences, NoDup sequences → grouped sequences = sequences)
  ∧ grouped ["AC"; "GHI"; "AC"] = ["AC"; "AC"; "GHI"]
  ∧ pair_msa ["AC"; "GHI"; "AC"] raw_AC_GHI
    = Ok (">101" +:+ NL +:+ "AC-----" +:+ NL +:+ ">101" +:+ NL +:+ "--AC---"
          +:+ NL +:+ ">102" +:+ NL +:+ "----GHI")
  ∧ block_diagonal raw_AC_GHI ["AC"; "GHI"; "AC"]
    = Ok (">101" +:+ NL +:+ "AC-----" +:+ NL +:+ ">102" +:+ NL +:+ "--GHI--"
          +:+ NL +:+ ">101" +:+ NL +:+ "-----AC")
  ∧ (let r := getChainFeatures_af search_templates get_hash ls
                ["AC"; "GHI"; "AC"] raw_AC_GHI false None None false in
     feature_at r "A" "aatype" = Some (Data [7; 21] ["ACGHIAC"])
     ∧ feature_at r "A" "asym_id" = Some (Ints [0; 0; 1; 1; 1; 2; 2]%Z)
     ∧ feature_at r "A" "msa"
       = Some (Data [3; 7] ["AC-----"; "--AC---"; "----GHI"])).
Proof.
  split_and!;
    [apply pair_msa_spec|apply grouped_NoDup|by vm_compute..].
Qed.

End Pairer.

(** ** The raw input cache *)

Lemma store_raw_inputs_single (raw : RawInput) (l : list string) :
  Forall (λ s, no_linebreak s = true) l →
  store_raw_inputs raw (zip (single_row <$> l) ((λ _, None) <$> l))
  = Ok (foldl (λ m s, <[s := (single_row s, None)]> m) raw l).
Proof.
  revert raw. induction l as [|s l IH]; intros raw Hl; [done|].
  apply Forall_cons in Hl as [Hs Hl].
  cbn [fmap list_fmap zip zip_with store_raw_inputs foldl].
  rewrite splitlines_single_row by done.
  cbn [Py.index_list lookup list_lookup mbind result_bind].
  by apply IH.
Qed.

Lemma foldl_insert_lookup {V} (f : string → V) (m : gmap string V) l s :
  foldl (λ m s, <[s := f s]> m) m l !! s
  = if decide (s ∈ l) then Some (f s) else m !! s.
Proof.
  revert m. induction l as [|x l IH]; intros m; cbn [foldl].
  - rewrite decide_False by set_solver. done.
  - rewrite IH. destruct (decide (s ∈ l)) as [Hl|Hl].
    + rewrite decide_True by set_solver. done.
    + destruct (decide (s = x)) as [->|Hx].
      * rewrite decide_True by set_solver. by rewrite lookup_insert_eq.
      * rewrite decide_False by set_solver. by rewrite lookup_insert_ne.
Qed.

Lemma foldl_insert_size {V} (f : string → V) (m : gmap string V) l :
  NoDup l → (∀ s, s ∈ l → m !! s = None) →
  size (foldl (λ m s, <[s := f s]> m) m l) = size m + length l.
Proof.
  revert m. induction l as [|x l IH]; intros m Hnd Hm; simpl; [lia|].
  apply NoDup_cons in Hnd as [Hx Hnd].
  rewrite IH; [|done|].
  - rewrite map_size_insert_None by (apply Hm; set_solver). lia.
  - intros s Hs. rewrite lookup_insert_ne by set_solver. apply Hm. set_solver.
Qed.

Section SingleSequence.
Variable search_templates : string → string → string → result FeatureDict.
Variable get_hash : string → string.
Variable ls : listing.

Lemma single_sequence_scenario (use_templates use_multimer : bool) :
  let raw_inputs : RawInput := {[ "ACDEFG" := (single_row "ACDEFG", None) ]} in
  let r := getChainFeatures_af search_templates get_hash ls ["ACDEFG"]
             raw_inputs use_templates None None use_multimer in
  Alphafold.parse_a3m (single_row "ACDEFG") = Ok [("ACDEFG", "1")]
  ∧ feature_at r "A" "msa" = Some (Data [1; 6] ["ACDEFG"])
  ∧ (λ k, feature_at r "A" k) <$> template_feature_names
    = (λ k, Alphafold.empty_placeholder_template_features 0 6 !! k)
        <$> template_feature_names.
Proof.
  destruct use_templates, use_multimer; vm_compute; done.
Qed.

(** C8: in mode [single_sequence] [getRawInputs] leaves the world as it
    found it (no request is sent, nothing is downloaded) and returns a
    mapping with exactly one entry for every distinct sequence of the
    queries, which maps the sequence [s] to the one-row alignment
    [>1\ns\n] and to no template path.  For the single query sequence
    [ACDEFG] that alignment parses to the one row [ACDEFG], and the
    template features of the chain are the placeholder for zero hits. *)
Theorem getRawInputs_single_sequence (queries : list CleanQuery)
    (use_filter use_templates : bool) (output_dir : string) (w : world) :
  Forall (λ q : CleanQuery, Forall (λ s, no_linebreak s = true) q.2) queries →
  ∃ raw_inputs : RawInput,
    getRawInputs queries "single_sequence" use_filter use_templates
      output_dir w = (Ok raw_inputs, w)
    ∧ (∀ s, (∃ q, q ∈ queries ∧ s ∈ q.2) →
         raw_inputs !! s = Some (single_row s, None))
    ∧ (∀ s, ¬ (∃ q, q ∈ queries ∧ s ∈ q.2) → raw_inputs !! s = None)
    ∧ NoDup (unique_of_queries [] queries)
    ∧ size raw_inputs = length (unique_of_queries [] queries)
    ∧ (∀ filename use_multimer, queries = [(filename, ["ACDEFG"])] →
         let r := getChainFeatures_af search_templates get_hash ls ["ACDEFG"]
                    raw_inputs use_templates None None use_multimer in
         Alphafold.parse_a3m (single_row "ACDEFG") = Ok [("ACDEFG", "1")]
         ∧ feature_at r "A" "msa" = Some (Data [1; 6] ["ACDEFG"])
         ∧ (λ k, feature_at r "A" k) <$> template_feature_names
           = (λ k, Alphafold.empty_placeholder_template_features 0 6 !! k)
               <$> template_feature_names).
Proof.
  intros Hq.
  set (unique := unique_of_queries [] queries).
  assert (Forall (λ s, no_linebreak s = true) unique) as Hu.
  { apply Forall_forall. intros s Hs.
    apply unique_of_queries_elem in Hs as [Hs|(q & Hq1 & Hq2)]; [set_solver|].
    rewrite Forall_forall in Hq. specialize (Hq q Hq1).
    rewrite Forall_forall in Hq. by apply Hq. }
  assert (NoDup unique) as Hnd by (apply unique_of_queries_NoDup, NoDup_nil_2).
  exists (foldl (λ m s, <[s := (single_row s, None)]> m) ∅ unique).
  split; [|split; [|split; [|split; [|split]]]].
  - unfold getRawInputs. fold unique.
    rewrite bool_decide_true by done.
    cbn [negb andb].
    change (mret ?x ≫= ?f) with (fun w' => f x w').
    cbv beta. unfold lift.
    change (λ sequence : string, ">1" +:+ NL +:+ sequence +:+ NL) with single_row.
    by rewrite store_raw_inputs_single.
  - intros s Hs. rewrite foldl_insert_lookup.
    rewrite decide_True; [done|]. apply unique_of_queries_elem. by right.
  - intros s Hs. rewrite foldl_insert_lookup.
    rewrite decide_False; [done|]. intros Hin.
    apply unique_of_queries_elem in Hin as [?|?]; [set_solver|done].
  - done.
  - rewrite foldl_insert_size; [by rewrite map_size_empty|done|done].
  - intros filename use_multimer ->. apply single_sequence_scenario.
Qed.

End SingleSequence.

Lemma getRawInputs_single_sequence_witness :
  ∃ raw_inputs : RawInput,
    getRawInputs [("query.fasta", ["ACDEFG"])] "single_sequence" true false
      "out" idle_world = (Ok raw_inputs, idle_world)
    ∧ raw_inputs !! "ACDEFG" = Some (single_row "ACDEFG", None)
    ∧ size raw_inputs = 1.
Proof.
  destruct (getRawInputs_single_sequence
              (fun _ _ _ => Raise (Exception "hhsearch")) (fun s => s)
              (fun _ => None) [("query.fasta", ["ACDEFG"])] true false "out"
              idle_world)
    as (raw_inputs & Hrun & Hin & _ & _ & Hsize & _).
  - repeat constructor.
  - exists raw_inputs. split; [exact Hrun|]. split; [|exact Hsize].
    apply Hin. exists ("query.fasta", ["ACDEFG"]).
    split; apply list_elem_of_singleton; reflexivity.
Defined.

(** ** The MMseqs2 client *)

Section Client.
Implicit Types (w : world) (ph : phase) (out : reply).

Lemma sorted_set_elem s l : s ∈ sorted_set l ↔ s ∈ l.
Proof.
  unfold sorted_set. rewrite merge_sort_Permutation. apply elem_of_remove_dups.
Qed.

Lemma tags_of_members N u l :
  (∀ s, s ∈ l → s ∈ u) → tags_of N u l = Ok (tag_of N u <$> l).
Proof.
  induction l as [|s l IH]; intros H; [done|]. simpl.
  destruct (list_index_elem s u) as [i Hi]; [set_solver|].
  unfold tag_of at 1. rewrite Hi. rewrite IH by set_solver. done.
Qed.

Lemma tags_of_sorted_set N l :
  tags_of N (sorted_set l) l = Ok (tag_of N (sorted_set l) <$> l).
Proof. apply tags_of_members. intros s. by rewrite sorted_set_elem. Qed.

(** The answer [ERROR] ends the loop at once: with the exception of
    line 166, or with the [KeyError] of line 156 when a submission is
    answered without a ticket id. *)
Lemma on_reply_error ph out :
  status_of out = Ok "ERROR" →
  ∃ e, on_reply ph out = Failed e
       ∧ ((ph = Submitting → is_Ok (id_of out)) →
          e = Exception api_error_message).
Proof.
  intros Hst. unfold on_reply. rewrite Hst.
  destruct ph as [|ID].
  - cbn [bool_decide]. rewrite bool_decide_false by set_solver.
    destruct (id_of out) as [ID|e] eqn:HID.
    + exists (Exception api_error_message). done.
    + exists e. split; [done|]. intros Hid.
      destruct (Hid eq_refl) as [ID HID']. done.
  - exists (Exception api_error_message). done.
Qed.

Lemma api_loop_error submit ph out rest :
  status_of out = Ok "ERROR" →
  ∃ e, api_loop submit ph (out :: rest)
       = (Raise e, [request_of submit ph], rest)
       ∧ ((ph = Submitting → is_Ok (id_of out)) →
          e = Exception api_error_message).
Proof.
  intros Hst. destruct (on_reply_error ph out Hst) as (e & He & Hmsg).
  exists e. split; [|done]. simpl. by rewrite He.
Qed.

Lemma api_loop_app submit ph pre ph' :
  phase_after ph pre = Some ph' →
  ∃ evs, ∀ answers,
    api_loop submit ph (pre ++ answers)
    = let '(r, evs', unread) := api_loop submit ph' answers in
      (r, evs ++ evs', unread).
Proof.
  revert ph. induction pre as [|out pre IH]; intros ph H.
  - simpl in H. simplify_eq. exists []. intros answers. simpl.
    by destruct (api_loop submit ph' answers) as [[??]?].
  - simpl in H.
    destruct (on_reply ph out) as [| ID | | ID | e] eqn:Hv; try done.
    + destruct (IH _ H) as [evs Hevs].
      exists (request_of submit ph :: EvSleep :: evs). intros answers.
      simpl. rewrite Hv, Hevs.
      by destruct (api_loop submit ph' answers) as [[??]?].
    + destruct (IH _ H) as [evs Hevs].
      exists (request_of submit ph :: EvSleep :: evs). intros answers.
      simpl. rewrite Hv, Hevs.
      by destruct (api_loop submit ph' answers) as [[??]?].
    + destruct (IH _ H) as [evs Hevs].
      exists (request_of submit ph :: evs). intros answers.
      simpl. rewrite Hv, Hevs.
      by destruct (api_loop submit ph' answers) as [[??]?].
Qed.

(** C9: when the answer to a submission or to a status request carries
    the status [ERROR], [runMMseqs2] raises at once.  The request that
    was answered so is the last call that leaves the process: no sleep,
    resubmission, status request or download follows, the answers that
    were still to come stay unread, and no file is written.  The
    exception is the one that tells the user to check the input, a
    submission being answered with its ticket id as the protocol has
    it. *)
Theorem runMMseqs2_error_aborts (prefix : string) (sequences : list string)
    (use_env use_filter use_templates : bool) (num_templates : nat)
    (w : world) (pre : list reply) (ph : phase) (out : reply)
    (rest : list reply) :
  let out_path := prefix +:+ "_" +:+ mode_of use_env use_filter in
  let submit :=
    EvSubmit (submit_query 101 (sorted_set sequences))
      (mode_of use_env use_filter) in
  files w !! out_path = None →
  files w !! PyNum.path_join out_path "out.tar.gz" = None →
  replies w = pre ++ out :: rest →
  phase_after Submitting pre = Some ph →
  status_of out = Ok "ERROR" →
  ∃ evs e,
    runMMseqs2 prefix (Sequences sequences) use_env use_filter use_templates
      num_templates w
    = (Raise e,
       World (files w) ({[out_path]} ∪ dirs w) rest (archive w)
         (trace w ++ evs ++ [request_of submit ph]))
    ∧ ((ph = Submitting → is_Ok (id_of out)) →
       e = Exception api_error_message).
Proof.
  intros out_path submit Hdir Htar Hrep Hpre Hst.
  destruct (api_loop_app submit Submitting pre ph Hpre) as [evs Hevs].
  destruct (api_loop_error submit ph out rest Hst) as (e & He & Hmsg).
  exists evs, e. split; [|done].
  unfold runMMseqs2. fold out_path.
  unfold mbind at 1, IO_bind. unfold makedir at 1. rewrite Hdir.
  unfold mbind at 1, IO_bind. unfold lift at 1.
  rewrite tags_of_sorted_set.
  unfold mbind at 1, IO_bind.
  unfold call_api. unfold mbind at 1, IO_bind. unfold isfile at 1.
  cbn [files dirs replies archive trace].
  rewrite bool_decide_false by (rewrite Htar; by intros [??]).
  rewrite Hrep. cbn [files dirs replies archive trace]. fold submit.
  rewrite Hevs, He.
  done.
Qed.

Lemma runMMseqs2_error_aborts_witness :
  ∃ evs,
    runMMseqs2 "out/mmseqs2" (Sequences ["ACDE"; "GHIK"; "ACDE"]) false true
      false 20 failing_service
    = (Raise (Exception api_error_message),
       World ∅ ({["out/mmseqs2_all"]} ∪ ∅)
         [Json (Some "COMPLETE") (Some "T1")] (TarFile [])
         ([] ++ evs ++ [EvStatus "T1"])).
Proof.
  destruct (runMMseqs2_error_aborts "out/mmseqs2" ["ACDE"; "GHIK"; "ACDE"]
              false true false 20 failing_service
              [NotJson; Json (Some "PENDING") (Some "T1")] (Polling "T1")
              (Json (Some "ERROR") (Some "T1"))
              [Json (Some "COMPLETE") (Some "T1")]
              eq_refl eq_refl eq_refl eq_refl eq_refl)
    as (evs & e & Hrun & Hmsg).
  exists evs. rewrite <- Hmsg; [exact Hrun|].
  intros Hph. discriminate Hph.
Defined.

(** *** Splitting the result files *)

Lemma gather_line_headed st line st' :
  headed (a3m_lines_of st) → gather_line st line = Ok st' →
  headed (a3m_lines_of st').
Proof.
  intros Hd. unfold gather_line.
  destruct (0 <? String.length line); [|by intros [= <-]].
  set (lu := if Py.contains Py.nul line
             then (Py.remove_char Py.nul line, true)
             else (line, update_M st)).
  destruct lu as [line' upd].
  destruct (Py.startswith Py.gt line' && upd) eqn:Hhead.
  - apply andb_true_iff in Hhead as [Hgt _].
    destruct (PyNum.int (Py.rstrip (Py.tail line'))) as [M|e]; [|done].
    cbn [mbind result_bind].
    destruct (a3m_lines_of st !! M) as [l0|] eqn:HM.
    + rewrite HM. intros [= <-]. cbn [a3m_lines_of].
      intros m l Hl. destruct (decide (m = M)) as [->|Hne].
      * rewrite lookup_insert_eq in Hl. simplify_eq.
        destruct (Hd _ _ HM) as (h & t & -> & Hh). by exists h, (t ++ [line']).
      * rewrite lookup_insert_ne in Hl by done. by eapply Hd.
    + rewrite lookup_insert_eq. intros [= <-]. cbn [a3m_lines_of].
      intros m l Hl. destruct (decide (m = M)) as [->|Hne].
      * rewrite lookup_insert_eq in Hl. simplify_eq.
        exists line', []. split; [done|]. by eapply startswith_nonempty.
      * rewrite !lookup_insert_ne in Hl by done. by eapply Hd.
  - cbn [mbind result_bind].
    destruct (cur_M st) as [M|]; [|done].
    destruct (a3m_lines_of st !! M) as [l0|] eqn:HM; [|done].
    intros [= <-]. cbn [a3m_lines_of].
    intros m l Hl. destruct (decide (m = M)) as [->|Hne].
    + rewrite lookup_insert_eq in Hl. simplify_eq.
      destruct (Hd _ _ HM) as (h & t & -> & Hh). by exists h, (t ++ [line']).
    + rewrite lookup_insert_ne in Hl by done. by eapply Hd.
Qed.

Lemma gather_lines_headed lines st st' :
  headed (a3m_lines_of st) → gather_lines st lines = Ok st' →
  headed (a3m_lines_of st').
Proof.
  revert st. induction lines as [|line lines IH]; intros st Hd; simpl.
  - by intros [= <-].
  - intros H. apply result_bind_inv in H as (st1 & H1 & H2).
    eapply IH; [|done]. by eapply gather_line_headed.
Qed.

Lemma gather_files_headed a3m_files d w d' w' :
  headed d → gather_files a3m_files d w = (Ok d', w') → headed d'.
Proof.
  revert d w. induction a3m_files as [|f fs IH]; intros d w Hd; simpl.
  - by intros [= <- _].
  - intros H. apply IO_bind_inv in H as (lines & w1 & _ & H).
    apply IO_bind_inv in H as (st & w2 & Hst & H).
    apply lift_inv in Hst as [Hst ->].
    eapply IH; [|done]. eapply gather_lines_headed; [|done]. done.
Qed.

Lemma join_tags_inv d Ms blobs :
  headed d → join_tags d Ms = Ok blobs →
  ∃ blob_of : Z → string,
    blobs = blob_of <$> Ms ∧ ∀ n, n ∈ Ms → blob_of n ≠ "".
Proof.
  intros Hd H.
  exists (λ n, Py.join "" (default [] (d !! n))).
  revert blobs H. induction Ms as [|n Ms IH]; intros blobs H; simpl in H.
  - simplify_eq. split; [done|]. set_solver.
  - destruct (d !! n) as [l|] eqn:Hn; [|done].
    apply result_bind_inv in H as (more & Hmore & [= <-]).
    destruct (IH _ Hmore) as [-> Hne]. split.
    + simpl. by rewrite Hn.
    + intros n' [->|?]%elem_of_cons; [|by apply Hne].
      rewrite Hn. simpl. destruct (Hd _ _ Hn) as (h & t & -> & ?).
      by apply join_nonempty.
Qed.

Lemma runMMseqs2_inv prefix sequences use_env use_filter use_templates
    num_templates w a3m_lines template_paths :
  (runMMseqs2 prefix (Sequences sequences) use_env use_filter use_templates
     num_templates w).1 = Ok (a3m_lines, template_paths) →
  ∃ (blob_of : Z → string) (path_of : Z → option string),
    a3m_lines = blob_of <$> (tag_of 101 (sorted_set sequences) <$> sequences)
    ∧ template_paths
      = path_of <$> (tag_of 101 (sorted_set sequences) <$> sequences)
    ∧ ∀ s, s ∈ sequences → blob_of (tag_of 101 (sorted_set sequences) s) ≠ "".
Proof.
  intros H.
  destruct (runMMseqs2 _ _ _ _ _ _ w) as [r w'] eqn:Hrun. simpl in H. subst r.
  unfold runMMseqs2 in Hrun.
  inv_bind Hrun. inv_bind Hrun.
  apply lift_inv in Hstep0 as [HMs ->].
  rewrite tags_of_sorted_set in HMs. simplify_eq.
  do 3 inv_bind Hrun.
  apply IO_bind_inv in Hrun as (tp & w6 & _ & Hrun).
  apply IO_bind_inv in Hrun as (d & w7 & Hd & Hrun).
  apply IO_bind_inv in Hrun as (blobs & w8 & Hblobs & Hrun).
  apply lift_inv in Hblobs as [Hblobs ->].
  apply gather_files_headed in Hd; [|by intros ?? ?].
  destruct (join_tags_inv _ _ _ Hd Hblobs) as (blob_of & -> & Hne).
  injection Hrun as Ha Ht Hw.
  exists blob_of, (if use_templates then (λ n, tp !! n) else (λ _, None)).
  split; [done|]. split; [by destruct use_templates|].
  intros s Hs. apply Hne. by apply list_elem_of_fmap_2.
Qed.

Lemma join_tags_total d Ms :
  (∀ n, n ∈ Ms → is_Some (d !! n)) → is_Ok (join_tags d Ms).
Proof.
  induction Ms as [|n Ms IH]; intros H; [by eexists|]. simpl.
  destruct (H n) as [l Hl]; [left|]. rewrite Hl.
  destruct IH as [more Hmore]; [intros; apply H; by right|].
  rewrite Hmore. by eexists.
Qed.

(** A run that finds the archive and the extracted alignments of an
    earlier run on disk makes no request and returns, provided the file
    holds an entry for the tag of every sequence. *)
Lemma runMMseqs2_returns_from_cache prefix sequences use_filter
    num_templates w tar lines st :
  let out_path := prefix +:+ "_" +:+ mode_of false use_filter in
  files w !! out_path = None →
  files w !! PyNum.path_join out_path "out.tar.gz" = Some tar →
  files w !! PyNum.path_join out_path "uniref.a3m" = Some (TextFile lines) →
  gather_lines (GatherState true None ∅) lines = Ok st →
  (∀ s, s ∈ sequences →
     is_Some (a3m_lines_of st !! tag_of 101 (sorted_set sequences) s)) →
  ∃ a3m_lines,
    runMMseqs2 prefix (Sequences sequences) false use_filter false
      num_templates w
    = (Ok (a3m_lines, (λ _, None) <$> sequences),
       World (files w) ({[out_path]} ∪ dirs w) (replies w) (archive w)
         (trace w)).
Proof.
  intros out_path Hdir Htar Huni Hst Htags.
  destruct (join_tags_total (a3m_lines_of st)
              (tag_of 101 (sorted_set sequences) <$> sequences))
    as [blobs Hblobs].
  { intros n (s & -> & Hs)%list_elem_of_fmap. by apply Htags. }
  exists blobs.
  unfold runMMseqs2. fold out_path.
  unfold mbind at 1, IO_bind. unfold makedir at 1. rewrite Hdir.
  unfold mbind at 1, IO_bind. unfold lift at 1.
  rewrite tags_of_sorted_set.
  unfold mbind at 1, IO_bind.
  unfold call_api. unfold mbind at 1, IO_bind. unfold isfile at 1.
  cbn [files dirs replies archive trace].
  rewrite bool_decide_true by (rewrite Htar; by eexists).
  unfold mret at 1, IO_ret.
  unfold mbind at 1, IO_bind. unfold isfile at 1.
  cbn [files dirs replies archive trace].
  rewrite bool_decide_true by (rewrite Huni; by eexists).
  unfold mbind at 1, IO_bind. unfold mret at 1, IO_ret.
  unfold mbind at 1, IO_bind. unfold mret at 1, IO_ret.
  unfold mbind at 1, IO_bind.
  cbn [gather_files].
  unfold mbind at 1, IO_bind. unfold read_lines at 1.
  cbn [files dirs replies archive trace]. rewrite Huni.
  unfold mbind at 1, IO_bind. unfold lift at 1. rewrite Hst.
  unfold mret at 1, IO_ret.
  unfold mbind at 1, IO_bind. unfold lift at 1. rewrite Hblobs.
  unfold mret, IO_ret. by rewrite <- list_fmap_compose.
Qed.

End Client.

(** ** The custom alignments and the feature builder *)

Lemma extension_never_a3m filename :
  List.last (Py.split "."%char filename) "" ≠ ".a3m".
Proof.
  intros H.
  pose proof (last_elem (Py.split "."%char filename) "" (split_nonempty _ _))
    as Hin.
  rewrite H in Hin. apply split_fields_free in Hin. done.
Qed.

Lemma custom_msa_loop_skips files d sequence :
  custom_msa_loop files d sequence = Ok d.
Proof.
  induction files as [|[filename text] files IH]; [done|].
  cbn [custom_msa_loop].
  by rewrite bool_decide_false by apply extension_never_a3m.
Qed.

(** C2: [getCustomMSADict] never returns a mapping.  Line 260 reads the
    name [onlyfile], which is bound nowhere, so every call on a directory
    that exists raises [NameError]; and the loop body compares the text
    after the last dot of a file name with [.a3m], which never matches,
    so it would read no file at all. *)
Theorem getCustomMSADict_never_returns :
  (∀ (ls : listing) (custom_msa_path : string),
     ∃ e, getCustomMSADict ls custom_msa_path = Raise e)
  ∧ getCustomMSADict custom_dir "custom" = Raise (NameError "onlyfile")
  ∧ (∀ files d sequence, custom_msa_loop files d sequence = Ok d).
Proof.
  split_and!.
  - intros ls p. unfold getCustomMSADict.
    destruct (ls p); by eexists.
  - done.
  - apply custom_msa_loop_skips.
Qed.

Section AnyLibrary.
Variable Msa : Type.
Variable parse_a3m : string → result Msa.
Variable make_sequence_features : string → string → nat → FeatureDict.
Variable make_msa_features : list Msa → result FeatureDict.
Variable empty_placeholder_template_features : nat → nat → FeatureDict.
Variable search_templates : string → string → string → result FeatureDict.
Variable get_hash : string → string.
Variable MSA_FEATURES : list string.
Variable PDB_CHAIN_IDS : string.

(** Whatever the library, a chain with a custom alignment gets the
    sequence features and the template placeholder and nothing else: the
    custom alignment is parsed and dropped. *)
Lemma chain_feature_dict_custom sequence custom raw_inputs custom_msa_dict :
  custom_msa_dict !! sequence = Some custom →
  is_Ok (getMSA Msa parse_a3m sequence None (Some custom)) →
  chain_feature_dict Msa parse_a3m make_sequence_features make_msa_features
    empty_placeholder_template_features search_templates get_hash
    MSA_FEATURES [sequence] raw_inputs false custom_msa_dict None sequence
  = Ok (update
          (update ∅
             (make_sequence_features sequence "query"
                (String.length sequence)))
          (empty_placeholder_template_features 0 (String.length sequence))).
Proof.
  intros Hcustom [msa Hmsa]. unfold chain_feature_dict.
  rewrite Hcustom, Hmsa. done.
Qed.

(** Whatever the library, the bundle of the concatenated chains holds
    the template placeholder built for the length of the last chain. *)
Lemma concatenated_feature_dict_placeholder sequences raw_inputs bundles :
  concatenated_feature_dict Msa parse_a3m make_sequence_features
    make_msa_features empty_placeholder_template_features PDB_CHAIN_IDS
    sequences raw_inputs = Ok bundles →
  ∃ id fd last,
    bundles = {[ id := fd ]}
    ∧ List.last (Some <$> sequences) None = Some last
    ∧ ∀ k v, k ≠ "residue_index" → k ≠ "asym_id" →
        empty_placeholder_template_features 0 (String.length last) !! k
          = Some v →
        fd !! k = Some v.
Proof.
  unfold concatenated_feature_dict. intros H.
  apply result_bind_inv in H as (a3m_lines & _ & H).
  apply result_bind_inv in H as (msa & _ & H).
  apply result_bind_inv in H as (msa_features & _ & H).
  destruct (List.last (Some <$> sequences) None) as [last|]; [|done].
  cbn [mbind result_bind] in H.
  apply result_bind_inv in H as (residue_index & _ & H).
  apply result_bind_inv in H as (shifted_index & _ & H).
  apply result_bind_inv in H as (id & _ & [= <-]).
  eexists id, _, last. split; [done|]. split; [done|].
  intros k v Hk1 Hk2 Hv.
  rewrite !lookup_insert_ne by done.
  unfold update. by apply lookup_union_Some_l.
Qed.

End AnyLibrary.

Section BuilderFacts.
Variable search_templates : string → string → string → result FeatureDict.
Variable get_hash : string → string.

(** C1: with a custom alignment for [ACDE] in the directory,
    [getChainFeatures] raises [NameError] instead of building the bundle;
    and the body of the loop, given a custom alignment for the sequence,
    parses it but adds no MSA feature to the bundle, because the update
    of line 357 belongs to the branch without custom alignment. *)
Theorem custom_alignment_builds_no_msa_features :
  getChainFeatures_af search_templates get_hash custom_dir ["ACDE"] raw_ACDE
    false (Some "custom") None true
  = Raise (NameError "onlyfile")
  ∧ (let with_custom :=
       chain_feature_dict Alphafold.Msa Alphafold.parse_a3m
         Alphafold.make_sequence_features Alphafold.make_msa_features
         Alphafold.empty_placeholder_template_features search_templates
         get_hash Alphafold.MSA_FEATURES ["ACDE"] raw_ACDE false
         {[ "ACDE" := custom_ACDE ]} None "ACDE" in
     let without_custom :=
       chain_feature_dict Alphafold.Msa Alphafold.parse_a3m
         Alphafold.make_sequence_features Alphafold.make_msa_features
         Alphafold.empty_placeholder_template_features search_templates
         get_hash Alphafold.MSA_FEATURES ["ACDE"] raw_ACDE false
         ∅ None "ACDE" in
     raised with_custom = None
     ∧ feature_in with_custom "aatype" = Some (Data [4; 21] ["ACDE"])
     ∧ feature_in with_custom "msa" = None
     ∧ feature_in without_custom "msa" = Some (Data [2; 4] ["ACDE"; "AC-E"])).
Proof.
  split; [by vm_compute|]. by vm_compute.
Qed.

(** C5: for the chains [AC] and [DEF] under a model that is not a
    multimer model the bundle has residue count 5, the length of the
    concatenation, but the template placeholder is built for 3 residues,
    the length of the last chain. *)
Theorem concatenated_placeholder_shape (ls : listing) :
  let r := getChainFeatures_af search_templates get_hash ls ["AC"; "DEF"]
             raw_AC_DEF false None None false in
  feature_at r "A" "aatype" = Some (Data [5; 21] ["ACDEF"])
  ∧ feature_at r "A" "residue_index" = Some (Ints [0; 1; 202; 203; 204]%Z)
  ∧ feature_at r "A" "msa" = Some (Data [2; 5] ["AC---"; "--DEF"])
  ∧ feature_at r "A" "template_aatype" = Some (Data [0; 3; 22] [])
  ∧ Alphafold.empty_placeholder_template_features 0 5 !! "template_aatype"
    = Some (Data [0; 5; 22] [])
  ∧ (λ k, feature_at r "A" k) <$> template_feature_names
    = (λ k, Alphafold.empty_placeholder_template_features 0 3 !! k)
        <$> template_feature_names.
Proof.
  split_and!; by vm_compute.
Qed.

End BuilderFacts.

(** * Further properties of the code *)

(** ** More on the pairer *)

Section PairerMore.
Implicit Types (blank a3ms qs : list string) (cards : list nat).

Lemma append_unique_app u l1 l2 :
  append_unique u (l1 ++ l2) = append_unique (append_unique u l1) l2.
Proof.
  revert u. induction l1 as [|s l1 IH]; intros u; [done|]. simpl.
  by destruct (Py.list_contains s u).
Qed.

Lemma append_unique_prefix u l : ∃ t, append_unique u l = u ++ t.
Proof.
  revert u. induction l as [|s l IH]; intros u; simpl.
  - exists []. by rewrite app_nil_r.
  - destruct (Py.list_contains s u); [apply IH|].
    destruct (IH (u ++ [s])) as [t Ht]. exists (s :: t).
    by rewrite Ht, <- app_assoc.
Qed.

Lemma unpaired_msas_of_missing (raw : RawInput) found s rest :
  (∀ x, x ∈ found → is_Some (raw !! x)) → raw !! s = None →
  unpaired_msas_of raw (found ++ s :: rest) = Raise (KeyError s).
Proof.
  intros Hfound Hs. induction found as [|x found IH]; simpl.
  - unfold getitem. by rewrite Hs.
  - unfold getitem. destruct (Hfound x) as [e He]; [left|]. rewrite He.
    cbn [mbind result_bind]. rewrite IH; [done|].
    intros y Hy. apply Hfound. by right.
Qed.

(** X1: [pair_msa] looks the alignments up for the distinct sequences in
    order of first occurrence, before anything is padded: when a sequence
    of the query has no entry in the raw inputs and all sequences before it
    have one, the call raises [KeyError] carrying that sequence. *)
Theorem pair_msa_missing_sequence (raw_inputs : RawInput)
    (pre : list string) (s : string) (post : list string) :
  (∀ x, x ∈ pre → is_Some (raw_inputs !! x)) →
  raw_inputs !! s = None →
  pair_msa (pre ++ s :: post) raw_inputs = Raise (KeyError s).
Proof.
  intros Hpre Hs. rewrite pair_msa_spec. unfold block_diagonal, grouped.
  set (sequences := pre ++ s :: post).
  assert (∃ t, append_unique [] sequences = append_unique [] pre ++ s :: t)
    as [t Ht].
  { unfold sequences. rewrite append_unique_app. simpl.
    unfold Py.list_contains. rewrite bool_decide_false.
    - destruct (append_unique_prefix (append_unique [] pre ++ [s]) post)
        as [t Ht].
      exists t. by rewrite Ht, <- app_assoc.
    - intros Hin. apply append_unique_elem in Hin as [?|Hin]; [set_solver|].
      destruct (Hpre s Hin) as [e He]. congruence. }
  rewrite Ht.
  set (P := append_unique [] pre).
  assert (∀ x, x ∈ P → is_Some (raw_inputs !! x)) as HP.
  { intros x Hx. apply append_unique_elem in Hx as [?|?]; [set_solver|].
    by apply Hpre. }
  rewrite unpaired_msas_of_instances.
  - rewrite (unpaired_msas_of_missing raw_inputs P s t HP Hs). done.
  - by rewrite length_fmap.
  - apply Forall_fmap, Forall_forall. intros x Hx. simpl.
    apply occurrences_pos.
    assert (x ∈ append_unique [] sequences) as Hx' by (by rewrite Ht).
    apply append_unique_elem in Hx' as [?|?]; [set_solver|done].
Qed.

Lemma pair_msa_missing_sequence_witness :
  pair_msa (["AC"] ++ "XY" :: ["AC"]) raw_AC_DEF = Raise (KeyError "XY").
Proof.
  apply (pair_msa_missing_sequence raw_AC_DEF ["AC"] "XY" ["AC"]).
  - intros x Hx. apply list_elem_of_singleton in Hx. subst x.
    eexists. reflexivity.
  - reflexivity.
Defined.

(** *** The column blocks are the chains of the query *)

Lemma occurrences_app l1 l2 x :
  occurrences (l1 ++ l2) x = occurrences l1 x + occurrences l2 x.
Proof. unfold occurrences. by rewrite filter_app, length_app. Qed.

Lemma occurrences_replicate c (s x : string) :
  occurrences (replicate c s) x = if decide (s = x) then c else 0.
Proof.
  induction c as [|c IH]; simpl.
  - by case_decide.
  - rewrite occurrences_cons, IH. case_decide; lia.
Qed.

Lemma occurrences_not_elem l x : x ∉ l → occurrences l x = 0.
Proof.
  induction l as [|s l IH]; [done|]. intros Hx.
  rewrite occurrences_cons, decide_False by set_solver.
  rewrite IH; [done|set_solver].
Qed.

Lemma occurrences_instances (f : string → nat) (u : list string) x :
  NoDup u →
  occurrences (instances_of u (f <$> u)) x
  = if decide (x ∈ u) then f x else 0.
Proof.
  induction 1 as [|s u Hs Hnd IH].
  - by rewrite decide_False by set_solver.
  - unfold instances_of. cbn [fmap list_fmap zip_with concat].
    fold (instances_of u (f <$> u)).
    rewrite occurrences_app, occurrences_replicate, IH.
    destruct (decide (s = x)) as [->|Hne].
    + rewrite decide_False by done. rewrite decide_True by set_solver. lia.
    + destruct (decide (x ∈ u)).
      * rewrite decide_True by set_solver. lia.
      * rewrite decide_False by set_solver. lia.
Qed.

Lemma occurrences_count_occ l x :
  occurrences l x = count_occ string_dec l x.
Proof.
  induction l as [|s l IH]; [done|].
  rewrite occurrences_cons. simpl.
  destruct (string_dec s x); case_decide; try done; lia.
Qed.

Lemma grouped_Permutation sequences : grouped sequences ≡ₚ sequences.
Proof.
  apply (Permutation_count_occ string_dec). intros x.
  rewrite <- !occurrences_count_occ. unfold grouped.
  rewrite occurrences_instances by apply append_unique_NoDup, NoDup_nil_2.
  case_decide as Hx; [done|].
  symmetry. apply occurrences_not_elem. intros Hin. apply Hx.
  apply append_unique_elem. by right.
Qed.

End PairerMore.

Section PairerWidth.
Implicit Types (blank a3ms qs : list string) (cards : list nat).

Lemma length_instances_of {A} (qs : list A) cards :
  length qs = length cards →
  length (instances_of qs cards) = sum_list cards.
Proof.
  revert cards. induction qs as [|q qs IH]; intros [|c cards] Hlen; try done.
  unfold instances_of. cbn [zip_with concat]. rewrite length_app.
  rewrite length_replicate. simpl. f_equal. apply IH. simpl in Hlen. lia.
Qed.

(** X2: the cardinalities [pair_msa] hands to [pad_sequences].  The
    counting loop returns for every query; the distinct sequences are
    exactly the sequences of the query, each listed once; there is one
    count per distinct sequence, which is the number of times the
    sequence occurs in the query; every count is positive, the counts add
    up to the number of chains, and repeating each distinct sequence as
    often as its count says gives the chains of the query up to order.
    [pair_msa] is [pad_sequences] on the alignments of the distinct
    sequences, the distinct sequences and these counts. *)
Theorem pair_msa_cardinalities (sequences : list string) :
  let unique_seqs := append_unique [] sequences in
  ∃ seqs_cardinality,
    count_cardinality unique_seqs (replicate (length unique_seqs) 0) sequences
      = Ok seqs_cardinality
    ∧ NoDup unique_seqs
    ∧ (∀ s, s ∈ unique_seqs ↔ s ∈ sequences)
    ∧ length seqs_cardinality = length unique_seqs
    ∧ Forall (λ c, 0 < c) seqs_cardinality
    ∧ sum_list seqs_cardinality = length sequences
    ∧ instances_of unique_seqs seqs_cardinality ≡ₚ sequences
    ∧ seqs_cardinality = occurrences sequences <$> unique_seqs
    ∧ ∀ raw_inputs : RawInput,
        pair_msa sequences raw_inputs
        = unpaired_msas ← unpaired_msas_of raw_inputs unique_seqs;
          pad_sequences unpaired_msas unique_seqs seqs_cardinality.
Proof.
  intros u.
  assert (NoDup u) as Hnd by apply append_unique_NoDup, NoDup_nil_2.
  assert (∀ s, s ∈ u ↔ s ∈ sequences) as Hu.
  { intros s. unfold u. rewrite append_unique_elem. set_solver. }
  exists (occurrences sequences <$> u).
  split_and!; try done.
  - rewrite count_cardinality_spec;
      [|done|intros s; apply Hu|by rewrite length_replicate].
    by rewrite zip_with_replicate_0.
  - by rewrite length_fmap.
  - apply Forall_fmap, Forall_forall. intros s Hs. simpl.
    apply occurrences_pos. by apply Hu.
  - rewrite <- length_instances_of with (qs := u) by by rewrite length_fmap.
    apply Permutation_length, grouped_Permutation.
  - apply grouped_Permutation.
  - intros raw_inputs. unfold pair_msa. fold u.
    rewrite count_cardinality_spec;
      [|done|intros s; apply Hu|by rewrite length_replicate].
    by rewrite zip_with_replicate_0.
Qed.

Lemma pair_msa_cardinalities_witness :
  ∃ seqs_cardinality,
    count_cardinality ["AC"; "GHI"] [0; 0] ["AC"; "GHI"; "AC"]
    = Ok seqs_cardinality
    ∧ seqs_cardinality = [2; 1]
    ∧ instances_of ["AC"; "GHI"] seqs_cardinality ≡ₚ ["AC"; "GHI"; "AC"]
    ∧ pair_msa ["AC"; "GHI"; "AC"] raw_AC_GHI
      = unpaired_msas ← unpaired_msas_of raw_AC_GHI ["AC"; "GHI"];
        pad_sequences unpaired_msas ["AC"; "GHI"] seqs_cardinality.
Proof.
  destruct (pair_msa_cardinalities ["AC"; "GHI"; "AC"])
    as (seqs_cardinality & Hcount & _ & _ & _ & _ & _ & Hperm & Hocc & Hpair).
  exists seqs_cardinality.
  split; [exact Hcount|]. split; [exact Hocc|]. split; [exact Hperm|].
  exact (Hpair raw_AC_GHI).
Defined.

Lemma length_join_empty (parts : list string) :
  String.length (Py.join "" parts) = sum_list_with String.length parts.
Proof.
  induction parts as [|p parts IH]; [done|].
  destruct parts as [|q parts]; [simpl; by rewrite Nat.add_0_r|].
  change (Py.join "" (p :: q :: parts))
    with (p +:+ "" +:+ Py.join "" (q :: parts)).
  rewrite !str_length_app, IH. simpl. lia.
Qed.

Lemma length_total_sequence (sequences : list string) :
  String.length (total_sequence_of sequences)
  = sum_list_with String.length sequences.
Proof.
  unfold total_sequence_of.
  assert (∀ acc, String.length (foldl (λ total sequence, total +:+ sequence)
                                   acc sequences)
                 = String.length acc + sum_list_with String.length sequences)
    as H.
  { induction sequences as [|s l IH]; intros acc.
    - simpl. lia.
    - cbn [foldl sum_list_with]. rewrite IH, str_length_app. lia. }
  by rewrite H.
Qed.

Lemma sum_take_drop {A} (f : A → nat) (l : list A) p x :
  l !! p = Some x →
  sum_list_with f (take p l) + f x + sum_list_with f (drop (p + 1) l)
  = sum_list_with f l.
Proof.
  intros Hp. rewrite <- (take_drop_middle l p x Hp) at 3.
  rewrite sum_list_with_app. simpl.
  replace (p + 1) with (S p) by lia. lia.
Qed.

Lemma sum_length_gaps (l : list string) :
  sum_list_with String.length ((λ seq, gaps (String.length seq)) <$> l)
  = sum_list_with String.length l.
Proof.
  induction l as [|s l IH]; [done|]. rewrite fmap_cons.
  cbn [sum_list_with]. by rewrite IH, length_gaps.
Qed.

Lemma blocks_elem blank pos a3ms row :
  row ∈ blocks blank pos a3ms →
  ∃ i a3m, a3ms !! i = Some a3m ∧ row ∈ pad_lines blank (pos + i) a3m.
Proof.
  revert pos. induction a3ms as [|a a3ms IH]; intros pos; simpl.
  - intros H. by apply elem_of_nil in H.
  - intros [H|H]%elem_of_app.
    + exists 0, a. split; [done|]. by rewrite Nat.add_0_r.
    + destruct (IH _ H) as (i & a3m & Hi & Hrow).
      exists (S i), a3m. split; [done|].
      by replace (pos + S i) with (pos + 1 + i) by lia.
Qed.

Lemma unpaired_msas_of_lookup (raw : RawInput) l a3ms i a3m :
  unpaired_msas_of raw l = Ok a3ms → a3ms !! i = Some a3m →
  ∃ s entry, l !! i = Some s ∧ raw !! s = Some entry ∧ a3m = entry.1.
Proof.
  revert a3ms i. induction l as [|s l IH]; intros a3ms i; simpl.
  - intros [= <-]. done.
  - unfold getitem. destruct (raw !! s) as [e|] eqn:He; [|done].
    cbn [mbind result_bind].
    destruct (unpaired_msas_of raw l) as [more|] eqn:Hmore; [|done].
    intros [= <-]. destruct i as [|i]; simpl.
    + intros [= <-]. by exists s, e.
    + intros Hi. by apply (IH more i).
Qed.

Lemma blocks_no_newline blank pos a3ms :
  Forall (λ b, Py.contains Py.nl b = false) blank →
  Forall (λ r, Py.contains Py.nl r = false) (blocks blank pos a3ms).
Proof.
  intros Hblank. revert pos.
  induction a3ms as [|a a3ms IH]; intros pos; simpl; [done|].
  apply Forall_app. split; [by apply pad_lines_no_newline|apply IH].
Qed.

Lemma pair_msa_rows (sequences : list string) (raw_inputs : RawInput) :
  (∀ s, s ∈ sequences → is_Some (raw_inputs !! s)) →
  (∀ s, s ∈ sequences → rows_fit raw_inputs s) →
  ∃ rows,
    pair_msa sequences raw_inputs = Ok (Py.join NL rows)
    ∧ Forall (λ r, Py.contains Py.nl r = false) rows
    ∧ ∀ row, row ∈ rows → Py.startswith Py.gt row = false →
        String.length row = String.length (total_sequence_of sequences).
Proof.
  intros Hraw Hfit. rewrite pair_msa_spec. unfold block_diagonal.
  pose proof (grouped_Permutation sequences) as Hperm.
  set (G := grouped sequences) in *.
  destruct (unpaired_msas_of raw_inputs G) as [a3ms|e] eqn:Ha3ms.
  - cbn [mbind result_bind]. eexists. split; [done|].
    split.
    { apply blocks_no_newline, Forall_fmap, Forall_forall.
      intros s _. apply contains_gaps. }
    intros row Hrow Hgt.
    apply blocks_elem in Hrow as (i & a3m & Hi & Hrow). simpl in Hrow.
    destruct (unpaired_msas_of_lookup _ _ _ _ _ Ha3ms Hi)
      as (s & entry & HG & Hs & ->).
    apply pad_lines_elem in Hrow as (line & Hline & Hl & Hne & ->); [|done].
    rewrite length_join_empty, !sum_list_with_app.
    rewrite <- fmap_take, <- fmap_drop, !sum_length_gaps.
    assert (s ∈ sequences) as Hin.
    { rewrite <- Hperm. by eapply list_elem_of_lookup_2. }
    cbn [sum_list_with].
    rewrite (Hfit s Hin entry line Hs Hline Hl Hne).
    rewrite length_total_sequence, <- Hperm.
    rewrite <- (sum_take_drop String.length G i s HG). lia.
  - exfalso.
    assert (∀ l, (∀ s, s ∈ l → is_Some (raw_inputs !! s)) →
              is_Ok (unpaired_msas_of raw_inputs l)) as Htot.
    { induction l as [|s l IH]; intros Hl; [by eexists|]. simpl.
      unfold getitem. destruct (Hl s) as [en Hen]; [left|]. rewrite Hen.
      destruct IH as [more Hmore]; [intros; apply Hl; by right|].
      cbn [mbind result_bind]. rewrite Hmore. by eexists. }
    destruct (Htot G) as [a Ha]; [|congruence].
    intros s Hs. apply Hraw. by rewrite <- Hperm.
Qed.

(** The same for the lines of the text that is returned. *)
Lemma pair_msa_text_rows (sequences : list string) (raw_inputs : RawInput) :
  (∀ s, s ∈ sequences → is_Some (raw_inputs !! s)) →
  (∀ s, s ∈ sequences → rows_fit raw_inputs s) →
  ∃ text,
    pair_msa sequences raw_inputs = Ok text
    ∧ ∀ row, row ∈ Py.split Py.nl text → Py.startswith Py.gt row = false →
        row ≠ "" →
        String.length row = String.length (total_sequence_of sequences).
Proof.
  intros Hraw Hfit.
  destruct (pair_msa_rows sequences raw_inputs Hraw Hfit)
    as (rows & Hpair & Hnl & Hrows).
  exists (Py.join NL rows). split; [done|].
  intros row Hrow Hgt Hne.
  destruct rows as [|r rows].
  - simpl in Hrow. apply list_elem_of_singleton in Hrow. done.
  - rewrite split_join_rows in Hrow by done. by apply Hrows.
Qed.

(** X3: when every sequence of the query has an alignment whose
    non-header lines are as long as the sequence, [pair_msa] returns a
    text, and every non-empty line of that text that is not a header is
    as long as the concatenation of all chains of the query, repeated
    chains included. *)
Theorem pair_msa_row_width (sequences : list string) (raw_inputs : RawInput) :
  (∀ s, s ∈ sequences → is_Some (raw_inputs !! s)) →
  (∀ s, s ∈ sequences → rows_fit raw_inputs s) →
  ∃ text,
    pair_msa sequences raw_inputs = Ok text
    ∧ ∀ row, row ∈ Py.split Py.nl text → Py.startswith Py.gt row = false →
        row ≠ "" →
        String.length row = String.length (total_sequence_of sequences).
Proof. apply pair_msa_text_rows. Qed.


End PairerWidth.

Section PairerBounds.
Implicit Types (blank a3ms qs : list string) (cards : list nat).

Lemma blank_seq_from_short n qs cards :
  n ≤ length cards → length cards < n + length qs →
  blank_seq_from n qs cards = Raise (IndexError "list index out of range").
Proof.
  revert n. induction qs as [|q qs IH]; intros n Hn Hlen; simpl in *; [lia|].
  unfold Py.index_list.
  destruct (cards !! n) as [c|] eqn:Hc; [|done].
  cbn [mbind result_bind]. apply lookup_lt_Some in Hc.
  rewrite IH; [done|lia|lia].
Qed.

Lemma pad_chains_short blank a3ms pre_c qs cards pos acc :
  length qs = length cards → Forall (λ c, 0 < c) cards →
  length pre_c ≤ length a3ms → length a3ms < length pre_c + length qs →
  pad_chains blank a3ms (length pre_c) qs (pre_c ++ cards) pos acc
  = Raise (IndexError "list index out of range").
Proof.
  revert pre_c cards pos acc.
  induction qs as [|q qs IH];
    intros pre_c cards pos acc Hlen Hpos Hpre Hshort.
  - simpl in Hshort. lia.
  - destruct cards as [|c cards]; [done|].
    apply Forall_cons in Hpos as [Hc Hpos]. simpl in Hlen, Hshort.
    cbn [pad_chains]. unfold Py.index_list at 1.
    rewrite list_lookup_middle by done. cbn [mbind result_bind].
    destruct (a3ms !! length pre_c) as [a|] eqn:Ha.
    + rewrite pad_copies_spec with (a := a) by done.
      cbn [mbind result_bind].
      replace (S (length pre_c)) with (length (pre_c ++ [c]))
        by (rewrite length_app; simpl; lia).
      rewrite (cons_middle c pre_c cards), app_assoc.
      apply lookup_lt_Some in Ha.
      apply IH; [lia|done| |]; rewrite length_app; simpl; lia.
    + destruct c as [|c]; [lia|]. cbn [pad_copies]. unfold Py.index_list.
      by rewrite Ha.
Qed.

(** X4: [pad_sequences] indexes the cardinalities and the alignments by
    the position of the query sequence.  With fewer cardinalities than
    sequences it raises [IndexError]; with one positive cardinality per
    sequence and fewer alignments than sequences it raises [IndexError];
    with one cardinality and one alignment per sequence it returns. *)
Theorem pad_sequences_bounds (a3m_lines query_sequences : list string)
    (query_cardinality : list nat) :
  (length query_cardinality < length query_sequences →
     pad_sequences a3m_lines query_sequences query_cardinality
     = Raise (IndexError "list index out of range"))
  ∧ (length query_cardinality = length query_sequences →
     Forall (λ c, 0 < c) query_cardinality →
     length a3m_lines < length query_sequences →
     pad_sequences a3m_lines query_sequences query_cardinality
     = Raise (IndexError "list index out of range"))
  ∧ (length query_cardinality = length query_sequences →
     length a3m_lines = length query_sequences →
     is_Ok (pad_sequences a3m_lines query_sequences query_cardinality)).
Proof.
  split_and!.
  - intros Hlen. unfold pad_sequences, pad_sequences_combined.
    by rewrite blank_seq_from_short by (simpl; lia).
  - intros Hlen Hpos Hshort. unfold pad_sequences, pad_sequences_combined.
    pose proof (blank_seq_from_spec [] query_sequences query_cardinality)
      as Hb.
    cbn [length app] in Hb. rewrite Hb by done. cbn [mbind result_bind].
    pose proof (pad_chains_short
                  ((λ seq, gaps (String.length seq))
                     <$> instances_of query_sequences query_cardinality)
                  a3m_lines [] query_sequences query_cardinality 0 [])
      as Hp.
    cbn [length app] in Hp. by rewrite Hp by (done || simpl; lia).
  - intros Hc Ha. unfold pad_sequences.
    rewrite pad_sequences_combined_spec by done. by eexists.
Qed.

Lemma pad_sequences_bounds_witness :
  pad_sequences [">101" +:+ NL +:+ "AC" +:+ NL] ["AC"; "DEF"] [1]
  = Raise (IndexError "list index out of range")
  ∧ pad_sequences [">101" +:+ NL +:+ "AC" +:+ NL] ["AC"; "DEF"] [1; 1]
    = Raise (IndexError "list index out of range").
Proof.
  split.
  - apply (proj1 (pad_sequences_bounds [">101" +:+ NL +:+ "AC" +:+ NL]
                    ["AC"; "DEF"] [1])).
    repeat constructor.
  - apply (proj1 (proj2 (pad_sequences_bounds
                           [">101" +:+ NL +:+ "AC" +:+ NL] ["AC"; "DEF"]
                           [1; 1]))).
    + reflexivity.
    + repeat constructor.
    + repeat constructor.
Defined.

End PairerBounds.

(** ** More on [chain_break] *)

Section ChainBreakMore.
Implicit Types (h : heap) (arr : list Z) (Ls : list nat).

Lemma crossed_before Ls Lp i : i < Lp → crossed Ls Lp i = 0.
Proof.
  revert Lp. induction Ls as [|L Ls IH]; intros Lp Hi; [done|]. simpl.
  rewrite decide_False by lia. rewrite IH by lia. done.
Qed.

Lemma crossed_chain_of Ls Lp i :
  Lp ≤ i → i < Lp + sum_list Ls →
  crossed (removelast Ls) Lp i = chain_of Ls (i - Lp).
Proof.
  revert Lp. induction Ls as [|L Ls IH]; intros Lp H1 H2.
  - simpl in H2. lia.
  - destruct Ls as [|L2 Ls].
    + simpl in *. rewrite decide_True by lia. done.
    + change (removelast (L :: L2 :: Ls)) with (L :: removelast (L2 :: Ls)).
      cbn [crossed chain_of].
      destruct (decide (i - Lp < L)) as [Hlt|Hge].
      * rewrite decide_False by lia. rewrite crossed_before by lia. done.
      * rewrite decide_True by lia. rewrite IH.
        -- replace (i - (Lp + L)) with (i - Lp - L) by lia. done.
        -- lia.
        -- simpl in *. lia.
Qed.

Lemma chain_of_mono Ls i j : i ≤ j → chain_of Ls i ≤ chain_of Ls j.
Proof.
  revert i j. induction Ls as [|L Ls IH]; intros i j Hij; [done|]. simpl.
  repeat case_decide; try lia.
  apply le_n_S, IH. lia.
Qed.

Lemma chain_of_bound Ls i : chain_of Ls i ≤ length Ls.
Proof.
  revert i. induction Ls as [|L Ls IH]; intros i; [done|]. simpl.
  case_decide; [lia|]. apply le_n_S, IH.
Qed.

Lemma asym_ids_lookup n Ls i :
  i < sum_list Ls →
  asym_ids n Ls !! i = Some (Z.of_nat (n + chain_of Ls i)).
Proof.
  revert n i. induction Ls as [|L Ls IH]; intros n i Hi.
  - simpl in Hi. lia.
  - cbn [asym_ids chain_of]. case_decide as Hlt.
    + rewrite lookup_app_l by (rewrite length_replicate; lia).
      rewrite lookup_replicate_2 by lia. do 2 f_equal. lia.
    + rewrite lookup_app_r by (rewrite length_replicate; lia).
      rewrite length_replicate, IH by (simpl in Hi; lia).
      do 2 f_equal. lia.
Qed.

Lemma length_asym_ids n Ls : length (asym_ids n Ls) = sum_list Ls.
Proof.
  revert n. induction Ls as [|L Ls IH]; intros n; [done|]. simpl.
  by rewrite length_app, length_replicate, IH.
Qed.

Lemma sum_Ls_of (sequences : list string) :
  sum_list (Ls_of sequences) = sum_list_with String.length sequences.
Proof.
  induction sequences as [|s l IH]; [done|].
  unfold Ls_of in *. rewrite fmap_cons. simpl. by rewrite IH.
Qed.

Lemma chain_of_lt Ls i : i < sum_list Ls → chain_of Ls i < length Ls.
Proof.
  revert i. induction Ls as [|L l IH]; intros i Hi; simpl in *; [lia|].
  case_decide; [lia|]. apply -> Nat.succ_lt_mono. apply IH. lia.
Qed.

Lemma chain_break_closed_form h (idx_res : loc) Ls (length : Z) :
  (0 ≤ length)%Z →
  (Z.of_nat (sum_list Ls) + length * Z.of_nat (List.length Ls) < 2 ^ 31)%Z →
  h !! idx_res = Some (arange (sum_list Ls)) →
  ∃ h' out,
    chain_break h idx_res Ls length = (h', idx_res)
    ∧ h' !! idx_res = Some out
    ∧ List.length out = sum_list Ls
    ∧ (∀ i, i < sum_list Ls →
         out !! i
         = Some (Z.of_nat i + length * Z.of_nat (chain_of Ls i))%Z)
    ∧ (∀ i j x y, i < j → out !! i = Some x → out !! j = Some y →
         (x + Z.of_nat (j - i)
            + length * Z.of_nat (chain_of Ls j - chain_of Ls i) = y)%Z
         ∧ (x < y)%Z).
Proof.
  intros Hlen Hbound Hh.
  assert (Forall int32 (arange (sum_list Ls))) as Hint.
  { apply arange_int32. nia. }
  destruct (chain_break_store h idx_res _ Ls length Hh Hint)
    as (h' & out & Hcb & Hout & _ & Hl & Hval).
  rewrite length_arange in Hl.
  assert (∀ i, i < sum_list Ls →
            out !! i
            = Some (Z.of_nat i + length * Z.of_nat (chain_of Ls i))%Z)
    as Hclosed.
  { intros i Hi. rewrite (Hval i (Z.of_nat i)) by by apply arange_lookup.
    rewrite crossed_chain_of by lia. rewrite Nat.sub_0_r.
    f_equal. apply wrap32_id. unfold int32.
    pose proof (chain_of_bound Ls i). nia. }
  exists h', out. split_and!; try done.
  intros i j x y Hij Hx Hy.
  pose proof (lookup_lt_Some _ _ _ Hx). pose proof (lookup_lt_Some _ _ _ Hy).
  rewrite Hclosed in Hx, Hy by lia. simplify_eq.
  pose proof (chain_of_mono Ls i j). split; nia.
Qed.

(** X5: [chain_break] for any number of chains, of any lengths (empty
    chains included), and any non-negative offset, as long as the largest
    value fits int32: called on the array [0 .. N-1] it returns the same
    location, and entry [i] becomes [i + length * c], where [c] is the
    index of the chain of residue [i].  Hence two residues [i < j] differ by
    [j - i] plus [length] for every chain boundary between them, and the
    array is strictly increasing. *)
Theorem chain_break_any_number_of_chains h (idx_res : loc) Ls (length : Z) :
  (0 ≤ length)%Z →
  (Z.of_nat (sum_list Ls) + length * Z.of_nat (List.length Ls) < 2 ^ 31)%Z →
  h !! idx_res = Some (arange (sum_list Ls)) →
  ∃ h' out,
    chain_break h idx_res Ls length = (h', idx_res)
    ∧ h' !! idx_res = Some out
    ∧ List.length out = sum_list Ls
    ∧ (∀ i, i < sum_list Ls →
         out !! i
         = Some (Z.of_nat i + length * Z.of_nat (chain_of Ls i))%Z)
    ∧ (∀ i j x y, i < j → out !! i = Some x → out !! j = Some y →
         (x + Z.of_nat (j - i)
            + length * Z.of_nat (chain_of Ls j - chain_of Ls i) = y)%Z
         ∧ (x < y)%Z).
Proof. apply chain_break_closed_form. Qed.

Lemma chain_break_any_number_of_chains_witness :
  ∃ h' out,
    chain_break {[ 3 := arange (sum_list [1; 0; 2; 1]) ]} 3 [1; 0; 2; 1] 200
      = (h', 3)
    ∧ h' !! 3 = Some out
    ∧ out !! 3 = Some 603%Z.
Proof.
  destruct (chain_break_any_number_of_chains
              {[ 3 := arange (sum_list [1; 0; 2; 1]) ]} 3 [1; 0; 2; 1] 200)
    as (h' & out & Hcb & Hout & _ & Hclosed & _).
  - discriminate.
  - reflexivity.
  - reflexivity.
  - exists h', out. split; [exact Hcb|]. split; [exact Hout|].
    apply (Hclosed 3). repeat constructor.
Defined.

(** The array [0 .. N-1] of the concatenated chains after
    [chain_break], next to the chain indices of line 422. *)
Lemma chain_break_feature_closed_form (sequences : list string) :
  let Ls := Ls_of sequences in
  let N := String.length (total_sequence_of sequences) in
  (Z.of_nat N + 200 * Z.of_nat (length sequences) < 2 ^ 31)%Z →
  ∃ residue_index,
    chain_break_feature (Ints (arange N)) Ls = Ok (Ints residue_index)
    ∧ length residue_index = N
    ∧ length (asym_ids 0 Ls) = N
    ∧ ∀ i, i < N →
        ∃ a, asym_ids 0 Ls !! i = Some a
             ∧ (0 ≤ a < Z.of_nat (length sequences))%Z
             ∧ residue_index !! i = Some (Z.of_nat i + 200 * a)%Z.
Proof.
  intros Ls N Hbound.
  assert (N = sum_list Ls) as HN.
  { unfold N, Ls. by rewrite length_total_sequence, sum_Ls_of. }
  assert (length Ls = length sequences) as HLs
    by (unfold Ls, Ls_of; by rewrite length_fmap).
  destruct (chain_break_closed_form
              {[ 0 := arange (sum_list Ls) ]} 0 Ls 200)
    as (h' & out & Hcb & Hout & Hlen & Hclosed & _).
  { lia. } { rewrite HLs, <- HN. lia. } { apply lookup_singleton_eq. }
  exists out. split_and!.
  - unfold chain_break_feature, chain_break_default_length.
    rewrite HN, Hcb, Hout. done.
  - lia.
  - rewrite length_asym_ids. lia.
  - intros i Hi. exists (Z.of_nat (chain_of Ls i)). split_and!.
    + rewrite asym_ids_lookup by lia. done.
    + lia.
    + pose proof (chain_of_lt Ls i). lia.
    + by apply Hclosed; lia.
Qed.

End ChainBreakMore.

Lemma pair_msa_row_width_witness :
  ∃ text,
    pair_msa ["AC"; "DEF"; "AC"] raw_AC_DEF = Ok text
    ∧ ∀ row, row ∈ Py.split Py.nl text → Py.startswith Py.gt row = false →
        row ≠ "" → String.length row = 7.
Proof.
  apply (pair_msa_row_width ["AC"; "DEF"; "AC"] raw_AC_DEF).
  - intros s Hs.
    repeat (apply elem_of_cons in Hs as [->|Hs]);
      [by eexists..|by apply elem_of_nil in Hs].
  - intros s Hs entry line Hentry Hline Hgt Hne.
    repeat (apply elem_of_cons in Hs as [->|Hs]);
      [| | |by apply elem_of_nil in Hs];
      vm_compute in Hentry; injection Hentry as <-;
      vm_compute in Hline;
      repeat (apply elem_of_cons in Hline as [->|Hline]);
      try discriminate Hgt; try done; by apply elem_of_nil in Hline.
Defined.

(** ** More on the raw input cache *)

Section RawInputsMore.
Implicit Types (raw : RawInput) (w : world).

Lemma unique_of_queries_empty (queries : list CleanQuery) acc :
  (∀ q, q ∈ queries → q.2 = []) → unique_of_queries acc queries = acc.
Proof.
  revert acc. induction queries as [|q queries IH]; intros acc H; [done|].
  cbn [unique_of_queries]. rewrite (H q) by left. cbn [append_unique].
  apply IH. intros q' Hq'. apply H. by right.
Qed.

(** X13: when no query carries a sequence, [getRawInputs] returns the
    empty mapping in every mode and leaves the world unchanged: the
    service is not asked about nothing. *)
Theorem getRawInputs_without_sequences (queries : list CleanQuery)
    (msa_mode output_dir : string) (use_filter use_templates : bool) w :
  (∀ q, q ∈ queries → q.2 = []) →
  getRawInputs queries msa_mode use_filter use_templates output_dir w
  = (Ok ∅, w).
Proof.
  intros H. unfold getRawInputs. rewrite unique_of_queries_empty by done.
  rewrite (bool_decide_true ([] = [])) by done.
  rewrite andb_false_r. done.
Qed.

Lemma getRawInputs_without_sequences_witness :
  getRawInputs [("first", []); ("second", [])] "MMseqs2-U+E" true true "out"
    answering_service
  = (Ok ∅, answering_service).
Proof.
  apply (getRawInputs_without_sequences [("first", []); ("second", [])]).
  intros q Hq.
  repeat (apply elem_of_cons in Hq as [->|Hq]); [done..|].
  by apply elem_of_nil in Hq.
Defined.

Lemma store_raw_inputs_keyed raw (keys a3ms : list string)
    (tps : list (option string)) :
  Forall2 (λ s a, Py.splitlines a !! 1 = Some s) keys a3ms →
  store_raw_inputs raw (zip a3ms tps)
  = Ok (foldl (λ m p, <[p.1 := p.2]> m) raw (zip keys (zip a3ms tps))).
Proof.
  intros H. revert raw tps.
  induction H as [|s a keys a3ms Hs _ IH]; intros raw tps; [done|].
  destruct tps as [|t tps]; [done|].
  cbn [zip zip_with store_raw_inputs foldl].
  unfold Py.index_list. rewrite Hs. cbn [mbind result_bind]. apply IH.
Qed.

Lemma foldl_insert_pairs_lookup {V} (m : gmap string V)
    (l : list (string * V)) i k v :
  NoDup l.*1 → l !! i = Some (k, v) →
  foldl (λ m p, <[p.1 := p.2]> m) m l !! k = Some v.
Proof.
  revert m i. induction l as [|[k' v'] l IH]; intros m i Hnd Hi; [done|].
  rewrite fmap_cons in Hnd. apply NoDup_cons in Hnd as [Hfresh Hnd].
  cbn [foldl]. destruct i as [|i].
  - injection Hi as -> ->. clear IH Hnd. cbn [fst snd] in *.
    revert m. induction l as [|[k2 v2] l IHl]; intros m.
    + cbn [foldl]. apply lookup_insert_eq.
    + cbn [foldl fst snd].
      rewrite fmap_cons, not_elem_of_cons in Hfresh.
      destruct Hfresh as [Hne Hfresh]. cbn [fst] in Hne.
      rewrite insert_insert_ne by done. by apply IHl.
  - by eapply IH.
Qed.

Lemma foldl_insert_pairs_size {V} (m : gmap string V) (l : list (string * V)) :
  NoDup l.*1 → (∀ k, k ∈ l.*1 → m !! k = None) →
  size (foldl (λ m p, <[p.1 := p.2]> m) m l) = size m + length l.
Proof.
  revert m. induction l as [|[k v] l IH]; intros m Hnd Hm; simpl; [lia|].
  rewrite fmap_cons in Hnd. apply NoDup_cons in Hnd as [Hk Hnd].
  rewrite IH; [|done|].
  - rewrite map_size_insert_None by (apply Hm; rewrite fmap_cons; left).
    lia.
  - intros k' Hk'. rewrite lookup_insert_ne by (intros <-; done).
    apply Hm. rewrite fmap_cons. by right.
Qed.

(** X14: in the modes that ask the service, the mapping is keyed by
    the second line of every alignment.  When the call of [runMMseqs2] on
    the distinct sequences returns and the second line of alignment [i] is
    distinct sequence [i], [getRawInputs] returns in the world that call
    left, with exactly one entry per distinct sequence, which maps sequence
    [i] to alignment [i] and template path [i]. *)
Theorem getRawInputs_keeps_service_answers (queries : list CleanQuery)
    (msa_mode output_dir : string) (use_filter use_templates : bool) w
    (a3m_lines : list string) (template_paths : list (option string)) w' :
  let unique_sequences := unique_of_queries [] queries in
  msa_mode ≠ "single_sequence" →
  unique_sequences ≠ [] →
  runMMseqs2 (PyNum.path_join output_dir "mmseqs2")
    (Sequences unique_sequences) (bool_decide (msa_mode = "MMseqs2-U+E"))
    use_filter use_templates 20 w
  = (Ok (a3m_lines, template_paths), w') →
  (∀ i s a, unique_sequences !! i = Some s → a3m_lines !! i = Some a →
     Py.splitlines a !! 1 = Some s) →
  ∃ raw_inputs : RawInput,
    getRawInputs queries msa_mode use_filter use_templates output_dir w
    = (Ok raw_inputs, w')
    ∧ size raw_inputs = length unique_sequences
    ∧ ∀ i s, unique_sequences !! i = Some s →
        ∃ a t, a3m_lines !! i = Some a ∧ template_paths !! i = Some t
               ∧ raw_inputs !! s = Some (a, t).
Proof.
  intros unique Hmode Hne Hrun Hkey.
  assert (NoDup unique) as Hnd by (apply unique_of_queries_NoDup, NoDup_nil_2).
  assert (length a3m_lines = length unique
          ∧ length template_paths = length unique) as [Hla Hlt].
  { destruct (runMMseqs2_inv (PyNum.path_join output_dir "mmseqs2") unique
                (bool_decide (msa_mode = "MMseqs2-U+E")) use_filter
                use_templates 20 w a3m_lines template_paths)
      as (blob_of & path_of & -> & -> & _); [by rewrite Hrun|].
    by rewrite !length_fmap. }
  assert (Forall2 (λ s a, Py.splitlines a !! 1 = Some s) unique a3m_lines)
    as Hall.
  { apply Forall2_same_length_lookup. split; [done|].
    intros i s a. apply Hkey. }
  set (pairs := zip unique (zip a3m_lines template_paths)).
  assert (pairs.*1 = unique) as Hkeys.
  { unfold pairs. apply fst_zip. rewrite length_zip_with. lia. }
  exists (foldl (λ m p, <[p.1 := p.2]> m) ∅ pairs). split_and!.
  - unfold getRawInputs. fold unique.
    rewrite (bool_decide_false (msa_mode = "single_sequence")) by done.
    rewrite (bool_decide_false (unique = [])) by done.
    cbn [negb andb]. unfold mbind at 1, IO_bind. rewrite Hrun.
    unfold lift. by rewrite (store_raw_inputs_keyed _ unique).
  - rewrite foldl_insert_pairs_size.
    + rewrite map_size_empty. unfold pairs.
      rewrite !length_zip_with. lia.
    + by rewrite Hkeys.
    + intros k _. apply lookup_empty.
  - intros i s Hs.
    destruct (lookup_lt_is_Some_2 a3m_lines i) as [a Ha].
    { rewrite Hla. by eapply lookup_lt_Some. }
    destruct (lookup_lt_is_Some_2 template_paths i) as [t Ht].
    { rewrite Hlt. by eapply lookup_lt_Some. }
    exists a, t. split; [done|]. split; [done|].
    apply (foldl_insert_pairs_lookup _ _ i); [by rewrite Hkeys|].
    unfold pairs. rewrite !lookup_zip_with, Hs. cbn [mbind option_bind].
    rewrite Ha. cbn [mbind option_bind]. by rewrite Ht.
Qed.

Lemma getRawInputs_keeps_service_answers_witness :
  ∃ raw_inputs : RawInput,
    (getRawInputs [("complex", ["ACDE"; "GHIK"; "ACDE"])] "MMseqs2-U" true
       false "out" answering_service).1
    = Ok raw_inputs
    ∧ raw_inputs !! "GHIK" = Some (">102" +:+ NL +:+ "GHIK" +:+ NL, None).
Proof.
  destruct (getRawInputs_keeps_service_answers
              [("complex", ["ACDE"; "GHIK"; "ACDE"])] "MMseqs2-U" "out" true
              false answering_service
              [">101" +:+ NL +:+ "ACDE" +:+ NL +:+ ">hit" +:+ NL +:+ "AC-E"
               +:+ NL;
               ">102" +:+ NL +:+ "GHIK" +:+ NL]
              [None; None]
              (runMMseqs2 "out/mmseqs2" (Sequences ["ACDE"; "GHIK"]) false
                 true false 20 answering_service).2)
    as (raw_inputs & Hget & _ & Hlookup).
  - discriminate.
  - discriminate.
  - vm_compute. reflexivity.
  - intros [|[|i]] s a Hs Ha; try discriminate Hs;
      injection Hs as <-; injection Ha as <-; reflexivity.
  - exists raw_inputs. split; [by rewrite Hget|].
    destruct (Hlookup 1 "GHIK" eq_refl) as (a & t & Ha & Ht & Hraw).
    injection Ha as <-. injection Ht as <-. exact Hraw.
Defined.

Lemma no_linebreak_newline s :
  no_linebreak s = true → Py.contains Py.nl s = false.
Proof.
  induction s as [|c s IH]; [done|]. simpl.
  intros [Hc Hs]%andb_true_iff. rewrite IH by done.
  rewrite orb_false_r. apply bool_decide_eq_false. intros ->. done.
Qed.

Lemma split_single_row s :
  Py.contains Py.nl s = false → Py.split Py.nl (single_row s) = [">1"; s; ""].
Proof.
  intros Hs. unfold single_row.
  change (">1" +:+ NL +:+ s +:+ NL)
    with (">1" +:+ String Py.nl (s +:+ String Py.nl "")).
  rewrite split_app_sep by done. by rewrite split_app_sep.
Qed.

Lemma getRawInputs_single_eq (queries : list CleanQuery)
    (use_filter use_templates : bool) (output_dir : string) w :
  Forall (λ q : CleanQuery, Forall (λ s, no_linebreak s = true) q.2) queries →
  getRawInputs queries "single_sequence" use_filter use_templates output_dir w
  = (Ok (foldl (λ m s, <[s := (single_row s, None)]> m) ∅
           (unique_of_queries [] queries)), w).
Proof.
  intros Hq.
  set (unique := unique_of_queries [] queries).
  assert (Forall (λ s, no_linebreak s = true) unique) as Hu.
  { apply Forall_forall. intros s Hs.
    apply unique_of_queries_elem in Hs as [Hs|(q & Hq1 & Hq2)]; [set_solver|].
    rewrite Forall_forall in Hq. specialize (Hq q Hq1).
    rewrite Forall_forall in Hq. by apply Hq. }
  unfold getRawInputs. fold unique.
  rewrite bool_decide_true by done.
  cbn [negb andb].
  change (mret ?x ≫= ?f) with (fun w' => f x w').
  cbv beta. unfold lift.
  change (λ sequence : string, ">1" +:+ NL +:+ sequence +:+ NL)
    with single_row.
  by rewrite store_raw_inputs_single.
Qed.

(** X15: the raw inputs of mode [single_sequence] can always be
    paired.  For every query of the list, [pair_msa] on the chains of the
    query and the mapping [getRawInputs] returned for the list returns a
    text, and every non-empty line of that text that is not a header is
    as long as the concatenation of the chains. *)
Theorem single_sequence_inputs_pair (queries : list CleanQuery)
    (use_filter use_templates : bool) (output_dir filename : string)
    (sequences : list string) w :
  Forall (λ q : CleanQuery, Forall (λ s, no_linebreak s = true) q.2) queries →
  (filename, sequences) ∈ queries →
  ∃ (raw_inputs : RawInput) text,
    getRawInputs queries "single_sequence" use_filter use_templates
      output_dir w = (Ok raw_inputs, w)
    ∧ pair_msa sequences raw_inputs = Ok text
    ∧ ∀ row, row ∈ Py.split Py.nl text → Py.startswith Py.gt row = false →
        row ≠ "" →
        String.length row = String.length (total_sequence_of sequences).
Proof.
  intros Hq Hin.
  set (raw_inputs :=
         foldl (λ (m : RawInput) s, <[s := (single_row s, None)]> m) ∅
           (unique_of_queries [] queries)).
  assert (∀ s, s ∈ sequences →
            raw_inputs !! s = Some (single_row s, None)) as Hraw.
  { intros s Hs. unfold raw_inputs. rewrite foldl_insert_lookup.
    rewrite decide_True; [done|].
    apply unique_of_queries_elem. right. by exists (filename, sequences). }
  destruct (pair_msa_text_rows sequences raw_inputs)
    as (text & Hpair & Hrows).
  - intros s Hs. rewrite Hraw by done. by eexists.
  - intros s Hs entry line Hentry Hline Hgt Hne.
    rewrite Hraw in Hentry by done. injection Hentry as <-.
    cbn [fst] in Hline. rewrite split_single_row in Hline.
    + repeat (apply elem_of_cons in Hline as [->|Hline]); try done.
      by apply elem_of_nil in Hline.
    + apply no_linebreak_newline.
      rewrite Forall_forall in Hq. specialize (Hq _ Hin).
      rewrite Forall_forall in Hq. by apply Hq.
  - exists raw_inputs, text. split; [by apply getRawInputs_single_eq|done].
Qed.

Lemma single_sequence_inputs_pair_witness :
  ∃ (raw_inputs : RawInput) text,
    getRawInputs [("complex", ["AC"; "DEF"; "AC"])] "single_sequence" true
      false "out" idle_world = (Ok raw_inputs, idle_world)
    ∧ pair_msa ["AC"; "DEF"; "AC"] raw_inputs = Ok text
    ∧ ∀ row, row ∈ Py.split Py.nl text → Py.startswith Py.gt row = false →
        row ≠ "" → String.length row = 7.
Proof.
  apply (single_sequence_inputs_pair [("complex", ["AC"; "DEF"; "AC"])] true
           false "out" "complex" ["AC"; "DEF"; "AC"] idle_world).
  - apply Forall_cons. split; [|apply Forall_nil_2].
    repeat (apply Forall_cons; split; [reflexivity|]). apply Forall_nil_2.
  - left.
Defined.

End RawInputsMore.

(** ** More on the MMseqs2 client *)

Section ClientMore.
Implicit Types (w : world) (ph : phase) (out : reply).

Lemma on_reply_resubmitted out :
  resubmitted out → on_reply Submitting out = SleepResubmit.
Proof. unfold on_reply. by intros [-> | ->]. Qed.

(** X7: the submission is retried without bound.  Every answer to a
    submission that is not JSON or has the status [UNKNOWN] or
    [RATELIMIT] is followed by a sleep and one more submission of the same
    query, after which the loop goes on as if these answers had not been
    given: [n] such answers cost [n] submissions and [n] sleeps. *)
Theorem api_loop_retries_submission (submit : event) (pre rest : list reply) :
  Forall resubmitted pre →
  api_loop submit Submitting (pre ++ rest)
  = let '(r, evs, unread) := api_loop submit Submitting rest in
    (r, concat ((λ _, [submit; EvSleep]) <$> pre) ++ evs, unread).
Proof.
  induction 1 as [|out pre Hout Hpre IH]; simpl.
  - by destruct (api_loop submit Submitting rest) as [[??]?].
  - rewrite on_reply_resubmitted by done. rewrite IH.
    by destruct (api_loop submit Submitting rest) as [[??]?].
Qed.

Lemma api_loop_retries_submission_witness :
  api_loop (EvSubmit "q" "all") Submitting
    ([NotJson; Json (Some "RATELIMIT") None]
     ++ [Json (Some "COMPLETE") (Some "T1")])
  = (Ok "T1",
     [EvSubmit "q" "all"; EvSleep; EvSubmit "q" "all"; EvSleep;
      EvSubmit "q" "all"], []).
Proof.
  apply (api_loop_retries_submission (EvSubmit "q" "all")
           [NotJson; Json (Some "RATELIMIT") None]
           [Json (Some "COMPLETE") (Some "T1")]).
  apply Forall_cons. split; [left; reflexivity|].
  apply Forall_cons. split; [right; reflexivity|].
  apply Forall_nil_2.
Defined.

Lemma after_ticket_still_running ID out st :
  status_of out = Ok st → still_running out → after_ticket ID st = SleepPoll ID.
Proof.
  intros Hst [H|[H|H]]; rewrite Hst in H; injection H as ->; done.
Qed.

Lemma api_loop_polls submit ID polls rest :
  Forall still_running polls →
  api_loop submit (Polling ID) (polls ++ rest)
  = let '(r, evs, unread) := api_loop submit (Polling ID) rest in
    (r, concat ((λ _, [EvStatus ID; EvSleep]) <$> polls) ++ evs, unread).
Proof.
  induction 1 as [|out polls Hout Hpolls IH]; simpl.
  - by destruct (api_loop submit (Polling ID) rest) as [[??]?].
  - unfold on_reply.
    assert (∃ st, status_of out = Ok st) as [st Hst]
      by (destruct Hout as [H|[H|H]]; eauto).
    rewrite Hst, (after_ticket_still_running ID out st) by done.
    rewrite IH.
    by destruct (api_loop submit (Polling ID) rest) as [[??]?].
Qed.

(** X8: the ticket of the submission is the one that is polled and
    downloaded.  When the submission is answered [RUNNING] or [PENDING]
    with the ticket [ID], and the status requests are answered [RUNNING],
    [PENDING], [UNKNOWN] or not in JSON until one says [COMPLETE], then
    [call_api] sends one submission, sleeps before every status request,
    sends every status request for [ID] whatever ticket the answers carry,
    downloads the result of [ID] into the archive path and returns. *)
Theorem call_api_polls_submitted_ticket (unique_seqs : list string)
    (mode tar_gz_file ID : string) (st0 : string) (id0 idc : option string)
    (polls rest : list reply) (w : world) :
  let submit := EvSubmit (submit_query 101 unique_seqs) mode in
  files w !! tar_gz_file = None →
  st0 = "RUNNING" ∨ st0 = "PENDING" →
  Forall still_running polls →
  replies w
  = Json (Some st0) (Some ID) :: polls
    ++ Json (Some "COMPLETE") idc :: rest →
  call_api unique_seqs mode 101 tar_gz_file w
  = (Ok (),
     World (<[tar_gz_file := archive w]> (files w)) (dirs w) rest (archive w)
       (trace w
        ++ ([submit; EvSleep]
            ++ concat ((λ _, [EvStatus ID; EvSleep]) <$> polls)
            ++ [EvStatus ID])
        ++ [EvDownload ID])).
Proof.
  intros submit Htar Hst0 Hpolls Hrep.
  unfold call_api. unfold mbind at 1, IO_bind. unfold isfile at 1.
  rewrite bool_decide_false by (rewrite Htar; by intros [??]).
  rewrite Hrep. fold submit.
  assert (on_reply Submitting (Json (Some st0) (Some ID)) = SleepPoll ID)
    as Hfirst by (by destruct Hst0 as [-> | ->]).
  cbn [api_loop]. rewrite Hfirst.
  rewrite api_loop_polls by done.
  cbn [api_loop]. unfold on_reply at 1. cbn [status_of].
  change (after_ticket ID "COMPLETE") with (Complete ID).
  cbv beta iota. done.
Qed.

Lemma call_api_polls_submitted_ticket_witness :
  call_api ["ACDE"] "all" 101 "out/out.tar.gz"
    (World ∅ ∅
       [Json (Some "PENDING") (Some "T1"); NotJson;
        Json (Some "RUNNING") (Some "other");
        Json (Some "COMPLETE") None]
       (TarFile []) [])
  = (Ok (),
     World (<["out/out.tar.gz" := TarFile []]> ∅) ∅ [] (TarFile [])
       ([]
        ++ ([EvSubmit (submit_query 101 ["ACDE"]) "all"; EvSleep]
            ++ concat ((λ _, [EvStatus "T1"; EvSleep])
                         <$> [NotJson; Json (Some "RUNNING") (Some "other")])
            ++ [EvStatus "T1"])
        ++ [EvDownload "T1"])).
Proof.
  apply (call_api_polls_submitted_ticket ["ACDE"] "all" "out/out.tar.gz"
           "T1" "PENDING" (Some "T1") None
           [NotJson; Json (Some "RUNNING") (Some "other")] []
           (World ∅ ∅
              [Json (Some "PENDING") (Some "T1"); NotJson;
               Json (Some "RUNNING") (Some "other");
               Json (Some "COMPLETE") None]
              (TarFile []) [])).
  - reflexivity.
  - right. reflexivity.
  - apply Forall_cons. split; [left; reflexivity|].
    apply Forall_cons. split; [right; left; reflexivity|].
    apply Forall_nil_2.
  - reflexivity.
Defined.

(** X9: a status that is none of the six the loop knows leaves the
    loop with [REDO] still true: the job is submitted again at once,
    without a sleep, whether the answer came to a submission (which has to
    carry a ticket) or to a status request. *)
Theorem api_loop_unknown_status_resubmits (submit : event) (ph : phase)
    (st : string) (id : option string) (rest : list reply) :
  st ∉ ["UNKNOWN"; "RATELIMIT"; "RUNNING"; "PENDING"; "COMPLETE"; "ERROR"] →
  (ph = Submitting → is_Some id) →
  api_loop submit ph (Json (Some st) id :: rest)
  = let '(r, evs, unread) := api_loop submit Submitting rest in
    (r, request_of submit ph :: evs, unread).
Proof.
  intros Hst Hid.
  assert (∀ ID, after_ticket ID st = Resubmit) as Hafter.
  { intros ID. unfold after_ticket.
    rewrite bool_decide_false by set_solver.
    rewrite bool_decide_false by set_solver.
    rewrite bool_decide_false by set_solver. done. }
  cbn [api_loop]. unfold on_reply. cbn [status_of].
  destruct ph as [|ID].
  - destruct (Hid eq_refl) as [ID ->].
    rewrite bool_decide_false by set_solver. cbn [id_of].
    by rewrite Hafter.
  - by rewrite Hafter.
Qed.

Lemma api_loop_unknown_status_resubmits_witness :
  api_loop (EvSubmit "q" "all") (Polling "T1")
    (Json (Some "MAINTENANCE") None :: [Json (Some "COMPLETE") (Some "T2")])
  = (Ok "T2", [EvStatus "T1"; EvSubmit "q" "all"], []).
Proof.
  apply (api_loop_unknown_status_resubmits (EvSubmit "q" "all")
           (Polling "T1") "MAINTENANCE" None
           [Json (Some "COMPLETE") (Some "T2")]).
  - intros Hin. repeat (apply elem_of_cons in Hin as [Hin|Hin];
                        [discriminate Hin|]).
    by apply elem_of_nil in Hin.
  - intros Hph. discriminate Hph.
Defined.

End ClientMore.

Section Demultiplex.
Implicit Types (d : gmap Z (list string)) (e : entry) (st : gather_state).

Lemma remove_char_free c s :
  Py.contains c s = false → Py.remove_char c s = s.
Proof.
  induction s as [|c' s IH]; simpl; [done|].
  intros [Hc Hs]%orb_false_iff. rewrite Hc. by rewrite IH.
Qed.

Lemma join_empty_cons p (parts : list string) :
  Py.join "" (p :: parts) = p +:+ Py.join "" parts.
Proof.
  destruct parts as [|q parts]; simpl.
  - clear. induction p as [|c p IH]; [done|].
    rewrite app_cons. by rewrite <- IH.
  - done.
Qed.

Lemma join_empty_app (a b : list string) :
  Py.join "" (a ++ b) = Py.join "" a +:+ Py.join "" b.
Proof.
  induction a as [|p a IH]; [done|].
  change ((p :: a) ++ b) with (p :: (a ++ b)).
  rewrite !join_empty_cons, IH.
  clear. induction p as [|c p IHp]; [done|].
  rewrite !app_cons. by rewrite IHp.
Qed.

(** The lines after a header go to the entry of the current tag. *)
Lemma gather_lines_body d m l (lines more : list string) :
  Forall (λ line, 0 < String.length line ∧ Py.contains Py.nul line = false)
    lines →
  d !! m = Some l →
  gather_lines (GatherState false (Some m) d) (lines ++ more)
  = gather_lines (GatherState false (Some m) (<[m := l ++ lines]> d)) more.
Proof.
  intros Hlines. revert d l.
  induction Hlines as [|line lines [Hlen Hnul] Hlines IH]; intros d l Hd.
  - rewrite app_nil_r. by rewrite insert_id.
  - change ((line :: lines) ++ more) with (line :: (lines ++ more)).
    cbn [gather_lines]. unfold gather_line.
    apply Nat.ltb_lt in Hlen. rewrite Hlen. rewrite Hnul.
    cbn [update_M cur_M a3m_lines_of]. rewrite andb_false_r.
    cbn [mbind result_bind]. rewrite Hd. cbn [mbind result_bind].
    rewrite (IH _ (l ++ [line])) by apply lookup_insert_eq.
    rewrite insert_insert_eq. by rewrite <- app_assoc.
Qed.

Lemma gather_lines_entry st e hline more :
  entry_ok e →
  (hline = entry_header e ∧ update_M st = true)
  ∨ hline = String Py.nul (entry_header e) →
  gather_lines st (hline :: entry_lines e ++ more)
  = gather_lines
      (GatherState false (Some (entry_tag e))
         (store_entry (a3m_lines_of st) e)) more.
Proof.
  intros (Hgt & Hnul & Hint & Hlines) Hh.
  cbn [gather_lines]. unfold gather_line.
  assert ((0 <? String.length hline) = true) as ->.
  { apply Nat.ltb_lt. destruct Hh as [[-> _] | ->]; [|simpl; lia].
    destruct (entry_header e); [done|simpl; lia]. }
  assert ((if Py.contains Py.nul hline
           then (Py.remove_char Py.nul hline, true)
           else (hline, update_M st)) = (entry_header e, true)) as ->.
  { destruct Hh as [[-> ->] | ->].
    - by rewrite Hnul.
    - simpl. by rewrite remove_char_free. }
  rewrite Hgt. cbn [andb]. rewrite Hint. cbn [mbind result_bind].
  unfold store_entry.
  destruct (a3m_lines_of st !! entry_tag e) as [l|] eqn:Hl.
  - rewrite Hl. cbn [default mbind result_bind].
    rewrite (gather_lines_body _ _ (l ++ [entry_header e])) by
      (try done; apply lookup_insert_eq).
    rewrite insert_insert_eq. by rewrite <- app_assoc.
  - rewrite lookup_insert_eq. cbn [default mbind result_bind].
    rewrite (gather_lines_body _ _ ([] ++ [entry_header e])) by
      (try done; apply lookup_insert_eq).
    rewrite !insert_insert_eq. done.
Qed.

Lemma gather_lines_db st0 (entries : list entry) more :
  Forall entry_ok entries →
  entries ≠ [] →
  ∃ m, gather_lines st0 (db_lines entries ++ more)
       = gather_lines
           (GatherState false (Some m)
              (foldl store_entry (a3m_lines_of st0) entries)) more
       ∧ last (entry_tag <$> entries) = Some m.
Proof.
  intros Hok. revert st0.
  induction Hok as [|e entries He Hok IH]; intros st0 Hne; [done|].
  unfold db_lines. cbn [flat_map]. fold (db_lines entries).
  rewrite <- app_assoc.
  change ((String Py.nul (entry_header e) :: entry_lines e)
          ++ db_lines entries ++ more)
    with (String Py.nul (entry_header e)
          :: entry_lines e ++ db_lines entries ++ more).
  rewrite (gather_lines_entry _ e) by auto.
  destruct entries as [|e' entries].
  - exists (entry_tag e). done.
  - destruct (IH (GatherState false (Some (entry_tag e))
                    (store_entry (a3m_lines_of st0) e))) as (m & -> & Hm);
      [done|].
    exists m. split; [done|].
    by rewrite fmap_cons, last_cons, Hm.
Qed.

Lemma store_entries_other d (entries : list entry) k :
  k ∉ entry_tag <$> entries →
  foldl store_entry d entries !! k = d !! k.
Proof.
  revert d. induction entries as [|e entries IH]; intros d Hk; [done|].
  rewrite fmap_cons, not_elem_of_cons in Hk. destruct Hk as [Hne Hk].
  cbn [foldl]. rewrite IH by done.
  unfold store_entry. by rewrite lookup_insert_ne.
Qed.

Lemma store_entries_lookup d (entries : list entry) e :
  NoDup (entry_tag <$> entries) →
  e ∈ entries →
  foldl store_entry d entries !! entry_tag e
  = Some (default [] (d !! entry_tag e) ++ entry_header e :: entry_lines e).
Proof.
  revert d. induction entries as [|e' entries IH]; intros d Hnd He.
  - by apply elem_of_nil in He.
  - rewrite fmap_cons, NoDup_cons in Hnd. destruct Hnd as [Hfresh Hnd].
    cbn [foldl]. apply elem_of_cons in He as [-> | He].
    + rewrite store_entries_other by done.
      unfold store_entry. apply lookup_insert_eq.
    + rewrite IH by done.
      assert (entry_tag e ≠ entry_tag e') as Hne.
      { intros Heq. apply Hfresh. rewrite <- Heq.
        by apply list_elem_of_fmap_2. }
      unfold store_entry. by rewrite lookup_insert_ne.
Qed.

Lemma str_app_nil_r (s : string) : s +:+ "" = s.
Proof. induction s as [|c s IH]; [done|]. by rewrite app_cons, IH. Qed.

Lemma gather_lines_file d0 e1 (rest : list entry) (more : list string) :
  Forall entry_ok (e1 :: rest) →
  ∃ m, gather_lines (GatherState true None d0)
         (entry_header e1 :: entry_lines e1 ++ db_lines rest ++ more)
       = gather_lines
           (GatherState false (Some m) (foldl store_entry d0 (e1 :: rest)))
           more
       ∧ m ∈ entry_tag <$> e1 :: rest.
Proof.
  intros [He1 Hrest]%Forall_cons.
  rewrite (gather_lines_entry _ e1) by auto.
  cbn [a3m_lines_of foldl].
  destruct rest as [|e2 rest].
  - exists (entry_tag e1). split; [done|]. set_solver.
  - destruct (gather_lines_db
                (GatherState false (Some (entry_tag e1)) (store_entry d0 e1))
                (e2 :: rest) more) as (m & -> & Hm); [done..|].
    exists m. split; [done|].
    rewrite (fmap_cons _ e1). apply elem_of_cons. right.
    apply last_Some in Hm as [l' ->]. set_solver.
Qed.

Lemma gather_lines_entries d0 e1 (rest : list entry)
    (trailer : list string) :
  Forall entry_ok (e1 :: rest) →
  NoDup (entry_tag <$> e1 :: rest) →
  trailer = [] ∨ trailer = [String Py.nul ""] →
  ∃ st,
    gather_lines (GatherState true None d0)
      (entry_header e1 :: entry_lines e1 ++ db_lines rest ++ trailer) = Ok st
    ∧ (∀ e, e ∈ e1 :: rest →
        ∃ l, a3m_lines_of st !! entry_tag e = Some l
             ∧ Py.join "" l
               = Py.join "" (default [] (d0 !! entry_tag e))
                 +:+ Py.join "" (entry_header e :: entry_lines e))
    ∧ ∀ k, k ∉ entry_tag <$> e1 :: rest → a3m_lines_of st !! k = d0 !! k.
Proof.
  intros Hok Hnd Htrailer.
  destruct (gather_lines_file d0 e1 rest trailer Hok) as (m & -> & Hm).
  set (D := foldl store_entry d0 (e1 :: rest)).
  assert (∀ e, e ∈ e1 :: rest →
            D !! entry_tag e
            = Some (default [] (d0 !! entry_tag e)
                    ++ entry_header e :: entry_lines e)) as HD
    by (intros e He; by apply store_entries_lookup).
  assert (∀ k, k ∉ entry_tag <$> e1 :: rest → D !! k = d0 !! k) as Hother
    by (intros k Hk; by apply store_entries_other).
  destruct Htrailer as [-> | ->].
  - eexists. split; [reflexivity|]. cbn [a3m_lines_of]. split; [|done].
    intros e He. eexists. split; [by apply HD|].
    by rewrite join_empty_app.
  - apply list_elem_of_fmap in Hm as (em & -> & Hem).
    cbn [gather_lines]. unfold gather_line.
    cbn [String.length Nat.ltb Nat.leb Py.contains Py.remove_char].
    rewrite bool_decide_true by done.
    cbn [orb Py.startswith andb update_M cur_M a3m_lines_of mbind result_bind].
    rewrite (HD em Hem). cbn [mbind result_bind].
    eexists. split; [reflexivity|]. cbn [a3m_lines_of]. split.
    + intros e He.
      destruct (decide (entry_tag e = entry_tag em)) as [Heq|Hne].
      * assert (default [] (d0 !! entry_tag e)
                ++ entry_header e :: entry_lines e
                = default [] (d0 !! entry_tag em)
                  ++ entry_header em :: entry_lines em) as Hsame.
        { apply (inj Some). rewrite <- (HD e He), <- (HD em Hem).
          by rewrite Heq. }
        exists ((default [] (d0 !! entry_tag e)
                 ++ entry_header e :: entry_lines e) ++ [""]).
        split.
        -- rewrite Hsame, Heq. apply lookup_insert_eq.
        -- rewrite !join_empty_app. simpl. by rewrite str_app_nil_r.
      * rewrite lookup_insert_ne by done.
        eexists. split; [by apply HD|]. by rewrite join_empty_app.
    + intros k Hk. rewrite lookup_insert_ne; [by apply Hother|].
      intros <-. apply Hk. by apply list_elem_of_fmap_2.
Qed.



End Demultiplex.

Section Rerun.
Implicit Types (w : world).

Lemma world_eta w :
  World (files w) (dirs w) (replies w) (archive w) (trace w) = w.
Proof. by destruct w. Qed.

Lemma makedir_existing p w :
  files w !! p = None → p ∈ dirs w → makedir p w = (Ok (), w).
Proof.
  intros Hp Hd. unfold makedir. rewrite Hp.
  replace ({[p]} ∪ dirs w) with (dirs w) by set_solver.
  by rewrite world_eta.
Qed.

Lemma makedir_inv p w u w' :
  makedir p w = (Ok u, w') →
  files w' = files w ∧ dirs w' = {[p]} ∪ dirs w.
Proof.
  unfold makedir. destruct (files w !! p); [done|]. by intros [= _ <-].
Qed.

Lemma call_api_inv unique_seqs mode N tar_gz_file w u w' :
  call_api unique_seqs mode N tar_gz_file w = (Ok u, w') →
  dirs w' = dirs w
  ∧ is_Some (files w' !! tar_gz_file)
  ∧ ∀ p, is_Some (files w !! p) → is_Some (files w' !! p).
Proof.
  unfold call_api. unfold mbind, IO_bind, isfile.
  case_bool_decide as Htar.
  - intros [= _ <-]. done.
  - destruct (api_loop _ _ _) as [[[ID|e] evs] unread]; [|done].
    intros [= _ <-]. cbn [files dirs]. split; [done|]. split.
    + rewrite lookup_insert_eq. by eexists.
    + intros p Hp. destruct (decide (p = tar_gz_file)) as [->|Hne]; [done|].
      by rewrite lookup_insert_ne.
Qed.

Lemma call_api_cached unique_seqs mode N tar_gz_file w :
  is_Some (files w !! tar_gz_file) →
  call_api unique_seqs mode N tar_gz_file w = (Ok (), w).
Proof.
  intros Htar. unfold call_api. unfold mbind, IO_bind, isfile.
  by rewrite bool_decide_true.
Qed.

Lemma extract_all_inv p out_path w u w' :
  extract_all p out_path w = (Ok u, w') →
  dirs w' = dirs w ∧ ∀ q, is_Some (files w !! q) → is_Some (files w' !! q).
Proof.
  unfold extract_all. destruct (files w !! p) as [[lines|members]|]; try done.
  intros [= _ <-]. cbn [files dirs]. split; [done|].
  generalize (files w). induction members as [|m members IH]; intros fs q Hq.
  - done.
  - cbn [foldl]. apply IH.
    destruct (decide (q = PyNum.path_join out_path m.1)) as [->|Hne].
    + rewrite lookup_insert_eq. by eexists.
    + by rewrite lookup_insert_ne.
Qed.

Lemma read_lines_inv p w lines w' :
  read_lines p w = (Ok lines, w') →
  w' = w ∧ files w !! p = Some (TextFile lines).
Proof.
  unfold read_lines. destruct (files w !! p) as [[l|m]|]; try done.
  by intros [= -> <-].
Qed.

Lemma fetch_templates_rerun prefix mode n templates tp w paths w' :
  fetch_templates prefix mode n templates tp w = (Ok paths, w') →
  files w' = files w ∧ dirs w ⊆ dirs w'
  ∧ ∀ w2, dirs w' ⊆ dirs w2 →
      fetch_templates prefix mode n templates tp w2 = (Ok paths, w2).
Proof.
  revert tp w. induction templates as [|[k TMPL] rest IH]; intros tp w H.
  - injection H as <- <-. done.
  - cbn [fetch_templates] in H.
    set (TMPL_PATH := PyNum.path_join (prefix +:+ "_" +:+ mode)
                        ("templates_" +:+ pretty k)) in *.
    apply IO_bind_inv in H as (there & w0 & [= <- <-] & H).
    apply IO_bind_inv in H as (u & w1 & Hfetch & H).
    destruct (IH _ _ H) as (Hfiles & Hdirs & Hre).
    assert (files w1 = files w ∧ {[TMPL_PATH]} ∪ dirs w ⊆ dirs w1)
      as [Hf1 Hd1].
    { case_bool_decide as Hthere.
      - injection Hfetch as _ <-. split; [done|]. set_solver.
      - apply IO_bind_inv in Hfetch as (u1 & w2 & Hmk & Hfetch).
        apply makedir_inv in Hmk as [Hmf Hmd].
        apply IO_bind_inv in Hfetch as (u2 & w3 & [= _ <-] & Hfetch).
        apply IO_bind_inv in Hfetch as (u3 & w4 & [= _ <-] & Hfetch).
        injection Hfetch as _ <-. cbn [files dirs].
        split; [done|]. by rewrite Hmd. }
    split; [congruence|]. split; [set_solver|].
    intros w2 Hw2. cbn [fetch_templates]. fold TMPL_PATH.
    unfold mbind at 1, IO_bind. unfold isdir at 1.
    rewrite bool_decide_true by set_solver.
    unfold mbind at 1, IO_bind. unfold mret at 1, IO_ret.
    by apply Hre.
Qed.

Lemma gather_files_reads a3m_files d w d' w' :
  gather_files a3m_files d w = (Ok d', w') →
  w' = w
  ∧ ∀ w2, files w2 = files w → gather_files a3m_files d w2 = (Ok d', w2).
Proof.
  revert d w. induction a3m_files as [|f fs IH]; intros d w H.
  - injection H as <- <-. done.
  - cbn [gather_files] in H.
    apply IO_bind_inv in H as (lines & w1 & Hread & H).
    apply read_lines_inv in Hread as [-> Hf].
    apply IO_bind_inv in H as (st & w2 & Hst & H).
    apply lift_inv in Hst as [Hst ->].
    destruct (IH _ _ H) as [-> Hre]. split; [done|].
    intros w2 Hw2. cbn [gather_files].
    unfold mbind at 1, IO_bind. unfold read_lines at 1. rewrite Hw2, Hf.
    unfold mbind at 1, IO_bind. unfold lift at 1. rewrite Hst.
    by apply Hre.
Qed.

(** X11: results are cached on disk.  When a call of [runMMseqs2] has
    returned, the same call made again in the world it left, with the
    output directory still not a regular file, returns the same
    alignments and template paths and leaves the world unchanged: no
    request is sent, nothing is slept, downloaded or extracted and no
    command is run. *)
Theorem runMMseqs2_rerun_uses_cache prefix sequences use_env use_filter
    use_templates num_templates w r w' :
  runMMseqs2 prefix sequences use_env use_filter use_templates num_templates w
  = (Ok r, w') →
  files w' !! (prefix +:+ "_" +:+ mode_of use_env use_filter) = None →
  runMMseqs2 prefix sequences use_env use_filter use_templates num_templates
    w'
  = (Ok r, w').
Proof.
  intros H Hfree. unfold runMMseqs2 in *.
  set (seqs := match sequences with OneSequence s => [s] | Sequences l => l
               end) in *.
  set (mode := mode_of use_env use_filter) in *.
  set (out_path := prefix +:+ "_" +:+ mode) in *.
  set (tar_gz_file := PyNum.path_join out_path "out.tar.gz") in *.
  set (uniref := PyNum.path_join out_path "uniref.a3m") in *.
  apply IO_bind_inv in H as (u0 & w0 & Hmk & H).
  apply makedir_inv in Hmk as [Hf0 Hd0].
  apply IO_bind_inv in H as (Ms & w1 & HMs & H).
  apply lift_inv in HMs as [HMs ->].
  apply IO_bind_inv in H as (u2 & w2 & Hcall & H).
  apply call_api_inv in Hcall as (Hd2 & Htar & Hf2).
  apply IO_bind_inv in H as (extracted & w3 & [= <- <-] & H).
  apply IO_bind_inv in H as (u4 & w4 & Hext & H).
  assert (dirs w4 = dirs w2
          ∧ ∀ q, is_Some (files w2 !! q) → is_Some (files w4 !! q))
    as [Hd4 Hf4].
  { case_bool_decide.
    - by injection Hext as _ <-.
    - by apply extract_all_inv in Hext. }
  apply IO_bind_inv in H as (tp & w5 & Htp & H).
  apply IO_bind_inv in H as (d & w6 & Hd & H).
  assert (is_Some (files w5 !! uniref)) as Huni.
  { cbn [gather_files] in Hd.
    apply IO_bind_inv in Hd as (lines & w8 & Hread & _).
    apply read_lines_inv in Hread as [_ ->]. by eexists. }
  apply gather_files_reads in Hd as [-> Hgather].
  apply IO_bind_inv in H as (blobs & w7 & Hblobs & H).
  apply lift_inv in Hblobs as [Hblobs ->].
  injection H as <- <-.
  (* what the template step left *)
  assert (files w5 = files w4 ∧ dirs w4 ⊆ dirs w5
          ∧ if use_templates then
              ∃ lines templates,
                files w4 !! PyNum.path_join out_path "pdb70.m8"
                = Some (TextFile lines)
                ∧ read_m8 [] lines = Ok templates
                ∧ fetch_templates prefix mode num_templates templates ∅ w5
                  = (Ok tp, w5)
            else tp = ∅) as (Hf5 & Hd5 & Htp5).
  { destruct use_templates.
    - apply IO_bind_inv in Htp as (lines & w8 & Hread & Htp).
      apply read_lines_inv in Hread as [-> Hm8].
      apply IO_bind_inv in Htp as (templates & w9 & Hm & Htp).
      apply lift_inv in Hm as [Hm ->].
      destruct (fetch_templates_rerun _ _ _ _ _ _ _ _ Htp) as (Hf & Hdd & Hre).
      split; [done|]. split; [done|].
      exists lines, templates. split; [done|]. split; [done|]. by apply Hre.
    - injection Htp as <- <-. done. }
  (* the second run *)
  unfold mbind at 1, IO_bind.
  rewrite makedir_existing; [|done|set_solver].
  unfold mbind at 1, IO_bind. unfold lift at 1. rewrite HMs.
  unfold mbind at 1, IO_bind.
  rewrite call_api_cached by (rewrite Hf5; by apply Hf4).
  unfold mbind at 1, IO_bind. unfold isfile at 1.
  rewrite bool_decide_true by done.
  unfold mbind at 1, IO_bind. unfold mret at 1, IO_ret.
  destruct use_templates.
  - destruct Htp5 as (lines & templates & Hm8 & Hm & Hfetch).
    unfold mbind at 1, IO_bind.
    unfold mbind at 1, IO_bind. unfold read_lines at 1. rewrite Hf5, Hm8.
    unfold mbind at 1, IO_bind. unfold lift at 1. rewrite Hm.
    rewrite Hfetch.
    unfold mbind at 1, IO_bind. rewrite Hgather by done.
    unfold mbind at 1, IO_bind. unfold lift at 1. rewrite Hblobs.
    done.
  - subst tp.
    unfold mbind at 1, IO_bind. unfold mret at 1, IO_ret.
    unfold mbind at 1, IO_bind. rewrite Hgather by done.
    unfold mbind at 1, IO_bind. unfold lift at 1. rewrite Hblobs.
    done.
Qed.

End Rerun.

Lemma runMMseqs2_rerun_uses_cache_witness :
  let w' :=
    (runMMseqs2 "out/mmseqs2" (Sequences ["ACDE"; "GHIK"; "ACDE"]) false true
       false 20 answering_service).2 in
  trace w'
  = [EvSubmit (submit_query 101 ["ACDE"; "GHIK"]) "all"; EvSleep;
     EvSubmit (submit_query 101 ["ACDE"; "GHIK"]) "all"; EvSleep;
     EvStatus "T1"; EvDownload "T1"]
  ∧ runMMseqs2 "out/mmseqs2" (Sequences ["ACDE"; "GHIK"; "ACDE"]) false true
      false 20 w'
    = (Ok ([">101" +:+ NL +:+ "ACDE" +:+ NL +:+ ">hit" +:+ NL +:+ "AC-E"
            +:+ NL;
            ">102" +:+ NL +:+ "GHIK" +:+ NL;
            ">101" +:+ NL +:+ "ACDE" +:+ NL +:+ ">hit" +:+ NL +:+ "AC-E"
            +:+ NL],
           [None; None; None]), w').
Proof.
  intros w'. split; [vm_compute; reflexivity|].
  apply (runMMseqs2_rerun_uses_cache "out/mmseqs2"
           (Sequences ["ACDE"; "GHIK"; "ACDE"]) false true false 20
           answering_service).
  - vm_compute. reflexivity.
  - vm_compute. reflexivity.
Defined.

(** ** What [runMMseqs2] returns *)

Lemma join_tags_lookup d Ms blobs :
  join_tags d Ms = Ok blobs →
  ∀ i n, Ms !! i = Some n →
    ∃ l, d !! n = Some l ∧ blobs !! i = Some (Py.join "" l).
Proof.
  revert blobs. induction Ms as [|m Ms IH]; intros blobs H i n Hi; [done|].
  simpl in H. destruct (d !! m) as [l|] eqn:Hm; [|done].
  apply result_bind_inv in H as (more & Hmore & [= <-]).
  destruct i as [|i].
  - injection Hi as <-. by exists l.
  - by apply (IH more).
Qed.

(** The texts returned are joined from the lines gathered, in the world
    the call leaves, for the tags of the sequences. *)
Lemma runMMseqs2_outputs prefix sequences use_env use_filter use_templates
    num_templates w a3m_lines template_paths w' :
  let out_path := prefix +:+ "_" +:+ mode_of use_env use_filter in
  runMMseqs2 prefix (Sequences sequences) use_env use_filter use_templates
    num_templates w = (Ok (a3m_lines, template_paths), w') →
  ∃ d,
    gather_files
      (PyNum.path_join out_path "uniref.a3m"
       :: (if use_env
           then [PyNum.path_join out_path "bfd.mgnify30.metaeuk30.smag30.a3m"]
           else []))
      ∅ w' = (Ok d, w')
    ∧ join_tags d (tag_of 101 (sorted_set sequences) <$> sequences)
      = Ok a3m_lines.
Proof.
  intros out_path H. unfold runMMseqs2 in H. fold out_path in H.
  apply IO_bind_inv in H as (u0 & w0 & _ & H).
  apply IO_bind_inv in H as (Ms & w1 & HMs & H).
  apply lift_inv in HMs as [HMs ->].
  rewrite tags_of_sorted_set in HMs. injection HMs as <-.
  apply IO_bind_inv in H as (u2 & w2 & _ & H).
  apply IO_bind_inv in H as (extracted & w3 & _ & H).
  apply IO_bind_inv in H as (u4 & w4 & _ & H).
  apply IO_bind_inv in H as (tp & w5 & _ & H).
  apply IO_bind_inv in H as (d & w6 & Hd & H).
  apply IO_bind_inv in H as (blobs & w7 & Hblobs & H).
  apply lift_inv in Hblobs as [Hblobs ->].
  injection H as <- _ <-.
  pose proof Hd as Hsame. apply gather_files_reads in Hsame as [-> _].
  by exists d.
Qed.

(** C7: whenever [runMMseqs2] returns, it returns one alignment text
    for every input sequence, in input order: text [i] is joined from the
    lines gathered from the result files for the tag of sequence [i], and
    for a result file made of entries with distinct tags it is, character
    for character, the entry that carries the tag of sequence [i].  Two
    occurrences of the same sequence carry the same tag and receive the
    same, non-empty text (and the same template path).  For [A, B, A] with
    [A = ACDE] and [B = GHIK] the tags are 101, 102, 101 and the texts 0
    and 2 are the same. *)
Theorem runMMseqs2_duplicates (prefix : string) (sequences : list string)
    (use_env use_filter use_templates : bool) (num_templates : nat)
    (w : world) (a3m_lines : list string)
    (template_paths : list (option string)) (w' : world) :
  let tag := tag_of 101 (sorted_set sequences) in
  let out_path := prefix +:+ "_" +:+ mode_of use_env use_filter in
  let uniref := PyNum.path_join out_path "uniref.a3m" in
  runMMseqs2 prefix (Sequences sequences) use_env use_filter use_templates
    num_templates w = (Ok (a3m_lines, template_paths), w') →
  tags_of 101 (sorted_set sequences) sequences = Ok (tag <$> sequences)
  ∧ length a3m_lines = length sequences
  ∧ length template_paths = length sequences
  ∧ (∀ i j s, sequences !! i = Some s → sequences !! j = Some s →
       ∃ blob, a3m_lines !! i = Some blob ∧ a3m_lines !! j = Some blob
               ∧ blob ≠ ""
               ∧ template_paths !! i = template_paths !! j)
  ∧ (∃ d,
       gather_files
         (uniref
          :: (if use_env
              then [PyNum.path_join out_path
                      "bfd.mgnify30.metaeuk30.smag30.a3m"]
              else []))
         ∅ w' = (Ok d, w')
       ∧ ∀ i s, sequences !! i = Some s →
           ∃ l, d !! tag s = Some l ∧ a3m_lines !! i = Some (Py.join "" l))
  ∧ (∀ e1 rest trailer,
       use_env = false →
       files w' !! uniref
       = Some (TextFile (entry_header e1 :: entry_lines e1 ++ db_lines rest
                         ++ trailer)) →
       Forall entry_ok (e1 :: rest) →
       NoDup (entry_tag <$> e1 :: rest) →
       trailer = [] ∨ trailer = [String Py.nul ""] →
       ∀ i s e, sequences !! i = Some s → e ∈ e1 :: rest →
         entry_tag e = tag s →
         a3m_lines !! i
         = Some (Py.join "" (entry_header e :: entry_lines e)))
  ∧ (sequences = ["ACDE"; "GHIK"; "ACDE"] →
       tags_of 101 (sorted_set sequences) sequences = Ok [101; 102; 101]%Z
       ∧ ∃ a b, a3m_lines = [a; b; a] ∧ a ≠ "" ∧ b ≠ "").
Proof.
  intros tag out_path uniref H.
  destruct (runMMseqs2_outputs _ _ _ _ _ _ _ _ _ _ H) as (d & Hd & Hjoin).
  fold out_path uniref in Hd.
  pose proof (join_tags_lookup _ _ _ Hjoin) as Hlookup.
  assert (∀ i s, sequences !! i = Some s →
            ∃ l, d !! tag s = Some l ∧ a3m_lines !! i = Some (Py.join "" l))
    as Htexts.
  { intros i s Hi. apply Hlookup. by rewrite list_lookup_fmap, Hi. }
  assert ((runMMseqs2 prefix (Sequences sequences) use_env use_filter
             use_templates num_templates w).1
          = Ok (a3m_lines, template_paths)) as H1 by (by rewrite H).
  apply runMMseqs2_inv in H1 as (blob_of & path_of & Ha & Ht & Hne).
  split; [apply tags_of_sorted_set|].
  split; [by rewrite Ha, !length_fmap|].
  split; [by rewrite Ht, !length_fmap|].
  split; [|split; [|split]].
  - intros i j s Hi Hj.
    exists (blob_of (tag_of 101 (sorted_set sequences) s)).
    rewrite Ha, Ht, !list_lookup_fmap, Hi, Hj. simpl. split_and!; try done.
    apply Hne. by eapply list_elem_of_lookup_2.
  - by exists d.
  - intros e1 rest trailer -> Hfile Hok Hnd Htrailer i s e Hi He Htag.
    cbn [gather_files] in Hd.
    apply IO_bind_inv in Hd as (lines & w1 & Hread & Hd).
    apply read_lines_inv in Hread as [-> Hlines].
    rewrite Hfile in Hlines. injection Hlines as <-.
    apply IO_bind_inv in Hd as (st & w2 & Hst & Hd).
    apply lift_inv in Hst as [Hst ->].
    injection Hd as <-.
    destruct (gather_lines_entries ∅ e1 rest trailer Hok Hnd Htrailer)
      as (st' & Hst' & Hentries & _).
    rewrite Hst in Hst'. injection Hst' as <-.
    destruct (Hentries e He) as (l & Hl & Hjoined).
    destruct (Htexts i s Hi) as (l' & Hl' & ->).
    rewrite <- Htag, Hl in Hl'. injection Hl' as <-.
    by rewrite Hjoined, lookup_empty.
  - intros ->. split; [by vm_compute|].
    eexists _, _. split; [by rewrite Ha|].
    split; apply Hne; set_solver.
Qed.

Lemma runMMseqs2_duplicates_witness :
  ∃ template_paths w',
    runMMseqs2 "out/mmseqs2" (Sequences ["ACDE"; "GHIK"; "ACDE"]) false true
      false 20 answering_service
    = (Ok ([">101" +:+ NL +:+ "ACDE" +:+ NL +:+ ">hit" +:+ NL +:+ "AC-E"
            +:+ NL;
            ">102" +:+ NL +:+ "GHIK" +:+ NL;
            ">101" +:+ NL +:+ "ACDE" +:+ NL +:+ ">hit" +:+ NL +:+ "AC-E"
            +:+ NL],
           template_paths), w').
Proof.
  assert (raised
            (runMMseqs2 "out/mmseqs2" (Sequences ["ACDE"; "GHIK"; "ACDE"])
               false true false 20 answering_service).1 = None)
    as Hreturns by (vm_compute; reflexivity).
  assert (files
            (runMMseqs2 "out/mmseqs2" (Sequences ["ACDE"; "GHIK"; "ACDE"])
               false true false 20 answering_service).2
            !! "out/mmseqs2_all/uniref.a3m"
          = Some (TextFile
                    (entry_header entry_101 :: entry_lines entry_101
                     ++ db_lines [entry_102] ++ [])))
    as Hfile by (vm_compute; reflexivity).
  destruct (runMMseqs2 "out/mmseqs2" (Sequences ["ACDE"; "GHIK"; "ACDE"])
              false true false 20 answering_service)
    as [[[a3m_lines template_paths]|e] w'] eqn:Hr; [|discriminate Hreturns].
  cbn [snd] in Hfile.
  destruct (runMMseqs2_duplicates "out/mmseqs2" ["ACDE"; "GHIK"; "ACDE"]
              false true false 20 answering_service a3m_lines template_paths
              w' Hr)
    as (_ & Hlen & _ & _ & _ & Hentries & _).
  assert (Forall entry_ok [entry_101; entry_102]) as Hok.
  { apply Forall_cons. split.
    - split; [reflexivity|]. split; [reflexivity|]. split; [reflexivity|].
      repeat (apply Forall_cons; split; [split; [simpl; lia|reflexivity]|]).
      apply Forall_nil_2.
    - apply Forall_cons. split; [|apply Forall_nil_2].
      split; [reflexivity|]. split; [reflexivity|]. split; [reflexivity|].
      repeat (apply Forall_cons; split; [split; [simpl; lia|reflexivity]|]).
      apply Forall_nil_2. }
  assert (NoDup (entry_tag <$> [entry_101; entry_102])) as Hnd.
  { apply NoDup_cons. split.
    - intros Hin. apply list_elem_of_singleton in Hin. discriminate Hin.
    - apply NoDup_singleton. }
  pose proof (Hentries entry_101 [entry_102] [] eq_refl Hfile Hok Hnd
                (or_introl eq_refl)) as Htext.
  pose proof (Htext 0 "ACDE" entry_101 eq_refl
                ltac:(left) eq_refl) as H0.
  pose proof (Htext 1 "GHIK" entry_102 eq_refl
                ltac:(right; left) eq_refl) as H1.
  pose proof (Htext 2 "ACDE" entry_101 eq_refl
                ltac:(left) eq_refl) as H2.
  destruct a3m_lines as [|x0 [|x1 [|x2 [|x3 more]]]]; try discriminate Hlen.
  injection H0 as ->. injection H1 as ->. injection H2 as ->.
  exists template_paths, w'. reflexivity.
Defined.

Section TemplateTable.
Implicit Types (templates : list (Z * list string)) (hits : list (Z * string)).

Lemma templates_append_keys templates M pdb :
  (templates_append templates M pdb).*1
  = if bool_decide (M ∈ templates.*1) then templates.*1
    else templates.*1 ++ [M].
Proof.
  induction templates as [|[k l] rest IH]; [done|].
  cbn [templates_append]. destruct (decide (k = M)) as [->|Hk].
  - rewrite (bool_decide_true (M = M)) by done.
    rewrite bool_decide_true by (rewrite fmap_cons; left). done.
  - rewrite (bool_decide_false (k = M)) by done.
    rewrite !fmap_cons, IH. cbn [fst].
    destruct (bool_decide (M ∈ rest.*1)) eqn:Hin.
    + apply bool_decide_eq_true in Hin.
      rewrite bool_decide_true by (by right). done.
    + apply bool_decide_eq_false in Hin.
      rewrite bool_decide_false; [done|].
      intros [->|?]%elem_of_cons; done.
Qed.

Lemma templates_append_NoDup templates M pdb :
  NoDup templates.*1 → NoDup (templates_append templates M pdb).*1.
Proof.
  intros Hnd. rewrite templates_append_keys. case_bool_decide as Hin; [done|].
  apply NoDup_app. split; [done|]. split; [|apply NoDup_singleton].
  intros x Hx ->%list_elem_of_singleton. done.
Qed.

Lemma hits_of_None templates M : hits_of templates M = None ↔ M ∉ templates.*1.
Proof.
  induction templates as [|[k l] rest IH]; simpl.
  - split; [set_solver|done].
  - destruct (decide (k = M)) as [->|Hk].
    + rewrite bool_decide_true by done.
      split; [done|]. intros H. exfalso. apply H. left.
    + rewrite bool_decide_false by done.
      rewrite IH. rewrite not_elem_of_cons. naive_solver.
Qed.

Lemma templates_append_hits templates M pdb k :
  hits_of (templates_append templates M pdb) k
  = if bool_decide (k = M)
    then Some (default [] (hits_of templates M) ++ [pdb])
    else hits_of templates k.
Proof.
  induction templates as [|[k' l] rest IH]; simpl.
  - destruct (bool_decide (M = k)) eqn:H1, (bool_decide (k = M)) eqn:H2;
      try done.
    + apply bool_decide_eq_true in H1. apply bool_decide_eq_false in H2. done.
    + apply bool_decide_eq_true in H2. apply bool_decide_eq_false in H1. done.
  - destruct (bool_decide (k' = M)) eqn:HM.
    + apply bool_decide_eq_true in HM. subst k'. simpl.
      destruct (bool_decide (M = k)) eqn:Hk.
      * apply bool_decide_eq_true in Hk. subst k.
        by rewrite bool_decide_true.
      * apply bool_decide_eq_false in Hk.
        rewrite bool_decide_false by done. done.
    + simpl. rewrite IH.
      destruct (bool_decide (k' = k)) eqn:Hk; [|done].
      apply bool_decide_eq_true in Hk. subst k'.
      apply bool_decide_eq_false in HM.
      by rewrite bool_decide_false.
Qed.

Lemma read_m8_fold templates lines hits :
  Forall2 m8_hit lines hits →
  read_m8 templates lines
  = Ok (foldl (λ t hit, templates_append t hit.1 hit.2) templates hits).
Proof.
  intros H. revert templates.
  induction H as [|line hit lines hits (f0 & more & Hw & Hint) _ IH];
    intros templates; [done|].
  cbn [read_m8 foldl]. rewrite Hw.
  change (Py.index_list (f0 :: hit.2 :: more) 0) with (Ok f0 : result string).
  change (Py.index_list (f0 :: hit.2 :: more) 1)
    with (Ok hit.2 : result string).
  cbn [mbind result_bind]. rewrite Hint. cbn [mbind result_bind]. apply IH.
Qed.

Lemma foldl_templates_append templates hits :
  let table := foldl (λ t hit, templates_append t hit.1 hit.2) templates hits in
  (NoDup templates.*1 → NoDup table.*1)
  ∧ ∀ M, hits_of table M
         = match filter (λ hit, hit.1 = M) hits with
           | [] => hits_of templates M
           | found => Some (default [] (hits_of templates M) ++ found.*2)
           end.
Proof.
  revert templates. induction hits as [|[M0 pdb] hits IH]; intros templates.
  - done.
  - cbn zeta. cbn [foldl fst snd].
    destruct (IH (templates_append templates M0 pdb)) as [Hnd Hhits].
    split; [intros H; by apply Hnd, templates_append_NoDup|].
    intros M. rewrite Hhits, templates_append_hits.
    rewrite filter_cons. cbn [fst].
    destruct (decide (M0 = M)) as [->|Hne].
    + rewrite bool_decide_true by done.
      destruct (filter (λ hit, hit.1 = M) hits) as [|h found]; [done|].
      cbn [default id]. rewrite (fmap_cons _ (M, pdb)). cbn [snd].
      by rewrite <- app_assoc.
    + rewrite bool_decide_false by done. done.
Qed.

(** X12: the template table is grouped by tag.  When every line of
    [pdb70.m8] has at least two fields, the first of them an integer, the
    loop over the lines returns a table with one entry per tag that
    occurs, and the entry of a tag lists the second fields of the lines of
    that tag in the order of the file. *)
Theorem read_m8_groups_hits (lines : list string) hits :
  Forall2 m8_hit lines hits →
  ∃ templates,
    read_m8 [] lines = Ok templates
    ∧ NoDup templates.*1
    ∧ ∀ M, hits_of templates M
           = match filter (λ hit, hit.1 = M) hits with
             | [] => None
             | found => Some found.*2
             end.
Proof.
  intros H. eexists. split; [by apply read_m8_fold|].
  destruct (foldl_templates_append [] hits) as [Hnd Hhits].
  split; [apply Hnd; constructor|].
  intros M. rewrite Hhits. done.
Qed.

Lemma read_m8_groups_hits_witness :
  ∃ templates,
    read_m8 []
      ["101 1abc_A 0.9" +:+ NL; "102 2xyz_B 0.8" +:+ NL;
       "101 3def_C 0.7" +:+ NL]
    = Ok templates
    ∧ hits_of templates 101 = Some ["1abc_A"; "3def_C"].
Proof.
  assert (Forall2 m8_hit
            ["101 1abc_A 0.9" +:+ NL; "102 2xyz_B 0.8" +:+ NL;
             "101 3def_C 0.7" +:+ NL]
            [(101%Z, "1abc_A"); (102%Z, "2xyz_B"); (101%Z, "3def_C")]) as H.
  { apply Forall2_cons. split; [exists "101", ["0.9"]; split; reflexivity|].
    apply Forall2_cons. split; [exists "102", ["0.8"]; split; reflexivity|].
    apply Forall2_cons. split; [exists "101", ["0.7"]; split; reflexivity|].
    apply Forall2_nil_2. }
  destruct (read_m8_groups_hits _ _ H) as (templates & Hread & _ & Hhits).
  exists templates. split; [exact Hread|]. exact (Hhits 101%Z).
Defined.

End TemplateTable.

(** ** More on the feature builder *)

Lemma str_app_inv_suffix (s1 s2 t : string) : s1 +:+ t = s2 +:+ t → s1 = s2.
Proof.
  revert s2. induction s1 as [|c s1 IH]; intros s2 H.
  - destruct s2 as [|c2 s2]; [done|]. exfalso.
    apply (f_equal String.length) in H.
    rewrite !str_length_app in H. simpl in H. lia.
  - destruct s2 as [|c2 s2].
    + exfalso. apply (f_equal String.length) in H.
      rewrite !str_length_app in H. simpl in H. lia.
    + rewrite !app_cons in H. injection H as -> H. f_equal. by apply IH.
Qed.

Lemma all_seq_suffix_inj : Inj (=) (=) (λ k : string, k +:+ "_all_seq").
Proof. intros s1 s2. apply str_app_inv_suffix. Qed.

(** X16: the features copied from the UniProt alignment.  The mapping
    built by the comprehension of lines 366-369 has the key [k] exactly
    when [k] is [k0_all_seq] for an allow-listed feature [k0] of the
    UniProt features, and it carries the value of [k0]. *)
Theorem all_seq_features_lookup (valid_feats : list string)
    (features : FeatureDict) (k : string) (v : feature) :
  all_seq_features_of valid_feats features !! k = Some v
  ↔ ∃ k0, k = k0 +:+ "_all_seq" ∧ k0 ∈ valid_feats ∧ features !! k0 = Some v.
Proof.
  pose proof all_seq_suffix_inj as Hinj.
  unfold all_seq_features_of. rewrite lookup_kmap_Some by apply _.
  split.
  - intros (k0 & -> & [Hk0 Hin]%map_lookup_filter_Some). by exists k0.
  - intros (k0 & -> & Hin & Hk0). exists k0. split; [done|].
    by apply map_lookup_filter_Some.
Qed.

Section BuilderMore.
Variable Msa : Type.
Variable parse_a3m : string → result Msa.
Variable make_sequence_features : string → string → nat → FeatureDict.
Variable make_msa_features : list Msa → result FeatureDict.
Variable empty_placeholder_template_features : nat → nat → FeatureDict.
Variable search_templates : string → string → string → result FeatureDict.
Variable get_hash : string → string.
Variable MSA_FEATURES : list string.
Variable PDB_CHAIN_IDS : string.
Variable convert_monomer_features : FeatureDict → string → result FeatureDict.
Variable add_assembly_features :
  gmap string FeatureDict → result (gmap string FeatureDict).
Variable pair_and_merge : gmap string FeatureDict → bool → result FeatureDict.
Variable pad_msa : FeatureDict → nat → result FeatureDict.

Lemma get_list_ascii (s : string) (i : nat) :
  String.get i s = list_ascii_of_string s !! i.
Proof.
  revert i. induction s as [|c s IH]; intros i; [by destruct i|].
  destruct i as [|i]; [done|]. simpl. apply IH.
Qed.

Lemma chain_id_inj i j id :
  NoDup (list_ascii_of_string PDB_CHAIN_IDS) →
  chain_id PDB_CHAIN_IDS i = Ok id → chain_id PDB_CHAIN_IDS j = Ok id → i = j.
Proof.
  intros Hnd. unfold chain_id. rewrite !get_list_ascii.
  destruct (list_ascii_of_string PDB_CHAIN_IDS !! i) as [c|] eqn:Hi; [|done].
  destruct (list_ascii_of_string PDB_CHAIN_IDS !! j) as [c'|] eqn:Hj; [|done].
  intros [= <-] [= ->]. by eapply NoDup_lookup.
Qed.

Lemma chain_id_bound i id :
  chain_id PDB_CHAIN_IDS i = Ok id → i < String.length PDB_CHAIN_IDS.
Proof.
  unfold chain_id. rewrite get_list_ascii.
  destruct (list_ascii_of_string PDB_CHAIN_IDS !! i) as [c|] eqn:Hi; [|done].
  intros _. apply lookup_lt_Some in Hi.
  clear -Hi. revert Hi. generalize PDB_CHAIN_IDS. clear.
  intros s. revert i. induction s as [|c s IH]; intros i; simpl; [lia|].
  destruct i; [lia|]. intros H. apply Nat.succ_lt_mono in H.
  specialize (IH _ H). lia.
Qed.

(** The loop over the chains: what was stored before stays unless a
    later chain takes its key, and chain [i] of [todo] is stored under
    the identifier of index [idx + i]. *)
Lemma chain_loop_spec sequences raw_inputs use_templates custom_msa_dict
    custom_template_path todo idx acc bundles :
  NoDup (list_ascii_of_string PDB_CHAIN_IDS) →
  (chain_loop Msa parse_a3m make_sequence_features
    make_msa_features empty_placeholder_template_features search_templates
    get_hash MSA_FEATURES PDB_CHAIN_IDS)
    sequences raw_inputs use_templates custom_msa_dict
    custom_template_path idx todo acc = Ok bundles →
  (∀ i seq, todo !! i = Some seq →
     ∃ id fd, chain_id PDB_CHAIN_IDS (idx + i) = Ok id
              ∧ bundles !! id = Some fd
              ∧ (chain_feature_dict Msa parse_a3m make_sequence_features
    make_msa_features empty_placeholder_template_features search_templates
    get_hash MSA_FEATURES)
    sequences raw_inputs use_templates
                  custom_msa_dict custom_template_path seq = Ok fd)
  ∧ (∀ id, (∀ i, i < length todo → chain_id PDB_CHAIN_IDS (idx + i) ≠ Ok id) →
       bundles !! id = acc !! id).
Proof.
  intros Hnd. revert idx acc.
  induction todo as [|sequence rest IH]; intros idx acc H.
  - injection H as <-. split; [done|]. done.
  - cbn [chain_loop] in H.
    apply result_bind_inv in H as (fd & Hfd & H).
    apply result_bind_inv in H as (id & Hid & H).
    destruct (IH _ _ H) as [Hrest Hother]. split.
    + intros [|i] seq Hi.
      * injection Hi as <-. exists id, fd. rewrite Nat.add_0_r.
        split; [done|]. split; [|done].
        rewrite Hother; [apply lookup_insert_eq|].
        intros i _ Hi.
        pose proof (chain_id_inj _ _ _ Hnd Hid Hi). lia.
      * destruct (Hrest i seq Hi) as (id' & fd' & Hid' & Hb & Hfd').
        exists id', fd'. by rewrite <- Nat.add_succ_comm.
    + intros id' Hfree. rewrite Hother.
      * apply lookup_insert_ne. intros ->.
        apply (Hfree 0); [simpl; lia|]. by rewrite Nat.add_0_r.
      * intros i Hi. rewrite Nat.add_succ_comm. apply Hfree. simpl. lia.
Qed.

Lemma chain_loop_keys sequences raw_inputs use_templates custom_msa_dict
    custom_template_path todo idx acc bundles :
  NoDup (list_ascii_of_string PDB_CHAIN_IDS) →
  (chain_loop Msa parse_a3m make_sequence_features
    make_msa_features empty_placeholder_template_features search_templates
    get_hash MSA_FEATURES PDB_CHAIN_IDS)
    sequences raw_inputs use_templates custom_msa_dict
    custom_template_path idx todo acc = Ok bundles →
  (∀ id, is_Some (acc !! id) →
     ∃ i, i < idx ∧ chain_id PDB_CHAIN_IDS i = Ok id) →
  size bundles = size acc + length todo.
Proof.
  intros Hnd. revert idx acc.
  induction todo as [|sequence rest IH]; intros idx acc H Hacc.
  - injection H as <-. simpl. lia.
  - cbn [chain_loop] in H.
    apply result_bind_inv in H as (fd & Hfd & H).
    apply result_bind_inv in H as (id & Hid & H).
    rewrite (IH _ _ H).
    + rewrite map_size_insert_None; [simpl; lia|].
      apply eq_None_not_Some. intros (i & Hi & Hid')%Hacc.
      pose proof (chain_id_inj _ _ _ Hnd Hid Hid'). lia.
    + intros id' [<-|[Hne Hsome]]%lookup_insert_is_Some.
      * exists idx. split; [lia|done].
      * destruct (Hacc _ Hsome) as (i & Hi & Hid'). exists i.
        split; [lia|done].
Qed.

(** X17: one bundle per chain.  With pairwise distinct chain
    identifiers, when [getChainFeatures] returns for a single chain or
    under a multimer model, there are as many bundles as chains, at most
    as many chains as identifiers, and chain [i] is found under
    identifier [i] with the bundle the loop body builds for its sequence
    without any custom alignment; so chains of equal sequence carry equal
    bundles. *)
Theorem getChainFeatures_one_bundle_per_chain (ls : listing)
    (sequences : list string) (raw_inputs : RawInput) (use_templates : bool)
    (custom_msa_path custom_template_path : option string)
    (use_multimer : bool) (bundles : gmap string FeatureDict) :
  NoDup (list_ascii_of_string PDB_CHAIN_IDS) →
  length sequences = 1 ∨ use_multimer = true →
  (getChainFeatures Msa parse_a3m make_sequence_features
    make_msa_features empty_placeholder_template_features search_templates
    get_hash MSA_FEATURES PDB_CHAIN_IDS)
    ls sequences raw_inputs use_templates custom_msa_path
    custom_template_path use_multimer = Ok bundles →
  size bundles = length sequences
  ∧ length sequences ≤ String.length PDB_CHAIN_IDS
  ∧ ∀ i seq, sequences !! i = Some seq →
      ∃ id fd, chain_id PDB_CHAIN_IDS i = Ok id
               ∧ bundles !! id = Some fd
               ∧ (chain_feature_dict Msa parse_a3m make_sequence_features
    make_msa_features empty_placeholder_template_features search_templates
    get_hash MSA_FEATURES)
    sequences raw_inputs use_templates ∅
                   custom_template_path seq = Ok fd.
Proof.
  intros Hnd Hbranch H. unfold getChainFeatures in H.
  apply result_bind_inv in H as (custom_msa_dict & Hcustom & H).
  assert (custom_msa_dict = ∅) as ->.
  { destruct custom_msa_path as [[|c p]|]; try by injection Hcustom.
    unfold getCustomMSADict in Hcustom. by destruct (ls (String c p)). }
  assert (bool_decide (length sequences = 1) || use_multimer = true) as Hb.
  { destruct Hbranch as [Hone | ->]; [|apply orb_true_r].
    by rewrite bool_decide_true. }
  rewrite Hb in H.
  destruct (chain_loop_spec _ _ _ _ _ _ _ _ _ Hnd H) as [Hchains _].
  split_and!.
  - rewrite (chain_loop_keys _ _ _ _ _ _ _ _ _ Hnd H).
    + by rewrite map_size_empty.
    + intros id [? Hid]. by rewrite lookup_empty in Hid.
  - destruct (decide (length sequences = 0)) as [->|Hne]; [lia|].
    destruct (lookup_lt_is_Some_2 sequences (length sequences - 1))
      as [seq Hseq]; [lia|].
    destruct (Hchains _ _ Hseq) as (id & fd & Hid & _).
    apply chain_id_bound in Hid. simpl in Hid. lia.
  - intros i seq Hi. destruct (Hchains i seq Hi) as (id & fd & Hid & Hb' & Hfd).
    by exists id, fd.
Qed.

Lemma chain_feature_dict_custom_template sequences raw_inputs use_templates
    custom_msa_dict c p sequence :
  ∃ e, (chain_feature_dict Msa parse_a3m make_sequence_features
    make_msa_features empty_placeholder_template_features search_templates
    get_hash MSA_FEATURES)
    sequences raw_inputs use_templates custom_msa_dict
         (Some (String c p)) sequence = Raise e.
Proof.
  unfold chain_feature_dict.
  match goal with
  | |- ∃ e, ?r ≫= ?f = Raise e =>
      destruct r as [fd1|e1]; [|by eexists]
  end.
  cbn [mbind result_bind].
  match goal with
  | |- ∃ e, ?r ≫= ?f = Raise e =>
      destruct r as [fd2|e2]; [|by eexists]
  end.
  by eexists.
Qed.

(** X18: custom templates are not available.  With a non-empty
    [custom_template_path] and at least one chain, [getChainFeatures]
    never returns when it takes the per-chain branch (a single chain, or a
    multimer model): the branch calls [get_custom_template_features],
    which is bound nowhere. *)
Theorem custom_template_path_never_returns (ls : listing)
    (sequences : list string) (raw_inputs : RawInput) (use_templates : bool)
    (custom_msa_path : option string) (c : ascii) (p : string)
    (use_multimer : bool) :
  sequences ≠ [] →
  length sequences = 1 ∨ use_multimer = true →
  ∃ e, (getChainFeatures Msa parse_a3m make_sequence_features
    make_msa_features empty_placeholder_template_features search_templates
    get_hash MSA_FEATURES PDB_CHAIN_IDS)
    ls sequences raw_inputs use_templates
         custom_msa_path (Some (String c p)) use_multimer = Raise e.
Proof.
  intros Hne Hbranch. unfold getChainFeatures.
  match goal with
  | |- ∃ e, ?r ≫= ?f = Raise e =>
      destruct r as [custom_msa_dict|e1]; [|by eexists]
  end.
  cbn [mbind result_bind].
  assert (bool_decide (length sequences = 1) || use_multimer = true) as ->.
  { destruct Hbranch as [Hone | ->]; [|apply orb_true_r].
    by rewrite bool_decide_true. }
  destruct sequences as [|sequence rest]; [done|].
  cbn [chain_loop].
  destruct (chain_feature_dict_custom_template (sequence :: rest) raw_inputs
              use_templates custom_msa_dict c p sequence) as [e He].
  rewrite He. by eexists.
Qed.

(** X19: no chain at all, and no directory of custom alignments (the
    path absent or empty).  Under a multimer model [getChainFeatures]
    returns no bundle for the empty query.  Under a model that is not a
    multimer model the empty query takes the concatenating branch, which
    hands the empty text to the parser and its result to the featuriser
    and, if both return, reads the chain left over from a loop that never
    ran: the call raises what the library raises on the empty alignment,
    and [UnboundLocalError] otherwise.  With the library as the
    specification describes it, that is the [ValueError] of the
    featuriser. *)
Theorem getChainFeatures_without_chains (ls : listing)
    (raw_inputs : RawInput) (use_templates : bool)
    (custom_msa_path custom_template_path : option string) :
  custom_msa_path = None ∨ custom_msa_path = Some "" →
  (getChainFeatures Msa parse_a3m make_sequence_features
    make_msa_features empty_placeholder_template_features search_templates
    get_hash MSA_FEATURES PDB_CHAIN_IDS)
    ls [] raw_inputs use_templates custom_msa_path custom_template_path
    true = Ok ∅
  ∧ (getChainFeatures Msa parse_a3m make_sequence_features
    make_msa_features empty_placeholder_template_features search_templates
    get_hash MSA_FEATURES PDB_CHAIN_IDS)
      ls [] raw_inputs use_templates custom_msa_path custom_template_path
      false
    = (msa ← parse_a3m "";
       _ ← make_msa_features [msa];
       Raise (UnboundLocalError "sequence"))
  ∧ ∃ message,
      getChainFeatures_af search_templates get_hash ls [] raw_inputs
        use_templates custom_msa_path custom_template_path false
      = Raise (ValueError message).
Proof.
  intros Hpath.
  assert (∀ Msa' parse_a3m' make_sequence_features' make_msa_features'
            empty' MSA_FEATURES' IDS',
            getChainFeatures Msa' parse_a3m' make_sequence_features'
              make_msa_features' empty' search_templates get_hash
              MSA_FEATURES' IDS' ls [] raw_inputs use_templates
              custom_msa_path custom_template_path false
            = (msa ← parse_a3m' "";
               _ ← make_msa_features' [msa];
               Raise (UnboundLocalError "sequence"))) as Hfalse.
  { intros. unfold getChainFeatures.
    assert (match custom_msa_path with
            | Some (String c p) => getCustomMSADict ls (String c p)
            | _ => Ok ∅
            end = Ok ∅) as -> by (by destruct Hpath as [-> | ->]).
    cbn [mbind result_bind length]. rewrite bool_decide_false by done.
    cbn [orb]. unfold concatenated_feature_dict.
    change (pair_msa [] raw_inputs) with (Ok "" : result string).
    change (List.last (Some <$> ([] : list string)) None)
      with (@None string).
    cbn [mbind result_bind].
    destruct (parse_a3m' "") as [msa|e]; [|done]. cbn [mbind result_bind].
    by destruct (make_msa_features' [msa]). }
  split_and!.
  - unfold getChainFeatures. by destruct Hpath as [-> | ->].
  - apply Hfalse.
  - unfold getChainFeatures_af. rewrite Hfalse. by eexists.
Qed.

(** X20: [getInputFeatures] after [getChainFeatures].  For a single
    chain, or under a model that is not a multimer model, whenever
    [getChainFeatures] returns it returns exactly one bundle, under the
    first chain identifier, and [getInputFeatures] on that result returns
    this bundle: the lookup of the first identifier cannot fail. *)
Theorem getInputFeatures_after_getChainFeatures (ls : listing)
    (sequences : list string) (raw_inputs : RawInput) (use_templates : bool)
    (custom_msa_path custom_template_path : option string)
    (use_multimer is_prokaryote : bool) (min_num_seq : nat)
    (bundles : gmap string FeatureDict) :
  length sequences = 1 ∨ use_multimer = false →
  (getChainFeatures Msa parse_a3m make_sequence_features
    make_msa_features empty_placeholder_template_features search_templates
    get_hash MSA_FEATURES PDB_CHAIN_IDS)
    ls sequences raw_inputs use_templates custom_msa_path
    custom_template_path use_multimer = Ok bundles →
  ∃ id fd,
    chain_id PDB_CHAIN_IDS 0 = Ok id
    ∧ bundles = {[ id := fd ]}
    ∧ (getInputFeatures convert_monomer_features add_assembly_features
     pair_and_merge pad_msa PDB_CHAIN_IDS)
    sequences bundles is_prokaryote min_num_seq
        use_multimer = Ok fd.
Proof.
  intros Hbranch H.
  assert (∃ id fd, chain_id PDB_CHAIN_IDS 0 = Ok id ∧ bundles = {[ id := fd ]})
    as (id & fd & Hid & ->).
  { unfold getChainFeatures in H.
    apply result_bind_inv in H as (custom_msa_dict & _ & H).
    destruct (decide (length sequences = 1)) as [Hone|Hmany].
    - rewrite bool_decide_true in H by done. cbn [orb] in H.
      destruct sequences as [|sequence [|??]]; try done.
      cbn [chain_loop] in H.
      apply result_bind_inv in H as (fd & _ & H).
      apply result_bind_inv in H as (id & Hid & [= <-]).
      by exists id, fd.
    - destruct Hbranch as [?| ->]; [done|].
      rewrite bool_decide_false in H by done. cbn [orb] in H.
      unfold concatenated_feature_dict in H.
      apply result_bind_inv in H as (a3m_lines & _ & H).
      apply result_bind_inv in H as (msa & _ & H).
      apply result_bind_inv in H as (msa_features & _ & H).
      destruct (List.last (Some <$> sequences) None) as [last|]; [|done].
      cbn [mbind result_bind] in H.
      apply result_bind_inv in H as (residue_index & _ & H).
      apply result_bind_inv in H as (shifted_index & _ & H).
      apply result_bind_inv in H as (id & Hid & [= <-]).
      by eexists id, _. }
  exists id, fd. split; [done|]. split; [done|].
  unfold getInputFeatures.
  assert (bool_decide (length sequences = 1) || negb use_multimer = true)
    as ->.
  { destruct Hbranch as [Hone | ->]; [|apply orb_true_r].
    by rewrite bool_decide_true. }
  rewrite Hid. cbn [mbind result_bind]. unfold getitem.
  by rewrite lookup_singleton_eq.
Qed.

(** X21: a chain without raw input.  When the per-chain branch is
    taken, no custom alignment directory is given and the first chain has
    no entry in the raw inputs, [getChainFeatures] raises [KeyError]
    carrying the sequence, or [UnboundLocalError] for [a3m_lines] when
    the raw inputs are empty altogether. *)
Theorem getChainFeatures_missing_raw_input (ls : listing)
    (sequence : string) (rest : list string) (raw_inputs : RawInput)
    (use_templates : bool) (custom_template_path : option string)
    (use_multimer : bool) :
  rest = [] ∨ use_multimer = true →
  raw_inputs !! sequence = None →
  getChainFeatures Msa parse_a3m make_sequence_features
    make_msa_features empty_placeholder_template_features search_templates
    get_hash MSA_FEATURES PDB_CHAIN_IDS ls (sequence :: rest) raw_inputs
    use_templates None custom_template_path use_multimer
  = Raise (if bool_decide (raw_inputs = ∅)
           then UnboundLocalError "a3m_lines" else KeyError sequence).
Proof.
  intros Hbranch Hmissing. unfold getChainFeatures.
  cbn [mbind result_bind].
  assert (bool_decide (length (sequence :: rest) = 1) || use_multimer = true)
    as ->.
  { destruct Hbranch as [-> | ->]; [done|apply orb_true_r]. }
  cbn [chain_loop]. unfold chain_feature_dict.
  rewrite lookup_empty. unfold getMSA.
  destruct (bool_decide (raw_inputs = ∅)); [done|].
  unfold getitem. rewrite Hmissing. done.
Qed.

(** X6: the bundle of the chains concatenated under a model that is
    not a multimer model.  With a library whose sequence features number
    the residues [0 .. N-1] and whose alignment and template features
    leave [residue_index] alone, whenever [getChainFeatures] returns on
    this branch the one bundle holds [residue_index] and [asym_id] with
    one entry per residue of the concatenated sequence, the [asym_id] of
    a residue is the index of a chain of the query, and
    [residue_index[i] = i + 200 * asym_id[i]]. *)
Theorem asym_id_matches_residue_index (ls : listing)
    (sequences : list string) (raw_inputs : RawInput) (use_templates : bool)
    (custom_msa_path custom_template_path : option string)
    (bundles : gmap string FeatureDict) :
  let Ls := Ls_of sequences in
  let N := String.length (total_sequence_of sequences) in
  (∀ s d n,
     make_sequence_features s d n !! "residue_index" = Some (Ints (arange n))) →
  (∀ msas fd, make_msa_features msas = Ok fd → fd !! "residue_index" = None) →
  (∀ n m, empty_placeholder_template_features n m !! "residue_index" = None) →
  length sequences ≠ 1 →
  (Z.of_nat N + 200 * Z.of_nat (length sequences) < 2 ^ 31)%Z →
  (getChainFeatures Msa parse_a3m make_sequence_features
    make_msa_features empty_placeholder_template_features search_templates
    get_hash MSA_FEATURES PDB_CHAIN_IDS)
    ls sequences raw_inputs use_templates custom_msa_path
    custom_template_path false = Ok bundles →
  ∃ id fd residue_index,
    chain_id PDB_CHAIN_IDS 0 = Ok id
    ∧ bundles = {[ id := fd ]}
    ∧ fd !! "residue_index" = Some (Ints residue_index)
    ∧ fd !! "asym_id" = Some (Ints (asym_ids 0 Ls))
    ∧ length residue_index = N
    ∧ length (asym_ids 0 Ls) = N
    ∧ ∀ i, i < N →
        ∃ a, asym_ids 0 Ls !! i = Some a
             ∧ (0 ≤ a < Z.of_nat (length sequences))%Z
             ∧ residue_index !! i = Some (Z.of_nat i + 200 * a)%Z.
Proof.
  intros Ls N Hseq Hmsa Htmpl Hmany Hbound H.
  unfold getChainFeatures in H.
  apply result_bind_inv in H as (custom_msa_dict & _ & H).
  rewrite bool_decide_false in H by done. cbn [orb] in H.
  unfold concatenated_feature_dict in H.
  apply result_bind_inv in H as (a3m_lines & _ & H).
  apply result_bind_inv in H as (msa & _ & H).
  apply result_bind_inv in H as (msa_features & Hmf & H).
  destruct (List.last (Some <$> sequences) None) as [last|]; [|done].
  cbn [mbind result_bind] in H.
  apply result_bind_inv in H as (numbered & Hnumbered & H).
  apply result_bind_inv in H as (shifted_index & Hshifted & H).
  apply result_bind_inv in H as (id & Hid & [= <-]).
  assert (numbered = Ints (arange N)) as ->.
  { unfold getitem, update in Hnumbered.
    rewrite lookup_union_r in Hnumbered by apply Htmpl.
    rewrite (lookup_union_r msa_features) in Hnumbered
      by (by eapply Hmsa).
    rewrite (lookup_union_Some_l _ _ _ _ (Hseq _ _ _)) in Hnumbered.
    by injection Hnumbered as <-. }
  pose proof (chain_break_feature_closed_form sequences) as Hclosed.
  cbv zeta in Hclosed. unfold N, Ls in *.
  destruct (Hclosed Hbound) as (residue_index & Hcb & Hlen & Hasym & Hall).
  rewrite Hcb in Hshifted. injection Hshifted as <-.
  eexists id, _, residue_index. split_and!; try done.
  - rewrite lookup_insert_ne by done. apply lookup_insert_eq.
  - apply lookup_insert_eq.
Qed.

End BuilderMore.

Lemma getChainFeatures_one_bundle_per_chain_witness :
  ∃ bundles,
    getChainFeatures_af (λ _ _ _, Ok ∅) (λ s, s) (λ _, None) ["AC"; "DEF"]
      raw_AC_DEF false None None true = Ok bundles
    ∧ size bundles = 2
    ∧ ∃ fd, bundles !! "B" = Some fd.
Proof.
  assert (raised (getChainFeatures_af (λ _ _ _, Ok ∅) (λ s, s) (λ _, None)
                    ["AC"; "DEF"] raw_AC_DEF false None None true) = None)
    as Hreturns by (vm_compute; reflexivity).
  destruct (getChainFeatures_af (λ _ _ _, Ok ∅) (λ s, s) (λ _, None)
              ["AC"; "DEF"] raw_AC_DEF false None None true)
    as [bundles|e] eqn:Hr; [|discriminate Hreturns].
  destruct (getChainFeatures_one_bundle_per_chain Alphafold.Msa
              Alphafold.parse_a3m Alphafold.make_sequence_features
              Alphafold.make_msa_features
              Alphafold.empty_placeholder_template_features
              (λ _ _ _, Ok ∅) (λ s, s) Alphafold.MSA_FEATURES
              Alphafold.PDB_CHAIN_IDS (λ _, None) ["AC"; "DEF"] raw_AC_DEF
              false None None true bundles)
    as (Hsize & _ & Hchains).
  - apply (bool_decide_unpack _). vm_compute. exact I.
  - right. reflexivity.
  - exact Hr.
  - exists bundles. split; [reflexivity|]. split; [exact Hsize|].
    destruct (Hchains 1 "DEF" eq_refl) as (id & fd & Hid & Hfd & _).
    injection Hid as <-. by exists fd.
Defined.

Lemma custom_template_path_never_returns_witness :
  ∃ e,
    getChainFeatures_af (λ _ _ _, Ok ∅) (λ s, s) (λ _, None) ["ACDE"]
      raw_ACDE true None (Some "templates") true = Raise e.
Proof.
  apply (custom_template_path_never_returns Alphafold.Msa
           Alphafold.parse_a3m Alphafold.make_sequence_features
           Alphafold.make_msa_features
           Alphafold.empty_placeholder_template_features
           (λ _ _ _, Ok ∅) (λ s, s) Alphafold.MSA_FEATURES
           Alphafold.PDB_CHAIN_IDS (λ _, None) ["ACDE"] raw_ACDE true None
           "t"%char "emplates" true).
  - discriminate.
  - left. reflexivity.
Defined.

Lemma getInputFeatures_after_getChainFeatures_witness :
  ∃ bundles fd,
    getChainFeatures_af (λ _ _ _, Ok ∅) (λ s, s) (λ _, None) ["AC"; "DEF"]
      raw_AC_DEF false None None false = Ok bundles
    ∧ getInputFeatures (λ features _, Ok features) (λ chains, Ok chains)
        (λ _ _, Ok ∅) (λ features _, Ok features) Alphafold.PDB_CHAIN_IDS
        ["AC"; "DEF"] bundles false 512 false = Ok fd.
Proof.
  assert (raised (getChainFeatures_af (λ _ _ _, Ok ∅) (λ s, s) (λ _, None)
                    ["AC"; "DEF"] raw_AC_DEF false None None false) = None)
    as Hreturns by (vm_compute; reflexivity).
  destruct (getChainFeatures_af (λ _ _ _, Ok ∅) (λ s, s) (λ _, None)
              ["AC"; "DEF"] raw_AC_DEF false None None false)
    as [bundles|e] eqn:Hr; [|discriminate Hreturns].
  destruct (getInputFeatures_after_getChainFeatures Alphafold.Msa
              Alphafold.parse_a3m Alphafold.make_sequence_features
              Alphafold.make_msa_features
              Alphafold.empty_placeholder_template_features
              (λ _ _ _, Ok ∅) (λ s, s) Alphafold.MSA_FEATURES
              Alphafold.PDB_CHAIN_IDS (λ features _, Ok features)
              (λ chains, Ok chains) (λ _ _, Ok ∅) (λ features _, Ok features)
              (λ _, None) ["AC"; "DEF"] raw_AC_DEF false None None false
              false 512 bundles)
    as (id & fd & _ & _ & Hinput).
  - right. reflexivity.
  - exact Hr.
  - exists bundles, fd. split; [reflexivity|exact Hinput].
Defined.

Lemma getChainFeatures_missing_raw_input_witness :
  getChainFeatures_af (λ _ _ _, Ok ∅) (λ s, s) (λ _, None) ["GHIK"; "ACDE"]
    raw_ACDE false None None true
  = Raise (KeyError "GHIK").
Proof.
  apply (getChainFeatures_missing_raw_input Alphafold.Msa
           Alphafold.parse_a3m Alphafold.make_sequence_features
           Alphafold.make_msa_features
           Alphafold.empty_placeholder_template_features
           (λ _ _ _, Ok ∅) (λ s, s) Alphafold.MSA_FEATURES
           Alphafold.PDB_CHAIN_IDS (λ _, None) "GHIK" ["ACDE"] raw_ACDE
           false None true).
  - right. reflexivity.
  - reflexivity.
Defined.

Lemma asym_id_matches_residue_index_witness :
  ∃ bundles fd residue_index,
    getChainFeatures_af (λ _ _ _, Ok ∅) (λ s, s) (λ _, None) ["AC"; "DEF"]
      raw_AC_DEF false None None false = Ok bundles
    ∧ bundles !! "A" = Some fd
    ∧ fd !! "residue_index" = Some (Ints residue_index)
    ∧ fd !! "asym_id" = Some (Ints [0; 0; 1; 1; 1]%Z)
    ∧ residue_index !! 2 = Some 202%Z.
Proof.
  assert (raised (getChainFeatures_af (λ _ _ _, Ok ∅) (λ s, s) (λ _, None)
                    ["AC"; "DEF"] raw_AC_DEF false None None false) = None)
    as Hreturns by (vm_compute; reflexivity).
  destruct (getChainFeatures_af (λ _ _ _, Ok ∅) (λ s, s) (λ _, None)
              ["AC"; "DEF"] raw_AC_DEF false None None false)
    as [bundles|e] eqn:Hr; [|discriminate Hreturns].
  destruct (asym_id_matches_residue_index Alphafold.Msa
              Alphafold.parse_a3m Alphafold.make_sequence_features
              Alphafold.make_msa_features
              Alphafold.empty_placeholder_template_features
              (λ _ _ _, Ok ∅) (λ s, s) Alphafold.MSA_FEATURES
              Alphafold.PDB_CHAIN_IDS (λ _, None) ["AC"; "DEF"] raw_AC_DEF
              false None None bundles)
    as (id & fd & residue_index & Hid & Hbundles & Hri & Hasym & _ & _ & Hall).
  - intros s d n. reflexivity.
  - intros msas fd Hfd. unfold Alphafold.make_msa_features in Hfd.
    destruct (remove_dups (concat msas).*1); [discriminate Hfd|].
    injection Hfd as <-. reflexivity.
  - intros n m. reflexivity.
  - discriminate.
  - vm_compute. reflexivity.
  - exact Hr.
  - injection Hid as <-.
    exists bundles, fd, residue_index. split; [reflexivity|].
    split; [rewrite Hbundles; apply lookup_singleton_eq|].
    split; [exact Hri|]. split; [exact Hasym|].
    destruct (Hall 2) as (a & Ha & _ & Hvalue); [simpl; lia|].
    injection Ha as <-. exact Hvalue.
Defined.

Lemma getChainFeatures_without_chains_witness :
  getChainFeatures_af (λ _ _ _, Ok ∅) (λ s, s) (λ _, None) [] raw_AC_DEF
    false (Some "") None true = Ok ∅
  ∧ ∃ message,
      getChainFeatures_af (λ _ _ _, Ok ∅) (λ s, s) (λ _, None) [] raw_AC_DEF
        false (Some "") None false = Raise (ValueError message).
Proof.
  destruct (getChainFeatures_without_chains Alphafold.Msa
              Alphafold.parse_a3m Alphafold.make_sequence_features
              Alphafold.make_msa_features
              Alphafold.empty_placeholder_template_features
              (λ _ _ _, Ok ∅) (λ s, s) Alphafold.MSA_FEATURES
              Alphafold.PDB_CHAIN_IDS (λ _, None) raw_AC_DEF false
              (Some "") None)
    as (Htrue & _ & Hfalse).
  - right. reflexivity.
  - split; [exact Htrue|exact Hfalse].
Defined.
